(** * Restaurant POS: order placement, kitchen tickets and status roll-up

    A shallow embedding of the order and kitchen endpoints of the
    [restaurant_pos] Frappe application:

    - [api/order.py]: [validate_order_items], [place_order],
      [create_kitchen_orders], [add_items_to_order],
      [create_kitchen_orders_for_items];
    - [api/kitchen.py]: [get_kitchen_orders], [update_order_status],
      [update_restaurant_order_status], [bump_order], [recall_order],
      [set_priority];
    - [api/menu.py]: [check_item_availability];
    - [api/waiter.py]: [mark_order_served];
    - the document controllers [KitchenOrder] and [RestaurantOrder]
      ([validate], [on_update], [calculate_totals], [calculate_tax],
      [start_preparation], [mark_ready], [mark_served]).

    Modelling conventions.

    - Frappe documents are records; a DocType table is the list of its rows
      in insertion order, a row being found by its [name].  Child rows
      (order lines, ticket lines) live inside their parent.
    - Status fields are free text in the source, so they are strings here.
    - Python's [float] amounts are read as exact rationals ([Qc]); rounding
      of binary floating point is outside the model.
    - An endpoint is a computation over the database that may raise; what
      was written before an exception stays written, as in the source,
      where every endpoint catches its own exceptions and returns.
    - [Document.save] runs [validate], writes the row, then runs
      [on_update]; [Document.insert] does the same after naming the row
      and its children.
    - The DocType schemas are not among the sources: a field that an
      endpoint does not set on a new document is unset, and the naming rule
      of a DocType is a parameter ([autoname]).
    - [now_datetime()] reads the clock of the current request.
    - Requested quantities are integers; [frappe.utils.cint] converts them
      through [float], so the model rounds them to 53 significant bits
      and reads an integer beyond the range of a float as 0. *)

From Stdlib Require Import List String ZArith QArith Qcanon.
From Stdlib Require Import DecimalString Permutation Lia.
Import ListNotations.
Open Scope string_scope.

(** ** Python values *)

Definition datetime := Z.

(** Truthiness of an optional text value: [None] and [""] are falsy. *)
Definition truthy_str (v : option string) : bool :=
  match v with
  | Some s => negb (s =? "")
  | None => false
  end.

(** Truthiness of an optional number: [None] and [0] are falsy. *)
Definition truthy_num (v : option Qc) : bool :=
  match v with
  | Some q => negb (Qc_eq_bool q 0%Qc)
  | None => false
  end.

(** [v or d] on an optional text value. *)
Definition str_or (v : option string) (d : string) : string :=
  match v with
  | Some s => if s =? "" then d else s
  | None => d
  end.

(** [v or d] on an optional number. *)
Definition num_or (v : option Qc) (d : Qc) : Qc :=
  match v with
  | Some q => if Qc_eq_bool q 0%Qc then d else q
  | None => d
  end.

(** [frappe.utils.flt] on an optional number. *)
Definition flt (v : option Qc) : Qc :=
  match v with
  | Some q => q
  | None => 0%Qc
  end.

Definition Z2Qc (z : Z) : Qc := Q2Qc (inject_Z z).

(** [x in xs] for a list of strings. *)
Definition str_in (x : string) (xs : list string) : bool :=
  existsb (String.eqb x) xs.

(** ** Documents *)

Record Modifier := {
  mod_name : string;
  additional_price : option Qc }.

Record MenuItem := {
  mi_name : string;
  mi_item_code : string;
  mi_item_name : string;
  mi_item_name_ar : string;
  mi_price : option Qc;
  mi_is_available : bool;
  mi_enabled : bool;
  mi_kitchen_station : option string;
  mi_preparation_time_minutes : option Z }.

Record RestaurantSettings := {
  service_charge_percent : option Qc;
  vat_percent : option Qc }.

Record RestaurantTable := {
  rt_name : string;
  rt_table_number : string;
  rt_branch : string;
  rt_qr_code : string;
  rt_enabled : bool;
  rt_current_session : option string;
  rt_current_order : option string }.

Record TableSession := {
  ts_name : string;
  ts_table : string;
  ts_customer_name : option string;
  ts_customer_phone : option string;
  ts_status : string;
  ts_started_at : option datetime }.

(** Child row of a Restaurant Order. *)
Record RestaurantOrderItem := {
  roi_name : string;
  roi_menu_item : string;
  roi_item_code : string;
  roi_item_name : string;
  roi_item_name_ar : string;
  roi_qty : Z;
  roi_rate : Qc;
  roi_amount : Qc;
  roi_modifiers : list Modifier;
  roi_special_instructions : string;
  roi_kitchen_station : option string;
  roi_preparation_time : Z;
  roi_status : string;
  roi_tax_rate : option Qc }.

Record RestaurantOrder := {
  ro_name : string;
  ro_table : string;
  ro_table_number : string;
  ro_branch : string;
  ro_table_session : string;
  ro_order_type : string;
  ro_customer_name : option string;
  ro_customer_phone : option string;
  ro_notes : option string;
  ro_language : string;
  ro_status : string;
  ro_subtotal : Qc;
  ro_service_charge : Qc;
  ro_service_charge_percent : Qc;
  ro_vat : Qc;
  ro_vat_percent : Qc;
  ro_grand_total : Qc;
  ro_total_qty : Qc;
  ro_tax_amount : Qc;
  ro_tip_amount : option Qc;
  ro_discount_amount : option Qc;
  ro_restaurant_table : option string;
  ro_estimated_preparation_time : Z;
  ro_items : list RestaurantOrderItem }.

(** Child row of a Kitchen Order. *)
Record KitchenOrderItem := {
  koi_name : string;
  koi_order_item : option string;
  koi_menu_item : string;
  koi_item_name : string;
  koi_item_name_ar : string;
  koi_qty : Z;
  koi_modifiers : list Modifier;
  koi_special_instructions : string;
  koi_status : string;
  koi_started_at : option datetime;
  koi_completed_at : option datetime }.

Record KitchenOrder := {
  kot_name : string;
  kot_restaurant_order : string;
  kot_table : string;
  kot_table_number : string;
  kot_branch : string;
  kot_kitchen_station : string;
  kot_order_type : string;
  kot_status : string;
  kot_priority : string;
  kot_notes : option string;
  kot_is_additional : Z;
  kot_started_at : option datetime;
  kot_completed_at : option datetime;
  kot_served_at : option datetime;
  kot_items : list KitchenOrderItem }.

(** ERPNext stock data read by [check_item_availability]. *)
Record Stock := {
  default_bom : string -> option string;
  bom_items : string -> list (string * Qc);
  branch_warehouse : string -> option string;
  stock_qty : string -> option string -> Qc }.

(** A [frappe.publish_realtime] call: event and room. *)
Record Realtime := {
  rt_event : string;
  rt_room : string }.

(** ** The database *)

Record Db := {
  db_tables : list RestaurantTable;
  db_sessions : list TableSession;
  db_menu : list MenuItem;
  db_settings : RestaurantSettings;
  db_stock : Stock;
  db_orders : list RestaurantOrder;
  db_kots : list KitchenOrder;
  db_serial : nat;
  db_now : datetime;
  db_realtime : list Realtime;
  db_error_log : list string }.

Definition with_tables (v : list RestaurantTable) (d : Db) : Db :=
  {| db_tables := v; db_sessions := db_sessions d; db_menu := db_menu d;
     db_settings := db_settings d; db_stock := db_stock d;
     db_orders := db_orders d; db_kots := db_kots d;
     db_serial := db_serial d; db_now := db_now d;
     db_realtime := db_realtime d; db_error_log := db_error_log d |}.

Definition with_sessions (v : list TableSession) (d : Db) : Db :=
  {| db_tables := db_tables d; db_sessions := v; db_menu := db_menu d;
     db_settings := db_settings d; db_stock := db_stock d;
     db_orders := db_orders d; db_kots := db_kots d;
     db_serial := db_serial d; db_now := db_now d;
     db_realtime := db_realtime d; db_error_log := db_error_log d |}.

Definition with_orders (v : list RestaurantOrder) (d : Db) : Db :=
  {| db_tables := db_tables d; db_sessions := db_sessions d;
     db_menu := db_menu d; db_settings := db_settings d;
     db_stock := db_stock d; db_orders := v; db_kots := db_kots d;
     db_serial := db_serial d; db_now := db_now d;
     db_realtime := db_realtime d; db_error_log := db_error_log d |}.

Definition with_kots (v : list KitchenOrder) (d : Db) : Db :=
  {| db_tables := db_tables d; db_sessions := db_sessions d;
     db_menu := db_menu d; db_settings := db_settings d;
     db_stock := db_stock d; db_orders := db_orders d; db_kots := v;
     db_serial := db_serial d; db_now := db_now d;
     db_realtime := db_realtime d; db_error_log := db_error_log d |}.

Definition with_serial (v : nat) (d : Db) : Db :=
  {| db_tables := db_tables d; db_sessions := db_sessions d;
     db_menu := db_menu d; db_settings := db_settings d;
     db_stock := db_stock d; db_orders := db_orders d; db_kots := db_kots d;
     db_serial := v; db_now := db_now d;
     db_realtime := db_realtime d; db_error_log := db_error_log d |}.

Definition with_realtime (v : list Realtime) (d : Db) : Db :=
  {| db_tables := db_tables d; db_sessions := db_sessions d;
     db_menu := db_menu d; db_settings := db_settings d;
     db_stock := db_stock d; db_orders := db_orders d; db_kots := db_kots d;
     db_serial := db_serial d; db_now := db_now d;
     db_realtime := v; db_error_log := db_error_log d |}.

Definition with_error_log (v : list string) (d : Db) : Db :=
  {| db_tables := db_tables d; db_sessions := db_sessions d;
     db_menu := db_menu d; db_settings := db_settings d;
     db_stock := db_stock d; db_orders := db_orders d; db_kots := db_kots d;
     db_serial := db_serial d; db_now := db_now d;
     db_realtime := db_realtime d; db_error_log := v |}.

(** ** Computations over the database that may raise *)

Inductive exn :=
| DoesNotExistError (doctype name : string)
| ValidationError (msg : string).

Definition exn_message (e : exn) : string :=
  match e with
  | DoesNotExistError doctype name => doctype ++ " " ++ name ++ " not found"
  | ValidationError msg => msg
  end.

Inductive outcome (A : Type) :=
| Ok (a : A)
| Raise (e : exn).
Arguments Ok {A} a.
Arguments Raise {A} e.

Definition M (A : Type) : Type := Db -> outcome A * Db.

Definition ret {A} (a : A) : M A := fun d => (Ok a, d).

Definition bind {A B} (m : M A) (k : A -> M B) : M B :=
  fun d =>
    match m d with
    | (Ok a, d') => k a d'
    | (Raise e, d') => (Raise e, d')
    end.

Definition throw {A} (e : exn) : M A := fun d => (Raise e, d).

(** [try: m except Exception as e: h e] *)
Definition try_except {A} (m : M A) (h : exn -> M A) : M A :=
  fun d =>
    match m d with
    | (Ok a, d') => (Ok a, d')
    | (Raise e, d') => h e d'
    end.

Definition gets {A} (f : Db -> A) : M A := fun d => (Ok (f d), d).

Definition modify (f : Db -> Db) : M unit := fun d => (Ok tt, f d).

Declare Scope db_scope.
Delimit Scope db_scope with db.
Notation "x <- m ;; k" := (bind m (fun x => k))
  (at level 61, m at next level, right associativity) : db_scope.
Notation "m ;; k" := (bind m (fun _ => k))
  (at level 61, right associativity) : db_scope.
Open Scope db_scope.

(** [for x in xs: body x] *)
Fixpoint for_each {A} (xs : list A) (body : A -> M unit) : M unit :=
  match xs with
  | [] => ret tt
  | x :: rest => body x ;; for_each rest body
  end.

Definition when (b : bool) (m : M unit) : M unit :=
  if b then m else ret tt.

Definition state_of {A} (r : outcome A * Db) : Db := snd r.
Definition result_of {A} (r : outcome A * Db) : outcome A := fst r.

(** ** Framework services *)

Definition now_datetime : M datetime := gets db_now.

Definition publish_realtime (event room : string) : M unit :=
  modify (fun d =>
    with_realtime (db_realtime d ++ [{| rt_event := event; rt_room := room |}]) d).

Definition log_error (msg : string) : M unit :=
  modify (fun d => with_error_log (db_error_log d ++ [msg]) d).

(** Rows of a table are found and replaced by [name]. *)
Fixpoint replace_row {A} (name_of : A -> string) (row : A) (rows : list A)
  : list A :=
  match rows with
  | [] => []
  | r :: rest =>
      if name_of r =? name_of row then row :: rest
      else r :: replace_row name_of row rest
  end.

Definition find_row {A} (name_of : A -> string) (name : string)
  (rows : list A) : option A :=
  find (fun r => name_of r =? name) rows.

(** ** Restaurant Order controller
    ([doctype/restaurant_order/restaurant_order.py]) *)

Definition set_roi_amount (v : Qc) (i : RestaurantOrderItem)
  : RestaurantOrderItem :=
  {| roi_name := roi_name i; roi_menu_item := roi_menu_item i;
     roi_item_code := roi_item_code i; roi_item_name := roi_item_name i;
     roi_item_name_ar := roi_item_name_ar i; roi_qty := roi_qty i;
     roi_rate := roi_rate i; roi_amount := v;
     roi_modifiers := roi_modifiers i;
     roi_special_instructions := roi_special_instructions i;
     roi_kitchen_station := roi_kitchen_station i;
     roi_preparation_time := roi_preparation_time i;
     roi_status := roi_status i; roi_tax_rate := roi_tax_rate i |}.

Definition set_roi_status (v : string) (i : RestaurantOrderItem)
  : RestaurantOrderItem :=
  {| roi_name := roi_name i; roi_menu_item := roi_menu_item i;
     roi_item_code := roi_item_code i; roi_item_name := roi_item_name i;
     roi_item_name_ar := roi_item_name_ar i; roi_qty := roi_qty i;
     roi_rate := roi_rate i; roi_amount := roi_amount i;
     roi_modifiers := roi_modifiers i;
     roi_special_instructions := roi_special_instructions i;
     roi_kitchen_station := roi_kitchen_station i;
     roi_preparation_time := roi_preparation_time i;
     roi_status := v; roi_tax_rate := roi_tax_rate i |}.

Definition set_roi_name (v : string) (i : RestaurantOrderItem)
  : RestaurantOrderItem :=
  {| roi_name := v; roi_menu_item := roi_menu_item i;
     roi_item_code := roi_item_code i; roi_item_name := roi_item_name i;
     roi_item_name_ar := roi_item_name_ar i; roi_qty := roi_qty i;
     roi_rate := roi_rate i; roi_amount := roi_amount i;
     roi_modifiers := roi_modifiers i;
     roi_special_instructions := roi_special_instructions i;
     roi_kitchen_station := roi_kitchen_station i;
     roi_preparation_time := roi_preparation_time i;
     roi_status := roi_status i; roi_tax_rate := roi_tax_rate i |}.

Definition set_ro_status (v : string) (o : RestaurantOrder)
  : RestaurantOrder :=
  {| ro_name := ro_name o; ro_table := ro_table o;
     ro_table_number := ro_table_number o; ro_branch := ro_branch o;
     ro_table_session := ro_table_session o;
     ro_order_type := ro_order_type o;
     ro_customer_name := ro_customer_name o;
     ro_customer_phone := ro_customer_phone o; ro_notes := ro_notes o;
     ro_language := ro_language o; ro_status := v;
     ro_subtotal := ro_subtotal o; ro_service_charge := ro_service_charge o;
     ro_service_charge_percent := ro_service_charge_percent o;
     ro_vat := ro_vat o; ro_vat_percent := ro_vat_percent o;
     ro_grand_total := ro_grand_total o; ro_total_qty := ro_total_qty o;
     ro_tax_amount := ro_tax_amount o; ro_tip_amount := ro_tip_amount o;
     ro_discount_amount := ro_discount_amount o;
     ro_restaurant_table := ro_restaurant_table o;
     ro_estimated_preparation_time := ro_estimated_preparation_time o;
     ro_items := ro_items o |}.

Definition set_ro_items (v : list RestaurantOrderItem) (o : RestaurantOrder)
  : RestaurantOrder :=
  {| ro_name := ro_name o; ro_table := ro_table o;
     ro_table_number := ro_table_number o; ro_branch := ro_branch o;
     ro_table_session := ro_table_session o;
     ro_order_type := ro_order_type o;
     ro_customer_name := ro_customer_name o;
     ro_customer_phone := ro_customer_phone o; ro_notes := ro_notes o;
     ro_language := ro_language o; ro_status := ro_status o;
     ro_subtotal := ro_subtotal o; ro_service_charge := ro_service_charge o;
     ro_service_charge_percent := ro_service_charge_percent o;
     ro_vat := ro_vat o; ro_vat_percent := ro_vat_percent o;
     ro_grand_total := ro_grand_total o; ro_total_qty := ro_total_qty o;
     ro_tax_amount := ro_tax_amount o; ro_tip_amount := ro_tip_amount o;
     ro_discount_amount := ro_discount_amount o;
     ro_restaurant_table := ro_restaurant_table o;
     ro_estimated_preparation_time := ro_estimated_preparation_time o;
     ro_items := v |}.

Definition set_ro_name (v : string) (o : RestaurantOrder) : RestaurantOrder :=
  {| ro_name := v; ro_table := ro_table o;
     ro_table_number := ro_table_number o; ro_branch := ro_branch o;
     ro_table_session := ro_table_session o;
     ro_order_type := ro_order_type o;
     ro_customer_name := ro_customer_name o;
     ro_customer_phone := ro_customer_phone o; ro_notes := ro_notes o;
     ro_language := ro_language o; ro_status := ro_status o;
     ro_subtotal := ro_subtotal o; ro_service_charge := ro_service_charge o;
     ro_service_charge_percent := ro_service_charge_percent o;
     ro_vat := ro_vat o; ro_vat_percent := ro_vat_percent o;
     ro_grand_total := ro_grand_total o; ro_total_qty := ro_total_qty o;
     ro_tax_amount := ro_tax_amount o; ro_tip_amount := ro_tip_amount o;
     ro_discount_amount := ro_discount_amount o;
     ro_restaurant_table := ro_restaurant_table o;
     ro_estimated_preparation_time := ro_estimated_preparation_time o;
     ro_items := ro_items o |}.

(** The five derived amounts written by [calculate_totals]. *)
Definition set_ro_totals (total_qty subtotal service_charge tax_amount
  grand_total : Qc) (o : RestaurantOrder) : RestaurantOrder :=
  {| ro_name := ro_name o; ro_table := ro_table o;
     ro_table_number := ro_table_number o; ro_branch := ro_branch o;
     ro_table_session := ro_table_session o;
     ro_order_type := ro_order_type o;
     ro_customer_name := ro_customer_name o;
     ro_customer_phone := ro_customer_phone o; ro_notes := ro_notes o;
     ro_language := ro_language o; ro_status := ro_status o;
     ro_subtotal := subtotal; ro_service_charge := service_charge;
     ro_service_charge_percent := ro_service_charge_percent o;
     ro_vat := ro_vat o; ro_vat_percent := ro_vat_percent o;
     ro_grand_total := grand_total; ro_total_qty := total_qty;
     ro_tax_amount := tax_amount; ro_tip_amount := ro_tip_amount o;
     ro_discount_amount := ro_discount_amount o;
     ro_restaurant_table := ro_restaurant_table o;
     ro_estimated_preparation_time := ro_estimated_preparation_time o;
     ro_items := ro_items o |}.

(** [RestaurantOrder.calculate_tax], run on lines whose amounts are set. *)
Definition calculate_tax (items : list RestaurantOrderItem) : Qc :=
  fold_left
    (fun total_tax item =>
       if truthy_num (roi_tax_rate item)
       then (total_tax + roi_amount item * flt (roi_tax_rate item) / Z2Qc 100)%Qc
       else total_tax)
    items 0%Qc.

(** [RestaurantOrder.calculate_totals] *)
Definition calculate_totals (settings : RestaurantSettings)
  (self : RestaurantOrder) : RestaurantOrder :=
  let items :=
    map (fun item => set_roi_amount (roi_rate item * Z2Qc (roi_qty item))%Qc item)
        (ro_items self) in
  let total_qty :=
    fold_left (fun acc item => (acc + Z2Qc (roi_qty item))%Qc) items 0%Qc in
  let subtotal :=
    fold_left (fun acc item => (acc + roi_amount item)%Qc) items 0%Qc in
  let service_charge :=
    if truthy_num (service_charge_percent settings)
    then (subtotal * flt (service_charge_percent settings) / Z2Qc 100)%Qc
    else 0%Qc in
  let tax_amount := calculate_tax items in
  let grand_total :=
    (subtotal + tax_amount + service_charge + flt (ro_tip_amount self)
     - flt (ro_discount_amount self))%Qc in
  set_ro_totals total_qty subtotal service_charge tax_amount grand_total
    (set_ro_items items self).

Definition set_rt_current_order (v : option string) (t : RestaurantTable)
  : RestaurantTable :=
  {| rt_name := rt_name t; rt_table_number := rt_table_number t;
     rt_branch := rt_branch t; rt_qr_code := rt_qr_code t;
     rt_enabled := rt_enabled t; rt_current_session := rt_current_session t;
     rt_current_order := v |}.

Definition set_rt_current_session (v : option string) (t : RestaurantTable)
  : RestaurantTable :=
  {| rt_name := rt_name t; rt_table_number := rt_table_number t;
     rt_branch := rt_branch t; rt_qr_code := rt_qr_code t;
     rt_enabled := rt_enabled t; rt_current_session := v;
     rt_current_order := rt_current_order t |}.

(** [frappe.db.set_value] on one field of the rows named [name]. *)
Definition set_value {A} (name_of : A -> string) (name : string)
  (upd : A -> A) (rows : list A) : list A :=
  map (fun r => if name_of r =? name then upd r else r) rows.

(** [RestaurantOrder.update_table_status] *)
Definition update_table_status (self : RestaurantOrder) : M unit :=
  when (truthy_str (ro_restaurant_table self)
        && negb (str_in (ro_status self) ["Cancelled"; "Completed"; "Paid"]))
    (modify (fun d =>
       with_tables
         (set_value rt_name (str_or (ro_restaurant_table self) "")
            (set_rt_current_order (Some (ro_name self))) (db_tables d)) d)).

(** [order.save()]: [validate], row update, [on_update]; gives back the
    document as [validate] left it. *)
Definition ro_save (order : RestaurantOrder) : M RestaurantOrder :=
  settings <- gets db_settings ;;
  let order := calculate_totals settings order in
  modify (fun d => with_orders (replace_row ro_name order (db_orders d)) d) ;;
  update_table_status order ;;
  ret order.

(** [frappe.get_doc("Restaurant Order", name)] *)
Definition get_order (name : string) : M RestaurantOrder :=
  fun d =>
    match find_row ro_name name (db_orders d) with
    | Some o => (Ok o, d)
    | None => (Raise (DoesNotExistError "Restaurant Order" name), d)
    end.

(** ** Kitchen API ([api/kitchen.py]) *)

(** The status the reconciler derives from the tickets' statuses. *)
Definition new_status_of (statuses : list string) : string :=
  if forallb (fun s => s =? "Ready") statuses then "Ready"
  else if existsb (fun s => s =? "Preparing") statuses then "Preparing"
  else if forallb (fun s => s =? "New") statuses then "Confirmed"
  else "Preparing".

Definition sticky_statuses : list string :=
  ["Served"; "Completed"; "Cancelled"; "Paid"].

(** [frappe.get_all("Kitchen Order", filters={"restaurant_order": ...})] *)
Definition kots_of (order_name : string) (d : Db) : list KitchenOrder :=
  filter (fun k => kot_restaurant_order k =? order_name) (db_kots d).

(** [update_restaurant_order_status] *)
Definition update_restaurant_order_status (order_name : string) : M unit :=
  try_except
    (kots <- gets (kots_of order_name) ;;
     match kots with
     | [] => ret tt
     | _ :: _ =>
         let statuses := map kot_status kots in
         let new_status := new_status_of statuses in
         order <- get_order order_name ;;
         when (negb (str_in (ro_status order) sticky_statuses))
           (_ <- ro_save (set_ro_status new_status order) ;;
            publish_realtime "restaurant:order_status"
              ("order:" ++ order_name))
     end)
    (fun e => log_error ("Order Status Update Error: " ++ exn_message e)).

(** ** Kitchen Order controller
    ([doctype/kitchen_order/kitchen_order.py]) *)

Definition set_koi_name (v : string) (i : KitchenOrderItem)
  : KitchenOrderItem :=
  {| koi_name := v; koi_order_item := koi_order_item i;
     koi_menu_item := koi_menu_item i; koi_item_name := koi_item_name i;
     koi_item_name_ar := koi_item_name_ar i; koi_qty := koi_qty i;
     koi_modifiers := koi_modifiers i;
     koi_special_instructions := koi_special_instructions i;
     koi_status := koi_status i; koi_started_at := koi_started_at i;
     koi_completed_at := koi_completed_at i |}.

Definition set_koi_status (v : string) (i : KitchenOrderItem)
  : KitchenOrderItem :=
  {| koi_name := koi_name i; koi_order_item := koi_order_item i;
     koi_menu_item := koi_menu_item i; koi_item_name := koi_item_name i;
     koi_item_name_ar := koi_item_name_ar i; koi_qty := koi_qty i;
     koi_modifiers := koi_modifiers i;
     koi_special_instructions := koi_special_instructions i;
     koi_status := v; koi_started_at := koi_started_at i;
     koi_completed_at := koi_completed_at i |}.

Definition set_koi_started_at (v : option datetime) (i : KitchenOrderItem)
  : KitchenOrderItem :=
  {| koi_name := koi_name i; koi_order_item := koi_order_item i;
     koi_menu_item := koi_menu_item i; koi_item_name := koi_item_name i;
     koi_item_name_ar := koi_item_name_ar i; koi_qty := koi_qty i;
     koi_modifiers := koi_modifiers i;
     koi_special_instructions := koi_special_instructions i;
     koi_status := koi_status i; koi_started_at := v;
     koi_completed_at := koi_completed_at i |}.

Definition set_koi_completed_at (v : option datetime) (i : KitchenOrderItem)
  : KitchenOrderItem :=
  {| koi_name := koi_name i; koi_order_item := koi_order_item i;
     koi_menu_item := koi_menu_item i; koi_item_name := koi_item_name i;
     koi_item_name_ar := koi_item_name_ar i; koi_qty := koi_qty i;
     koi_modifiers := koi_modifiers i;
     koi_special_instructions := koi_special_instructions i;
     koi_status := koi_status i; koi_started_at := koi_started_at i;
     koi_completed_at := v |}.

Definition set_kot_name (v : string) (k : KitchenOrder) : KitchenOrder :=
  {| kot_name := v; kot_restaurant_order := kot_restaurant_order k;
     kot_table := kot_table k; kot_table_number := kot_table_number k;
     kot_branch := kot_branch k; kot_kitchen_station := kot_kitchen_station k;
     kot_order_type := kot_order_type k; kot_status := kot_status k;
     kot_priority := kot_priority k; kot_notes := kot_notes k;
     kot_is_additional := kot_is_additional k;
     kot_started_at := kot_started_at k;
     kot_completed_at := kot_completed_at k;
     kot_served_at := kot_served_at k; kot_items := kot_items k |}.

Definition set_kot_status (v : string) (k : KitchenOrder) : KitchenOrder :=
  {| kot_name := kot_name k; kot_restaurant_order := kot_restaurant_order k;
     kot_table := kot_table k; kot_table_number := kot_table_number k;
     kot_branch := kot_branch k; kot_kitchen_station := kot_kitchen_station k;
     kot_order_type := kot_order_type k; kot_status := v;
     kot_priority := kot_priority k; kot_notes := kot_notes k;
     kot_is_additional := kot_is_additional k;
     kot_started_at := kot_started_at k;
     kot_completed_at := kot_completed_at k;
     kot_served_at := kot_served_at k; kot_items := kot_items k |}.

Definition set_kot_started_at (v : option datetime) (k : KitchenOrder)
  : KitchenOrder :=
  {| kot_name := kot_name k; kot_restaurant_order := kot_restaurant_order k;
     kot_table := kot_table k; kot_table_number := kot_table_number k;
     kot_branch := kot_branch k; kot_kitchen_station := kot_kitchen_station k;
     kot_order_type := kot_order_type k; kot_status := kot_status k;
     kot_priority := kot_priority k; kot_notes := kot_notes k;
     kot_is_additional := kot_is_additional k;
     kot_started_at := v;
     kot_completed_at := kot_completed_at k;
     kot_served_at := kot_served_at k; kot_items := kot_items k |}.

Definition set_kot_completed_at (v : option datetime) (k : KitchenOrder)
  : KitchenOrder :=
  {| kot_name := kot_name k; kot_restaurant_order := kot_restaurant_order k;
     kot_table := kot_table k; kot_table_number := kot_table_number k;
     kot_branch := kot_branch k; kot_kitchen_station := kot_kitchen_station k;
     kot_order_type := kot_order_type k; kot_status := kot_status k;
     kot_priority := kot_priority k; kot_notes := kot_notes k;
     kot_is_additional := kot_is_additional k;
     kot_started_at := kot_started_at k;
     kot_completed_at := v;
     kot_served_at := kot_served_at k; kot_items := kot_items k |}.

Definition set_kot_served_at (v : option datetime) (k : KitchenOrder)
  : KitchenOrder :=
  {| kot_name := kot_name k; kot_restaurant_order := kot_restaurant_order k;
     kot_table := kot_table k; kot_table_number := kot_table_number k;
     kot_branch := kot_branch k; kot_kitchen_station := kot_kitchen_station k;
     kot_order_type := kot_order_type k; kot_status := kot_status k;
     kot_priority := kot_priority k; kot_notes := kot_notes k;
     kot_is_additional := kot_is_additional k;
     kot_started_at := kot_started_at k;
     kot_completed_at := kot_completed_at k;
     kot_served_at := v; kot_items := kot_items k |}.

Definition set_kot_items (v : list KitchenOrderItem) (k : KitchenOrder)
  : KitchenOrder :=
  {| kot_name := kot_name k; kot_restaurant_order := kot_restaurant_order k;
     kot_table := kot_table k; kot_table_number := kot_table_number k;
     kot_branch := kot_branch k; kot_kitchen_station := kot_kitchen_station k;
     kot_order_type := kot_order_type k; kot_status := kot_status k;
     kot_priority := kot_priority k; kot_notes := kot_notes k;
     kot_is_additional := kot_is_additional k;
     kot_started_at := kot_started_at k;
     kot_completed_at := kot_completed_at k;
     kot_served_at := kot_served_at k; kot_items := v |}.

(** [KitchenOrder.validate] *)
Definition kot_validate (self : KitchenOrder) : M unit :=
  match kot_items self with
  | [] => throw (ValidationError "Kitchen order must have at least one item")
  | _ :: _ => ret tt
  end.

(** [KitchenOrder.on_update] *)
Definition kot_on_update (self : KitchenOrder) : M unit :=
  update_restaurant_order_status (kot_restaurant_order self).

(** [kot.save()]: [validate], row update, [on_update]. *)
Definition kot_save (kot : KitchenOrder) : M unit :=
  kot_validate kot ;;
  modify (fun d => with_kots (replace_row kot_name kot (db_kots d)) d) ;;
  kot_on_update kot.

(** [frappe.get_doc("Kitchen Order", name)] *)
Definition get_kot (name : string) : M KitchenOrder :=
  fun d =>
    match find_row kot_name name (db_kots d) with
    | Some k => (Ok k, d)
    | None => (Raise (DoesNotExistError "Kitchen Order" name), d)
    end.

(** ** Kitchen API, continued *)

(** What an endpoint returns: [{"success": True, "message", "data"}] or
    [{"success": False, "message"}], the latter with an optional
    ["errors"] list. *)
Inductive Response (D : Type) :=
| Success (message : string) (data : D)
| Failure (message : string) (errors : option (list string)).
Arguments Success {D} message data.
Arguments Failure {D} message errors.

(** The loop of [update_order_status] over the lines when [item_id] is
    given: the first line named [item_id] takes [status] and, for
    'Preparing' or 'Ready', a timestamp; the loop then stops. *)
Fixpoint set_line_status (now : datetime) (item_id status : string)
  (items : list KitchenOrderItem) : list KitchenOrderItem :=
  match items with
  | [] => []
  | item :: rest =>
      if koi_name item =? item_id then
        let item := set_koi_status status item in
        let item :=
          if status =? "Preparing" then set_koi_started_at (Some now) item
          else if status =? "Ready" then set_koi_completed_at (Some now) item
          else item in
        item :: rest
      else item :: set_line_status now item_id status rest
  end.

Definition all_ready (items : list KitchenOrderItem) : bool :=
  forallb (fun item => koi_status item =? "Ready") items.

(** The [if item_id:] branch of [update_order_status]. *)
Definition update_line (now : datetime) (item_id status : string)
  (kot : KitchenOrder) : KitchenOrder :=
  let kot := set_kot_items (set_line_status now item_id status (kot_items kot))
               kot in
  if all_ready (kot_items kot)
  then set_kot_completed_at (Some now) (set_kot_status "Ready" kot)
  else kot.

(** The [else] branch of [update_order_status]: the whole ticket. *)
Definition update_ticket (now : datetime) (status : string)
  (kot : KitchenOrder) : KitchenOrder :=
  let kot := set_kot_status status kot in
  if status =? "Preparing" then
    let kot := set_kot_started_at (Some now) kot in
    set_kot_items
      (map (fun item =>
              if koi_status item =? "Pending"
              then set_koi_started_at (Some now)
                     (set_koi_status "Preparing" item)
              else item)
           (kot_items kot))
      kot
  else if status =? "Ready" then
    let kot := set_kot_completed_at (Some now) kot in
    set_kot_items
      (map (fun item =>
              if negb (koi_status item =? "Ready")
              then set_koi_completed_at (Some now)
                     (set_koi_status "Ready" item)
              else item)
           (kot_items kot))
      kot
  else kot.

(** The ticket as [update_order_status] leaves it before saving. *)
Definition updated_kot (now : datetime) (status : string)
  (item_id : option string) (kot : KitchenOrder) : KitchenOrder :=
  if truthy_str item_id
  then update_line now (str_or item_id "") status kot
  else update_ticket now status kot.

(** [update_order_status(kot_id, status, item_id=None)] *)
Definition update_order_status (kot_id status : string)
  (item_id : option string) : M (Response (string * string)) :=
  try_except
    (kot <- get_kot kot_id ;;
     now <- now_datetime ;;
     let kot := updated_kot now status item_id kot in
     kot_save kot ;;
     update_restaurant_order_status (kot_restaurant_order kot) ;;
     publish_realtime "restaurant:kot_update" ("kitchen:" ++ kot_branch kot) ;;
     when (kot_status kot =? "Ready")
       (publish_realtime "restaurant:order_ready"
          ("waiters:" ++ kot_branch kot)) ;;
     ret (Success "Status updated" (kot_id, kot_status kot)))
    (fun e =>
       log_error ("KOT Update Error: " ++ exn_message e) ;;
       ret (Failure (exn_message e) None)).

(** [frappe.db.set_value("Restaurant Order", name, "status", v)] *)
Definition db_set_order_status (name v : string) : M unit :=
  modify (fun d =>
    with_orders (set_value ro_name name (set_ro_status v) (db_orders d)) d).

(** [frappe.db.set_value("Restaurant Order Item", name, "status", v)]:
    the child row of that name, in whichever order holds it. *)
Definition db_set_order_item_status (name v : string) : M unit :=
  modify (fun d =>
    with_orders
      (map (fun o =>
              set_ro_items
                (set_value roi_name name (set_roi_status v) (ro_items o)) o)
           (db_orders d)) d).

(** The test of [bump_order]: no ticket of the order exists whose status is
    not in ['Served', 'Cancelled']. *)
Definition all_kots_served (order_name : string) (d : Db) : bool :=
  negb (existsb
          (fun k => (kot_restaurant_order k =? order_name)
                    && negb (str_in (kot_status k) ["Served"; "Cancelled"]))
          (db_kots d)).

(** The ticket as [bump_order] leaves it before saving. *)
Definition bumped_kot (now : datetime) (kot : KitchenOrder) : KitchenOrder :=
  let kot := set_kot_served_at (Some now) (set_kot_status "Served" kot) in
  set_kot_items (map (set_koi_status "Served") (kot_items kot)) kot.

(** The ticket as [recall_order] leaves it before saving. *)
Definition recalled_kot (kot : KitchenOrder) : KitchenOrder :=
  let kot := set_kot_served_at None (set_kot_status "Ready" kot) in
  set_kot_items (map (set_koi_status "Ready") (kot_items kot)) kot.

(** [bump_order(kot_id)] *)
Definition bump_order (kot_id : string) : M (Response unit) :=
  try_except
    (kot <- get_kot kot_id ;;
     now <- now_datetime ;;
     let kot := bumped_kot now kot in
     kot_save kot ;;
     all_served <- gets (all_kots_served (kot_restaurant_order kot)) ;;
     when all_served
       (db_set_order_status (kot_restaurant_order kot) "Served") ;;
     for_each (kot_items kot) (fun item =>
       when (truthy_str (koi_order_item item))
         (db_set_order_item_status (str_or (koi_order_item item) "")
            "Served")) ;;
     ret (Success "Order bumped" tt))
    (fun e =>
       log_error ("Bump Order Error: " ++ exn_message e) ;;
       ret (Failure (exn_message e) None)).

(** [recall_order(kot_id)] *)
Definition recall_order (kot_id : string) : M (Response unit) :=
  try_except
    (kot <- get_kot kot_id ;;
     let kot := recalled_kot kot in
     kot_save kot ;;
     db_set_order_status (kot_restaurant_order kot) "Ready" ;;
     publish_realtime "restaurant:kot_recall" ("kitchen:" ++ kot_branch kot) ;;
     ret (Success "Order recalled" tt))
    (fun e =>
       log_error ("Recall Order Error: " ++ exn_message e) ;;
       ret (Failure (exn_message e) None)).

(** ** Menu API ([api/menu.py]) *)

(** [check_item_availability(item_code, branch)]: an item without an active
    default BOM is available; otherwise every BOM line must be in stock. *)
Definition check_item_availability (d : Db) (item_code : string)
  (branch : option string) : bool :=
  match default_bom (db_stock d) item_code with
  | None => true
  | Some bom =>
      let warehouse :=
        if truthy_str branch
        then branch_warehouse (db_stock d) (str_or branch "")
        else None in
      forallb
        (fun bi : string * Qc =>
           Qle_bool (this (snd bi))
             (this (stock_qty (db_stock d) (fst bi) warehouse)))
        (bom_items (db_stock d) bom)
  end.

(** ** Order API ([api/order.py]) *)

(** One requested entry: the ["item"] or ["menu_item"] key, ["qty"]
    (already an integer, absent means 1), ["modifiers"], ["notes"]. *)
Record OrderEntry := {
  oe_item : option string;
  oe_menu_item : option string;
  oe_qty : option Z;
  oe_modifiers : list Modifier;
  oe_notes : option string }.

(** One validated line, the dict built by [validate_order_items]. *)
Record ValidatedItem := {
  vi_menu_item : string;
  vi_item_code : string;
  vi_item_name : string;
  vi_item_name_ar : string;
  vi_qty : Z;
  vi_rate : Qc;
  vi_total : Qc;
  vi_modifiers : list Modifier;
  vi_notes : string;
  vi_kitchen_station : option string;
  vi_preparation_time : Z }.

Definition entry_item_name (item : OrderEntry) : option string :=
  if truthy_str (oe_item item) then oe_item item else oe_menu_item item.

(** [float(z)] for an integer [z], as the integer the float stands for:
    [z] itself while it fits the 53 bits of the significand, else the
    nearest value with a 53-bit significand, ties to even.  [None] is the
    [OverflowError] of an integer beyond the range of a float. *)
Definition float_of_int (z : Z) : option Z :=
  let a := Z.abs z in
  let n := (Z.log2 a + 1)%Z in
  if (n <=? 53)%Z then Some z
  else
    let shift := (n - 53)%Z in
    let q := Z.shiftr a shift in
    let r := (a - Z.shiftl q shift)%Z in
    let half := Z.shiftl 1 (shift - 1) in
    let q :=
      if ((half <? r)%Z || ((r =? half)%Z && Z.odd q))%bool then (q + 1)%Z
      else q in
    let v := Z.shiftl q shift in
    if (1024 <? Z.log2 v + 1)%Z then None else Some (Z.sgn z * v)%Z.

(** [frappe.utils.cint] on an integer: [int(float(s))], and 0 when the
    conversion raises. *)
Definition cint (z : Z) : Z :=
  match float_of_int z with
  | Some v => v
  | None => 0%Z
  end.

(** [cint(item.get("qty", 1))] *)
Definition entry_qty (item : OrderEntry) : Z :=
  match oe_qty item with
  | Some q => cint q
  | None => 1%Z
  end.

(** [str(x)] for an optional text value. *)
Definition py_str (v : option string) : string :=
  match v with
  | Some s => s
  | None => "None"
  end.

Definition modifier_price (modifiers : list Modifier) : Qc :=
  fold_left
    (fun acc m =>
       if truthy_num (additional_price m)
       then (acc + flt (additional_price m))%Qc
       else acc)
    modifiers 0%Qc.

Definition int_or (v : option Z) (d : Z) : Z :=
  match v with
  | Some z => if (z =? 0)%Z then d else z
  | None => d
  end.

(** The body of the loop of [validate_order_items] for one entry: the
    entry is skipped, rejected with a message, or validated. *)
Inductive entry_result :=
| Skipped
| Rejected (error : string)
| Validated (line : ValidatedItem).

Definition validate_entry (d : Db) (branch : option string)
  (item : OrderEntry) : entry_result :=
  let menu_item_name := entry_item_name item in
  let qty := entry_qty item in
  let modifiers := oe_modifiers item in
  if (qty <? 1)%Z then Skipped
  else
    match match menu_item_name with
          | Some n => find_row mi_name n (db_menu d)
          | None => None
          end with
    | None => Rejected ("Item not found: " ++ py_str menu_item_name)
    | Some menu_item =>
        if negb (mi_enabled menu_item)
        then Rejected ("Item not available: " ++ mi_item_name menu_item)
        else if negb (check_item_availability d (mi_item_code menu_item) branch)
        then Rejected ("Item out of stock: " ++ mi_item_name menu_item)
        else
          let base_price := flt (mi_price menu_item) in
          let unit_price := (base_price + modifier_price modifiers)%Qc in
          let total := (unit_price * Z2Qc qty)%Qc in
          Validated
            {| vi_menu_item := mi_name menu_item;
               vi_item_code := mi_item_code menu_item;
               vi_item_name := mi_item_name menu_item;
               vi_item_name_ar := mi_item_name_ar menu_item;
               vi_qty := qty;
               vi_rate := unit_price;
               vi_total := total;
               vi_modifiers := modifiers;
               vi_notes := match oe_notes item with Some n => n | None => "" end;
               vi_kitchen_station := mi_kitchen_station menu_item;
               vi_preparation_time :=
                 int_or (mi_preparation_time_minutes menu_item) 10 |}
    end.

(** [validate_order_items(items, branch)] *)
Definition validate_order_items (d : Db) (items : list OrderEntry)
  (branch : option string) : list ValidatedItem * list string :=
  fold_left
    (fun acc item =>
       match validate_entry d branch item with
       | Skipped => acc
       | Rejected error => (fst acc, (snd acc ++ [error])%list)
       | Validated line => ((fst acc ++ [line])%list, snd acc)
       end)
    items ([], []).

(** The amounts [place_order] computes from the validated lines. *)
Definition place_subtotal (validated : list ValidatedItem) : Qc :=
  fold_left (fun acc item => (acc + vi_total item)%Qc) validated 0%Qc.

Definition place_service_charge (settings : RestaurantSettings)
  (subtotal : Qc) : Qc :=
  (subtotal * num_or (service_charge_percent settings) 0 / Z2Qc 100)%Qc.

Definition place_vat (settings : RestaurantSettings)
  (subtotal service_charge : Qc) : Qc :=
  ((subtotal + service_charge) * num_or (vat_percent settings) (Z2Qc 15)
   / Z2Qc 100)%Qc.

(** The line appended to an order for a validated item. *)
Definition order_line (item : ValidatedItem) : RestaurantOrderItem :=
  {| roi_name := "";
     roi_menu_item := vi_menu_item item;
     roi_item_code := vi_item_code item;
     roi_item_name := vi_item_name item;
     roi_item_name_ar := vi_item_name_ar item;
     roi_qty := vi_qty item;
     roi_rate := vi_rate item;
     roi_amount := vi_total item;
     roi_modifiers := vi_modifiers item;
     roi_special_instructions := vi_notes item;
     roi_kitchen_station := vi_kitchen_station item;
     roi_preparation_time := vi_preparation_time item;
     roi_status := "Pending";
     roi_tax_rate := None |}.

Definition max_prep_time (validated : list ValidatedItem) : Z :=
  fold_left
    (fun acc item =>
       if (acc <? vi_preparation_time item)%Z then vi_preparation_time item
       else acc)
    validated 0%Z.

(** Grouping by station as the dict [station_items] does: keys in order of
    first appearance, each with its items in order. *)
Fixpoint group_add {A} (station : string) (item : A)
  (groups : list (string * list A)) : list (string * list A) :=
  match groups with
  | [] => [(station, [item])]
  | (s, items) :: rest =>
      if s =? station then (s, (items ++ [item])%list) :: rest
      else (s, items) :: group_add station item rest
  end.

Definition group_by_station {A} (station_of : A -> string) (items : list A)
  : list (string * list A) :=
  fold_left (fun groups item => group_add (station_of item) item groups)
    items [].

(** Ticket line built by [create_kitchen_orders] from an order line. *)
Definition kot_line_of_order_line (item : RestaurantOrderItem)
  : KitchenOrderItem :=
  {| koi_name := "";
     koi_order_item := Some (roi_name item);
     koi_menu_item := roi_menu_item item;
     koi_item_name := roi_item_name item;
     koi_item_name_ar := roi_item_name_ar item;
     koi_qty := roi_qty item;
     koi_modifiers := roi_modifiers item;
     koi_special_instructions := roi_special_instructions item;
     koi_status := "Pending";
     koi_started_at := None;
     koi_completed_at := None |}.

(** Ticket line built by [create_kitchen_orders_for_items] from a validated
    item: no [order_item] key is given. *)
Definition kot_line_of_validated (item : ValidatedItem) : KitchenOrderItem :=
  {| koi_name := "";
     koi_order_item := None;
     koi_menu_item := vi_menu_item item;
     koi_item_name := vi_item_name item;
     koi_item_name_ar := vi_item_name_ar item;
     koi_qty := vi_qty item;
     koi_modifiers := vi_modifiers item;
     koi_special_instructions := vi_notes item;
     koi_status := "Pending";
     koi_started_at := None;
     koi_completed_at := None |}.

(** [item.kitchen_station or "Main Kitchen"] for an order line. *)
Definition station_of_line (item : RestaurantOrderItem) : string :=
  str_or (roi_kitchen_station item) "Main Kitchen".

(** [item["kitchen_station"] or "Main Kitchen"] for a validated item. *)
Definition station_of_validated (item : ValidatedItem) : string :=
  str_or (vi_kitchen_station item) "Main Kitchen".

(** The ticket [create_kitchen_orders] builds for one station. *)
Definition station_kot (order : RestaurantOrder)
  (group : string * list RestaurantOrderItem) : KitchenOrder :=
  {| kot_name := "";
     kot_restaurant_order := ro_name order;
     kot_table := ro_table order;
     kot_table_number := ro_table_number order;
     kot_branch := ro_branch order;
     kot_kitchen_station := fst group;
     kot_order_type := ro_order_type order;
     kot_status := "New";
     kot_priority := "Normal";
     kot_notes := ro_notes order;
     kot_is_additional := 0;
     kot_started_at := None;
     kot_completed_at := None;
     kot_served_at := None;
     kot_items := map kot_line_of_order_line (snd group) |}.

(** The ticket [create_kitchen_orders_for_items] builds for one station. *)
Definition additional_kot (order : RestaurantOrder)
  (group : string * list ValidatedItem) : KitchenOrder :=
  {| kot_name := "";
     kot_restaurant_order := ro_name order;
     kot_table := ro_table order;
     kot_table_number := ro_table_number order;
     kot_branch := ro_branch order;
     kot_kitchen_station := fst group;
     kot_order_type := ro_order_type order;
     kot_status := "New";
     kot_priority := "Normal";
     kot_notes := None;
     kot_is_additional := 1;
     kot_started_at := None;
     kot_completed_at := None;
     kot_served_at := None;
     kot_items := map kot_line_of_validated (snd group) |}.

(** What [place_order] returns in ["data"]. *)
Record PlaceData := {
  pd_order_id : string;
  pd_table_number : string;
  pd_estimated_time : Z;
  pd_grand_total : Qc;
  pd_status : string }.

(** What [add_items_to_order] returns in ["data"]. *)
Record AddData := {
  ad_order_id : string;
  ad_grand_total : Qc;
  ad_items_count : nat }.

Section Naming.

(** The name a new row gets: the naming rule of each DocType is part of
    its schema, taken here as a function of the DocType and of a serial
    number kept by the database. *)
Variable autoname : string -> nat -> string.

Definition make_name (doctype : string) : M string :=
  fun d => (Ok (autoname doctype (db_serial d)), with_serial (S (db_serial d)) d).

(** Naming of the child rows of a new document. *)
Fixpoint name_rows {A} (doctype : string) (set_name : string -> A -> A)
  (rows : list A) : M (list A) :=
  match rows with
  | [] => ret []
  | r :: rest =>
      name <- make_name doctype ;;
      rest <- name_rows doctype set_name rest ;;
      ret (set_name name r :: rest)
  end.

(** [order.insert()]: naming, [validate], new row, [on_update]. *)
Definition ro_insert (order : RestaurantOrder) : M RestaurantOrder :=
  name <- make_name "Restaurant Order" ;;
  items <- name_rows "Restaurant Order Item" set_roi_name (ro_items order) ;;
  let order := set_ro_items items (set_ro_name name order) in
  settings <- gets db_settings ;;
  let order := calculate_totals settings order in
  modify (fun d => with_orders (db_orders d ++ [order]) d) ;;
  update_table_status order ;;
  ret order.

(** [kot.insert()]: naming, [validate], new row, [on_update]. *)
Definition kot_insert (kot : KitchenOrder) : M KitchenOrder :=
  name <- make_name "Kitchen Order" ;;
  items <- name_rows "Kitchen Order Item" set_koi_name (kot_items kot) ;;
  let kot := set_kot_items items (set_kot_name name kot) in
  kot_validate kot ;;
  modify (fun d => with_kots (db_kots d ++ [kot]) d) ;;
  kot_on_update kot ;;
  ret kot.

(** [get_or_create_table_session(table, customer_name, customer_phone)] *)
Definition get_or_create_table_session (table : string)
  (customer_name customer_phone : option string) : M string :=
  existing <- gets (fun d =>
    find (fun s => (ts_table s =? table)
                   && str_in (ts_status s) ["Active"; "Ordering"])
         (db_sessions d)) ;;
  match existing with
  | Some s => ret (ts_name s)
  | None =>
      now <- now_datetime ;;
      name <- make_name "Table Session" ;;
      let session :=
        {| ts_name := name; ts_table := table;
           ts_customer_name := customer_name;
           ts_customer_phone := customer_phone;
           ts_status := "Ordering"; ts_started_at := Some now |} in
      modify (fun d => with_sessions (db_sessions d ++ [session]) d) ;;
      modify (fun d =>
        with_tables
          (set_value rt_name table (set_rt_current_session (Some name))
             (db_tables d)) d) ;;
      ret name
  end.

(** [create_kitchen_orders(order)] *)
Definition create_kitchen_orders (order : RestaurantOrder) : M unit :=
  let station_items := group_by_station station_of_line (ro_items order) in
  for_each station_items (fun group =>
    _ <- kot_insert (station_kot order group) ;; ret tt).

(** [create_kitchen_orders_for_items(order, new_items)] *)
Definition create_kitchen_orders_for_items (order : RestaurantOrder)
  (new_items : list ValidatedItem) : M unit :=
  let station_items := group_by_station station_of_validated new_items in
  for_each station_items (fun group =>
    _ <- kot_insert (additional_kot order group) ;; ret tt).

Definition notify_kitchen_new_order (order : RestaurantOrder) : M unit :=
  publish_realtime "restaurant:new_order" ("kitchen:" ++ ro_branch order).

Definition notify_waiters_new_order (order : RestaurantOrder) : M unit :=
  publish_realtime "restaurant:new_order" ("waiters:" ++ ro_branch order).

(** [place_order(table_code, items, customer_name, customer_phone, notes,
    order_type, language)], [items] being the parsed list. *)
Definition place_order (table_code : string) (items : list OrderEntry)
  (customer_name customer_phone notes : option string)
  (order_type language : string) : M (Response PlaceData) :=
  try_except
    (table <- gets (fun d =>
       find (fun t => (rt_qr_code t =? table_code) && rt_enabled t)
            (db_tables d)) ;;
     match table with
     | None => ret (Failure "Invalid table" None)
     | Some table =>
         match items with
         | [] => ret (Failure "No items in order" None)
         | _ :: _ =>
             checked <- gets (fun d =>
               validate_order_items d items (Some (rt_branch table))) ;;
             let validated_items := fst checked in
             let item_errors := snd checked in
             match item_errors with
             | first :: _ => ret (Failure first (Some item_errors))
             | [] =>
                 session <- get_or_create_table_session (rt_name table)
                              customer_name customer_phone ;;
                 let subtotal := place_subtotal validated_items in
                 settings <- gets db_settings ;;
                 let service_charge := place_service_charge settings subtotal in
                 let vat := place_vat settings subtotal service_charge in
                 let grand_total := (subtotal + service_charge + vat)%Qc in
                 let order :=
                   {| ro_name := "";
                      ro_table := rt_name table;
                      ro_table_number := rt_table_number table;
                      ro_branch := rt_branch table;
                      ro_table_session := session;
                      ro_order_type := order_type;
                      ro_customer_name := customer_name;
                      ro_customer_phone := customer_phone;
                      ro_notes := notes;
                      ro_language := language;
                      ro_status := "New";
                      ro_subtotal := subtotal;
                      ro_service_charge := service_charge;
                      ro_service_charge_percent :=
                        num_or (service_charge_percent settings) 0;
                      ro_vat := vat;
                      ro_vat_percent := num_or (vat_percent settings) (Z2Qc 15);
                      ro_grand_total := grand_total;
                      ro_total_qty := 0;
                      ro_tax_amount := 0;
                      ro_tip_amount := None;
                      ro_discount_amount := None;
                      ro_restaurant_table := None;
                      ro_estimated_preparation_time :=
                        max_prep_time validated_items;
                      ro_items := map order_line validated_items |} in
                 order <- ro_insert order ;;
                 create_kitchen_orders order ;;
                 notify_kitchen_new_order order ;;
                 notify_waiters_new_order order ;;
                 ret (Success "Order placed successfully"
                        {| pd_order_id := ro_name order;
                           pd_table_number := rt_table_number table;
                           pd_estimated_time := max_prep_time validated_items;
                           pd_grand_total := grand_total;
                           pd_status := "New" |})
             end
         end
     end)
    (fun e =>
       log_error ("Place Order Error: " ++ exn_message e) ;;
       ret (Failure "Error placing order. Please try again." None)).

(** [order.save()] on a document with appended child rows: the rows that
    have no name yet are named, then the document is saved as usual. *)
Fixpoint name_new_rows (rows : list RestaurantOrderItem)
  : M (list RestaurantOrderItem) :=
  match rows with
  | [] => ret []
  | r :: rest =>
      r <- (if roi_name r =? ""
            then name <- make_name "Restaurant Order Item" ;;
                 ret (set_roi_name name r)
            else ret r) ;;
      rest <- name_new_rows rest ;;
      ret (r :: rest)
  end.

Definition ro_save_appended (order : RestaurantOrder) : M RestaurantOrder :=
  items <- name_new_rows (ro_items order) ;;
  ro_save (set_ro_items items order).

(** The lines of [order] after [add_items_to_order] appended the validated
    items and recomputed the totals the endpoint sets before saving. *)
Definition append_items (validated_items : list ValidatedItem)
  (order : RestaurantOrder) : RestaurantOrder :=
  let order :=
    set_ro_items (ro_items order ++ map order_line validated_items) order in
  let subtotal :=
    fold_left (fun acc item => (acc + roi_amount item)%Qc) (ro_items order)
      0%Qc in
  let service_charge :=
    (subtotal * ro_service_charge_percent order / Z2Qc 100)%Qc in
  let vat :=
    ((subtotal + service_charge) * ro_vat_percent order / Z2Qc 100)%Qc in
  {| ro_name := ro_name order; ro_table := ro_table order;
     ro_table_number := ro_table_number order; ro_branch := ro_branch order;
     ro_table_session := ro_table_session order;
     ro_order_type := ro_order_type order;
     ro_customer_name := ro_customer_name order;
     ro_customer_phone := ro_customer_phone order;
     ro_notes := ro_notes order; ro_language := ro_language order;
     ro_status := ro_status order;
     ro_subtotal := subtotal; ro_service_charge := service_charge;
     ro_service_charge_percent := ro_service_charge_percent order;
     ro_vat := vat; ro_vat_percent := ro_vat_percent order;
     ro_grand_total := (subtotal + service_charge + vat)%Qc;
     ro_total_qty := ro_total_qty order;
     ro_tax_amount := ro_tax_amount order;
     ro_tip_amount := ro_tip_amount order;
     ro_discount_amount := ro_discount_amount order;
     ro_restaurant_table := ro_restaurant_table order;
     ro_estimated_preparation_time := ro_estimated_preparation_time order;
     ro_items := ro_items order |}.

(** [add_items_to_order(order_id, items, language)] *)
Definition add_items_to_order (order_id : string) (items : list OrderEntry)
  : M (Response AddData) :=
  try_except
    (order <- get_order order_id ;;
     if str_in (ro_status order) ["Completed"; "Cancelled"; "Paid"]
     then ret (Failure "Cannot modify this order" None)
     else
       checked <- gets (fun d =>
         validate_order_items d items (Some (ro_branch order))) ;;
       let validated_items := fst checked in
       match snd checked with
       | first :: _ => ret (Failure first None)
       | [] =>
           order <- ro_save_appended (append_items validated_items order) ;;
           create_kitchen_orders_for_items order validated_items ;;
           notify_kitchen_new_order order ;;
           ret (Success "Items added successfully"
                  {| ad_order_id := ro_name order;
                     ad_grand_total := ro_grand_total order;
                     ad_items_count := List.length (ro_items order) |})
       end)
    (fun e =>
       log_error ("Add Items Error: " ++ exn_message e) ;;
       ret (Failure "Error adding items" None)).

End Naming.

(** ** Sample data

    A small restaurant used to run the endpoints on concrete input. *)

Definition demo_autoname (doctype : string) (n : nat) : string :=
  doctype ++ "-" ++ DecimalString.NilEmpty.string_of_uint (Nat.to_uint n).

Definition demo_stock : Stock :=
  {| default_bom := fun _ => None;
     bom_items := fun _ => [];
     branch_warehouse := fun _ => None;
     stock_qty := fun _ _ => 0%Qc |}.

Definition demo_menu : list MenuItem :=
  [ {| mi_name := "Burger"; mi_item_code := "BRG"; mi_item_name := "Burger";
       mi_item_name_ar := "Burger"; mi_price := Some (Z2Qc 100);
       mi_is_available := true; mi_enabled := true;
       mi_kitchen_station := Some "Grill";
       mi_preparation_time_minutes := Some 15%Z |};
    {| mi_name := "Salad"; mi_item_code := "SLD"; mi_item_name := "Salad";
       mi_item_name_ar := "Salad"; mi_price := Some (Z2Qc 40);
       mi_is_available := true; mi_enabled := true;
       mi_kitchen_station := None;
       mi_preparation_time_minutes := None |};
    {| mi_name := "Soup"; mi_item_code := "SOP"; mi_item_name := "Soup";
       mi_item_name_ar := "Soup"; mi_price := Some (Z2Qc 30);
       mi_is_available := true; mi_enabled := false;
       mi_kitchen_station := Some "Grill";
       mi_preparation_time_minutes := Some 5%Z |} ].

Definition demo_table : RestaurantTable :=
  {| rt_name := "T1"; rt_table_number := "1"; rt_branch := "Main";
     rt_qr_code := "qr-1"; rt_enabled := true;
     rt_current_session := None; rt_current_order := None |}.

(** An empty restaurant with the given fee settings. *)
Definition demo_db (settings : RestaurantSettings) : Db :=
  {| db_tables := [demo_table]; db_sessions := []; db_menu := demo_menu;
     db_settings := settings; db_stock := demo_stock;
     db_orders := []; db_kots := [];
     db_serial := 0; db_now := 1000%Z;
     db_realtime := []; db_error_log := [] |}.

Definition fees_10_15 : RestaurantSettings :=
  {| service_charge_percent := Some (Z2Qc 10);
     vat_percent := Some (Z2Qc 15) |}.

Definition fees_unset : RestaurantSettings :=
  {| service_charge_percent := None; vat_percent := None |}.

Definition entry (item : string) (qty : Z) : OrderEntry :=
  {| oe_item := Some item; oe_menu_item := None; oe_qty := Some qty;
     oe_modifiers := []; oe_notes := None |}.

Definition demo_line (name status : string) : KitchenOrderItem :=
  {| koi_name := name; koi_order_item := None; koi_menu_item := "Burger";
     koi_item_name := "Burger"; koi_item_name_ar := "Burger";
     koi_qty := 1%Z; koi_modifiers := []; koi_special_instructions := "";
     koi_status := status; koi_started_at := None;
     koi_completed_at := None |}.

Definition demo_kot (name order status : string)
  (served_at : option datetime) (items : list KitchenOrderItem)
  : KitchenOrder :=
  {| kot_name := name; kot_restaurant_order := order; kot_table := "T1";
     kot_table_number := "1"; kot_branch := "Main";
     kot_kitchen_station := "Grill"; kot_order_type := "Dine In";
     kot_status := status; kot_priority := "Normal"; kot_notes := None;
     kot_is_additional := 0%Z; kot_started_at := None;
     kot_completed_at := None; kot_served_at := served_at;
     kot_items := items |}.

Definition demo_order_line (name status : string) : RestaurantOrderItem :=
  {| roi_name := name; roi_menu_item := "Burger"; roi_item_code := "BRG";
     roi_item_name := "Burger"; roi_item_name_ar := "Burger";
     roi_qty := 1%Z; roi_rate := Z2Qc 100; roi_amount := Z2Qc 100;
     roi_modifiers := []; roi_special_instructions := "";
     roi_kitchen_station := Some "Grill"; roi_preparation_time := 15%Z;
     roi_status := status; roi_tax_rate := None |}.

Definition demo_order (name status : string)
  (items : list RestaurantOrderItem) : RestaurantOrder :=
  {| ro_name := name; ro_table := "T1"; ro_table_number := "1";
     ro_branch := "Main"; ro_table_session := "S1";
     ro_order_type := "Dine In"; ro_customer_name := None;
     ro_customer_phone := None; ro_notes := None; ro_language := "ar";
     ro_status := status; ro_subtotal := 0; ro_service_charge := 0;
     ro_service_charge_percent := 0; ro_vat := 0; ro_vat_percent := 0;
     ro_grand_total := 0; ro_total_qty := 0; ro_tax_amount := 0;
     ro_tip_amount := None; ro_discount_amount := None;
     ro_restaurant_table := None; ro_estimated_preparation_time := 15%Z;
     ro_items := items |}.

(** A restaurant holding the given orders and tickets. *)
Definition kitchen_db (orders : list RestaurantOrder)
  (kots : list KitchenOrder) : Db :=
  with_kots kots (with_orders orders (demo_db fees_10_15)).

(** A paid order whose single ticket is still 'Ready'. *)
Definition paid_db : Db :=
  kitchen_db
    [demo_order "ORD-1" "Paid" [demo_order_line "OL-1" "Pending"]]
    [demo_kot "KOT-1" "ORD-1" "Ready" None [demo_line "L1" "Ready"]].

(** A burger and two salads ordered at table 1. *)
Definition two_station_order : outcome (Response PlaceData) * Db :=
  place_order demo_autoname "qr-1" [entry "Burger" 1; entry "Salad" 2]
    None None None "Dine In" "ar" (demo_db fees_10_15).

(** One more burger, and a salad of quantity 0, appended to that order. *)
Definition appended_order : outcome (Response AddData) * Db :=
  add_items_to_order demo_autoname "Restaurant Order-1"
    [entry "Burger" 1; entry "Salad" 0] (state_of two_station_order).

(** A ticket of three lines, none of them 'Ready'. *)
Definition three_lines : list KitchenOrderItem :=
  [demo_line "L1" "Pending"; demo_line "L2" "Preparing";
   demo_line "L3" "Pending"].

Definition three_line_kot : KitchenOrder :=
  demo_kot "KOT-1" "ORD-1" "Preparing" None three_lines.

Definition three_line_db : Db :=
  kitchen_db
    [demo_order "ORD-1" "Preparing" [demo_order_line "OL-1" "Pending"]]
    [three_line_kot].

(** A request with a disabled item, an unknown item and an entry of
    quantity 0. *)
Definition rejected_entries : list OrderEntry :=
  [entry "Burger" 1; entry "Soup" 1; entry "Pizza" 0; entry "Pizza" 1].

(** Two validated lines for the grill and one without station. *)
Definition appended_items : list ValidatedItem :=
  fst (validate_order_items (demo_db fees_10_15)
         [entry "Burger" 1; entry "Salad" 2; entry "Burger" 3] (Some "Main")).

(** One burger ordered at table 1 of the empty restaurant. *)
Definition burger_order (settings : RestaurantSettings)
  : outcome (Response PlaceData) * Db :=
  place_order demo_autoname "qr-1" [entry "Burger" 1] None None None
    "Dine In" "ar" (demo_db settings).

(** The grand total an answer of [place_order] carries. *)
Definition returned_total (r : outcome (Response PlaceData)) : option Qc :=
  match r with
  | Ok (Success _ data) => Some (pd_grand_total data)
  | _ => None
  end.

(** A served order with its single ticket, itself served. *)
Definition served_db : Db :=
  kitchen_db
    [demo_order "ORD-1" "Served" [demo_order_line "OL-1" "Served"]]
    [demo_kot "KOT-1" "ORD-1" "Served" (Some 900%Z) [demo_line "L1" "Served"]].

(** A ticket line that refers to the order line [order_item]. *)
Definition linked_line (name order_item status : string) : KitchenOrderItem :=
  {| koi_name := name; koi_order_item := Some order_item;
     koi_menu_item := "Burger"; koi_item_name := "Burger";
     koi_item_name_ar := "Burger"; koi_qty := 1%Z; koi_modifiers := [];
     koi_special_instructions := ""; koi_status := status;
     koi_started_at := None; koi_completed_at := None |}.

(** A 'Ready' order of two lines with one ticket per line; the first
    ticket is 'Ready', the second has the given status. *)
Definition linked_db (second : string) : Db :=
  kitchen_db
    [demo_order "ORD-1" "Ready"
       [demo_order_line "OL-1" "Ready"; demo_order_line "OL-2" "Ready"]]
    [demo_kot "KOT-1" "ORD-1" "Ready" None [linked_line "L1" "OL-1" "Ready"];
     demo_kot "KOT-2" "ORD-1" second None [linked_line "L2" "OL-2" "Ready"]].

(** Two orders: the first has a 'Ready' and a 'New' ticket, the second a
    single 'New' ticket. *)
Definition two_order_db : Db :=
  kitchen_db
    [demo_order "ORD-1" "New" [demo_order_line "OL-1" "Pending"];
     demo_order "ORD-2" "New" [demo_order_line "OL-2" "Pending"]]
    [demo_kot "KOT-1" "ORD-1" "Ready" None [demo_line "L1" "Ready"];
     demo_kot "KOT-2" "ORD-1" "New" None [demo_line "L2" "Pending"];
     demo_kot "KOT-3" "ORD-2" "New" None [demo_line "L3" "Pending"]].

(** An order line with the given station field. *)
Definition station_line (name : string) (station : option string)
  : RestaurantOrderItem :=
  {| roi_name := name; roi_menu_item := "Salad"; roi_item_code := "SLD";
     roi_item_name := "Salad"; roi_item_name_ar := "Salad";
     roi_qty := 1%Z; roi_rate := Z2Qc 40; roi_amount := Z2Qc 40;
     roi_modifiers := []; roi_special_instructions := "";
     roi_kitchen_station := station; roi_preparation_time := 10%Z;
     roi_status := "Pending"; roi_tax_rate := None |}.

(** An order with a line for the grill, a line without station, a line
    with an empty station and a second line for the grill. *)
Definition stations_order : RestaurantOrder :=
  demo_order "ORD-1" "New"
    [station_line "OL-1" (Some "Grill"); station_line "OL-2" None;
     station_line "OL-3" (Some ""); station_line "OL-4" (Some "Grill")].

(** The status of the order of that name, if it exists. *)
Definition order_status (name : string) (d : Db) : option string :=
  option_map ro_status (find_row ro_name name (db_orders d)).

(** The ticket of that name, if it exists. *)
Definition lookup_kot (name : string) (d : Db) : option KitchenOrder :=
  find_row kot_name name (db_kots d).

(** ** Reading the specification *)

(** The precedence of the reconciler in the words of the specification:
    first match wins. *)
Inductive spec_precedence (statuses : list string) : string -> Prop :=
| all_tickets_ready :
    Forall (eq "Ready") statuses ->
    spec_precedence statuses "Ready"
| any_ticket_preparing :
    ~ Forall (eq "Ready") statuses ->
    Exists (eq "Preparing") statuses ->
    spec_precedence statuses "Preparing"
| all_tickets_new :
    ~ Forall (eq "Ready") statuses ->
    ~ Exists (eq "Preparing") statuses ->
    Forall (eq "New") statuses ->
    spec_precedence statuses "Confirmed"
| mixed_tickets :
    ~ Forall (eq "Ready") statuses ->
    ~ Exists (eq "Preparing") statuses ->
    ~ Forall (eq "New") statuses ->
    spec_precedence statuses "Preparing".

(** The ticket-driven updates of the kitchen API. *)
Inductive ticket_op :=
| OpUpdate (kot_id status : string) (item_id : option string)
| OpBump (kot_id : string)
| OpRecall (kot_id : string).

(** The database after a ticket-driven update. *)
Definition after_op (op : ticket_op) (d : Db) : Db :=
  match op with
  | OpUpdate kot_id status item_id =>
      state_of (update_order_status kot_id status item_id d)
  | OpBump kot_id => state_of (bump_order kot_id d)
  | OpRecall kot_id => state_of (recall_order kot_id d)
  end.

(** The ticket a ticket-driven update is addressed to. *)
Definition op_target (op : ticket_op) : string :=
  match op with
  | OpUpdate kot_id _ _ => kot_id
  | OpBump kot_id => kot_id
  | OpRecall kot_id => kot_id
  end.

(** The database after a run of the reconciler. *)
Definition reconcile (order_name : string) (d : Db) : Db :=
  state_of (update_restaurant_order_status order_name d).

(** The orders after a run of the reconciler. *)
Definition reconciled_orders (order_name : string) (d : Db)
  : list RestaurantOrder :=
  match kots_of order_name d with
  | [] => db_orders d
  | _ :: _ =>
      match find_row ro_name order_name (db_orders d) with
      | None => db_orders d
      | Some o =>
          if str_in (ro_status o) sticky_statuses then db_orders d
          else
            replace_row ro_name
              (calculate_totals (db_settings d)
                 (set_ro_status
                    (new_status_of (map kot_status (kots_of order_name d)))
                    o))
              (db_orders d)
      end
  end.

(** A ticket without the names [insert] gave it and its lines. *)
Definition strip_names (k : KitchenOrder) : KitchenOrder :=
  set_kot_items (map (set_koi_name "") (kot_items k)) (set_kot_name "" k).

(** The statuses of all order lines, order by order. *)
Definition order_line_statuses (d : Db) : list (list (string * string)) :=
  map (fun o => map (fun i => (roi_name i, roi_status i)) (ro_items o))
      (db_orders d).

(** The statuses the reconciler must leave alone. *)
Definition sticky (status : string) : Prop :=
  str_in status sticky_statuses = true.

(** The messages of the rejected entries, in order. *)
Definition rejections (d : Db) (branch : option string)
  (items : list OrderEntry) : list string :=
  flat_map
    (fun e => match validate_entry d branch e with
              | Rejected error => [error]
              | _ => []
              end)
    items.

(** The lines of the validated entries, in order. *)
Definition validated_lines (d : Db) (branch : option string)
  (items : list OrderEntry) : list ValidatedItem :=
  flat_map
    (fun e => match validate_entry d branch e with
              | Validated line => [line]
              | _ => []
              end)
    items.

(** ** Further endpoints and controller methods *)

Definition set_kot_priority (v : string) (k : KitchenOrder) : KitchenOrder :=
  {| kot_name := kot_name k; kot_restaurant_order := kot_restaurant_order k;
     kot_table := kot_table k; kot_table_number := kot_table_number k;
     kot_branch := kot_branch k; kot_kitchen_station := kot_kitchen_station k;
     kot_order_type := kot_order_type k; kot_status := kot_status k;
     kot_priority := v; kot_notes := kot_notes k;
     kot_is_additional := kot_is_additional k;
     kot_started_at := kot_started_at k;
     kot_completed_at := kot_completed_at k;
     kot_served_at := kot_served_at k; kot_items := kot_items k |}.

(** [set_priority(kot_id, priority)] ([api/kitchen.py]): the field is
    written with [frappe.db.set_value], which runs no controller hook;
    an exception is answered without being logged. *)
Definition set_priority (kot_id priority : string) : M (Response unit) :=
  try_except
    (modify (fun d =>
       with_kots
         (set_value kot_name kot_id (set_kot_priority priority) (db_kots d))
         d) ;;
     kot <- get_kot kot_id ;;
     publish_realtime "restaurant:kot_priority" ("kitchen:" ++ kot_branch kot) ;;
     ret (Success "Priority updated" tt))
    (fun e => ret (Failure (exn_message e) None)).

(** [mark_order_served(kot_id)] ([api/waiter.py]) *)
Definition mark_order_served (kot_id : string) : M (Response unit) :=
  bump_order kot_id.

(** The loop of [KitchenOrder.mark_ready] and [KitchenOrder.mark_served]
    over the lines that carry an [order_item]. *)
Definition update_order_items (items : list KitchenOrderItem)
  (status : string) : M unit :=
  for_each items (fun item =>
    when (truthy_str (koi_order_item item))
      (db_set_order_item_status (str_or (koi_order_item item) "") status)).

(** [KitchenOrder.start_preparation] *)
Definition kot_start_preparation (self : KitchenOrder) : M unit :=
  now <- now_datetime ;;
  let self := set_kot_started_at (Some now) (set_kot_status "Preparing" self) in
  let self :=
    set_kot_items
      (map (fun item =>
              if koi_status item =? "Pending"
              then set_koi_started_at (Some now)
                     (set_koi_status "Preparing" item)
              else item)
           (kot_items self))
      self in
  kot_save self ;;
  publish_realtime "restaurant:kot_started" ("kitchen:" ++ kot_branch self).

(** [KitchenOrder.mark_ready] *)
Definition kot_mark_ready (self : KitchenOrder) : M unit :=
  now <- now_datetime ;;
  let self := set_kot_completed_at (Some now) (set_kot_status "Ready" self) in
  let self :=
    set_kot_items
      (map (fun item =>
              if negb (koi_status item =? "Ready")
              then set_koi_completed_at (Some now)
                     (set_koi_status "Ready" item)
              else item)
           (kot_items self))
      self in
  kot_save self ;;
  update_order_items (kot_items self) "Ready" ;;
  publish_realtime "restaurant:order_ready" ("waiters:" ++ kot_branch self).

(** [KitchenOrder.mark_served] *)
Definition kot_mark_served (self : KitchenOrder) : M unit :=
  now <- now_datetime ;;
  let self := set_kot_served_at (Some now) (set_kot_status "Served" self) in
  let self :=
    set_kot_items (map (set_koi_status "Served") (kot_items self)) self in
  kot_save self ;;
  update_order_items (kot_items self) "Served".

(** One entry of the answer of [get_kitchen_orders]; the creation time of
    the row, kept by the framework, is not part of the ticket record and is
    left out. *)
Record KdsEntry := {
  kds_id : string;
  kds_order_id : string;
  kds_table_number : string;
  kds_order_type : string;
  kds_station : string;
  kds_status : string;
  kds_priority : string;
  kds_notes : option string;
  kds_is_additional : Z;
  kds_elapsed_time : Z;
  kds_items : list KitchenOrderItem }.

Section Listing.

(** The order in which the database returns the rows of a query
    ([order_by="priority desc, creation asc"]). *)
Variable order_by : list KitchenOrder -> list KitchenOrder.

(** The filters [get_kitchen_orders] builds from its arguments. *)
Definition kds_filter (station branch status : option string)
  (k : KitchenOrder) : bool :=
  (if truthy_str station then kot_kitchen_station k =? str_or station ""
   else true)
  && (if truthy_str branch then kot_branch k =? str_or branch ""
      else true)
  && (if truthy_str status then kot_status k =? str_or status ""
      else str_in (kot_status k) ["New"; "Preparing"]).

Definition kds_entry (now : datetime) (order : KitchenOrder) : KdsEntry :=
  {| kds_id := kot_name order;
     kds_order_id := kot_restaurant_order order;
     kds_table_number := kot_table_number order;
     kds_order_type := kot_order_type order;
     kds_station := kot_kitchen_station order;
     kds_status := kot_status order;
     kds_priority := kot_priority order;
     kds_notes := kot_notes order;
     kds_is_additional := kot_is_additional order;
     kds_elapsed_time :=
       match kot_started_at order with
       | Some started_at =>
           if kot_status order =? "Preparing" then (now - started_at)%Z
           else 0%Z
       | None => 0%Z
       end;
     kds_items := kot_items order |}.

(** [get_kitchen_orders(station, branch, status)] *)
Definition get_kitchen_orders (station branch status : option string)
  : M (list KdsEntry) :=
  orders <- gets (fun d =>
    order_by (filter (kds_filter station branch status) (db_kots d))) ;;
  now <- now_datetime ;;
  ret (map (kds_entry now) orders).

End Listing.

(** ** Reading the code *)

(** The [order_item] values of the lines of a ticket that have one. *)
Definition order_item_refs (items : list KitchenOrderItem) : list string :=
  flat_map
    (fun item =>
       if truthy_str (koi_order_item item)
       then [str_or (koi_order_item item) ""]
       else [])
    items.

(** Name and status of order lines, those named in [refs] set to
    [status]. *)
Definition mark_lines (refs : list string) (status : string)
  (lines : list (list (string * string))) : list (list (string * string)) :=
  map (map (fun l => if str_in (fst l) refs then (fst l, status) else l))
      lines.

(** The orders after [frappe.db.set_value] wrote [status] to the order
    lines named in [refs], one name after the other. *)
Definition set_lines_status (refs : list string) (status : string)
  (orders : list RestaurantOrder) : list RestaurantOrder :=
  fold_left
    (fun os n =>
       map (fun o =>
              set_ro_items
                (set_value roi_name n (set_roi_status status) (ro_items o)) o)
           os)
    refs orders.

(** Two order tables with the same rows by name, and the same status for
    every order but the one named [order]. *)
Definition orders_agree_except (order : string)
  (l l' : list RestaurantOrder) : Prop :=
  map ro_name l' = map ro_name l
  /\ forall n, n <> order ->
       option_map ro_status (find_row ro_name n l')
       = option_map ro_status (find_row ro_name n l).

(** The database with the sold-out flag of every menu item set to [v]. *)
Definition set_mi_is_available (v : bool) (m : MenuItem) : MenuItem :=
  {| mi_name := mi_name m; mi_item_code := mi_item_code m;
     mi_item_name := mi_item_name m; mi_item_name_ar := mi_item_name_ar m;
     mi_price := mi_price m; mi_is_available := v;
     mi_enabled := mi_enabled m;
     mi_kitchen_station := mi_kitchen_station m;
     mi_preparation_time_minutes := mi_preparation_time_minutes m |}.

Definition with_menu_availability (v : bool) (d : Db) : Db :=
  {| db_tables := db_tables d; db_sessions := db_sessions d;
     db_menu := map (set_mi_is_available v) (db_menu d);
     db_settings := db_settings d; db_stock := db_stock d;
     db_orders := db_orders d; db_kots := db_kots d;
     db_serial := db_serial d; db_now := db_now d;
     db_realtime := db_realtime d; db_error_log := db_error_log d |}.

(** No order row and no ticket uses a name that the Restaurant Order
    series has still to give out. *)
Definition order_names_unused (autoname : string -> nat -> string)
  (d : Db) : Prop :=
  forall k, (db_serial d <= k)%nat ->
    find_row ro_name (autoname "Restaurant Order" k) (db_orders d) = None
    /\ kots_of (autoname "Restaurant Order" k) d = [].

(** * Properties *)

(** ** Running computations step by step *)

Lemma bind_ok {A B} (m : M A) (k : A -> M B) (d d' : Db) (a : A) :
  m d = (Ok a, d') -> bind m k d = k a d'.
Proof. intros H. unfold bind. now rewrite H. Qed.

Lemma bind_raise {A B} (m : M A) (k : A -> M B) (d d' : Db) (e : exn) :
  m d = (Raise e, d') -> bind m k d = (Raise e, d').
Proof. intros H. unfold bind. now rewrite H. Qed.

Lemma try_ok {A} (m : M A) (h : exn -> M A) (d d' : Db) (a : A) :
  m d = (Ok a, d') -> try_except m h d = (Ok a, d').
Proof. intros H. unfold try_except. now rewrite H. Qed.

Lemma try_raise {A} (m : M A) (h : exn -> M A) (d d' : Db) (e : exn) :
  m d = (Raise e, d') -> try_except m h d = h e d'.
Proof. intros H. unfold try_except. now rewrite H. Qed.

(** ** Rows *)

Section Rows.

Context {A : Type} (name_of : A -> string).

Lemma find_row_name (name : string) (rows : list A) (r : A) :
  find_row name_of name rows = Some r -> name_of r = name.
Proof.
  unfold find_row. intros H. apply find_some in H.
  now apply String.eqb_eq.
Qed.

Lemma find_row_replace_same (row : A) (rows : list A) (r : A) :
  find_row name_of (name_of row) rows = Some r ->
  find_row name_of (name_of row) (replace_row name_of row rows) = Some row.
Proof.
  unfold find_row.
  induction rows as [|x rest IH]; simpl; [discriminate|].
  destruct (name_of x =? name_of row) eqn:E; simpl.
  - now rewrite String.eqb_refl.
  - rewrite E. exact IH.
Qed.

Lemma find_row_replace_other (row : A) (rows : list A) (name : string) :
  name <> name_of row ->
  find_row name_of name (replace_row name_of row rows)
  = find_row name_of name rows.
Proof.
  unfold find_row. intros Hne.
  induction rows as [|x rest IH]; simpl; [reflexivity|].
  destruct (name_of x =? name_of row) eqn:E; simpl.
  - apply String.eqb_eq in E.
    assert (Hx : (name_of x =? name) = false)
      by (apply String.eqb_neq; congruence).
    assert (Hr : (name_of row =? name) = false)
      by (apply String.eqb_neq; congruence).
    now rewrite Hx, Hr.
  - destruct (name_of x =? name); [reflexivity | exact IH].
Qed.

(** Replacing the row that [find_row] returns keeps every observation the
    old and the new row agree on. *)
Lemma map_replace_row {B} (f : A -> B) (row r : A) (rows : list A) :
  find_row name_of (name_of row) rows = Some r ->
  f row = f r ->
  map f (replace_row name_of row rows) = map f rows.
Proof.
  unfold find_row. intros Hfind Hf.
  induction rows as [|x rest IH]; simpl in *; [reflexivity|].
  destruct (name_of x =? name_of row) eqn:E; simpl.
  - injection Hfind as ->. now rewrite Hf.
  - f_equal. now apply IH.
Qed.

Lemma find_row_set_value (upd : A -> A) (name target : string)
  (rows : list A) :
  (forall r, name_of (upd r) = name_of r) ->
  find_row name_of name (set_value name_of target upd rows)
  = option_map (fun r => if name_of r =? target then upd r else r)
      (find_row name_of name rows).
Proof.
  unfold find_row, set_value. intros Hname.
  induction rows as [|x rest IH]; simpl; [reflexivity|].
  destruct (name_of x =? target) eqn:E.
  - rewrite Hname. destruct (name_of x =? name); simpl; [now rewrite E|exact IH].
  - destruct (name_of x =? name); simpl; [now rewrite E|exact IH].
Qed.

End Rows.

(** ** The reconciler *)

Lemma reconciler_returns (order_name : string) (d : Db) :
  update_restaurant_order_status order_name d
  = (Ok tt, reconcile order_name d).
Proof.
  unfold reconcile, state_of, update_restaurant_order_status, try_except,
    bind, gets.
  destruct (kots_of order_name d) as [|k ks]; [reflexivity|].
  unfold get_order.
  destruct (find_row ro_name order_name (db_orders d)) as [o|];
    [|reflexivity].
  unfold when at 1.
  destruct (negb (str_in (ro_status o) sticky_statuses)); [|reflexivity].
  unfold ro_save, bind, gets, modify, update_table_status, when,
    publish_realtime, modify, ret.
  match goal with
  | |- context [if (?a && ?b)%bool then _ else _] => destruct (a && b)%bool
  end;
    reflexivity.
Qed.

Lemma reconcile_orders (order_name : string) (d : Db) :
  db_orders (reconcile order_name d) = reconciled_orders order_name d.
Proof.
  unfold reconcile, reconciled_orders, state_of,
    update_restaurant_order_status, try_except, bind, gets.
  destruct (kots_of order_name d) as [|k ks]; [reflexivity|].
  unfold get_order.
  destruct (find_row ro_name order_name (db_orders d)) as [o|];
    [|reflexivity].
  unfold when at 1.
  destruct (str_in (ro_status o) sticky_statuses); [reflexivity|].
  unfold ro_save, bind, gets, modify, update_table_status, when,
    publish_realtime, modify, ret.
  change (negb false) with true. cbv beta iota.
  match goal with
  | |- context [if (?a && ?b)%bool then _ else _] => destruct (a && b)%bool
  end;
    reflexivity.
Qed.

Lemma reconcile_frame (order_name : string) (d : Db) :
  db_kots (reconcile order_name d) = db_kots d
  /\ db_now (reconcile order_name d) = db_now d
  /\ db_settings (reconcile order_name d) = db_settings d
  /\ db_serial (reconcile order_name d) = db_serial d
  /\ db_menu (reconcile order_name d) = db_menu d
  /\ db_stock (reconcile order_name d) = db_stock d
  /\ db_sessions (reconcile order_name d) = db_sessions d.
Proof.
  unfold reconcile, state_of, update_restaurant_order_status, try_except,
    bind, gets.
  destruct (kots_of order_name d) as [|k ks]; [now repeat split|].
  unfold get_order.
  destruct (find_row ro_name order_name (db_orders d)) as [o|];
    [|now repeat split].
  unfold when at 1.
  destruct (negb (str_in (ro_status o) sticky_statuses));
    [|now repeat split].
  unfold ro_save, bind, gets, modify, update_table_status, when,
    publish_realtime, modify, ret.
  match goal with
  | |- context [if (?a && ?b)%bool then _ else _] => destruct (a && b)%bool
  end;
    now repeat split.
Qed.

Lemma forallb_eq_status (s : string) (l : list string) :
  forallb (fun x => x =? s) l = true <-> Forall (eq s) l.
Proof.
  rewrite forallb_forall, Forall_forall.
  split; intros H x Hx.
  - symmetry. apply String.eqb_eq. now apply H.
  - apply String.eqb_eq. symmetry. now apply H.
Qed.

Lemma existsb_eq_status (s : string) (l : list string) :
  existsb (fun x => x =? s) l = true <-> Exists (eq s) l.
Proof.
  rewrite existsb_exists, Exists_exists.
  split; intros [x [Hx E]]; exists x; split; trivial.
  - symmetry. now apply String.eqb_eq.
  - apply String.eqb_eq. now symmetry.
Qed.

(** The status computed by the source obeys the precedence of the
    specification. *)
Lemma new_status_precedence (statuses : list string) :
  spec_precedence statuses (new_status_of statuses).
Proof.
  unfold new_status_of.
  destruct (forallb (fun s => s =? "Ready") statuses) eqn:R.
  { apply all_tickets_ready. now apply forallb_eq_status. }
  assert (NR : ~ Forall (eq "Ready") statuses).
  { intros H. apply forallb_eq_status in H. congruence. }
  destruct (existsb (fun s => s =? "Preparing") statuses) eqn:P.
  { apply any_ticket_preparing; trivial. now apply existsb_eq_status. }
  assert (NP : ~ Exists (eq "Preparing") statuses).
  { intros H. apply existsb_eq_status in H. congruence. }
  destruct (forallb (fun s => s =? "New") statuses) eqn:N.
  { apply all_tickets_new; trivial. now apply forallb_eq_status. }
  apply mixed_tickets; trivial.
  intros H. apply forallb_eq_status in H. congruence.
Qed.

(** The precedence determines the status. *)
Lemma spec_precedence_functional (statuses : list string) (a b : string) :
  spec_precedence statuses a -> spec_precedence statuses b -> a = b.
Proof.
  intros Ha Hb. destruct Ha; destruct Hb; trivial; contradiction.
Qed.

Lemma order_status_reconciled (d : Db) (order_name : string)
  (o : RestaurantOrder) :
  kots_of order_name d <> [] ->
  find_row ro_name order_name (db_orders d) = Some o ->
  str_in (ro_status o) sticky_statuses = false ->
  order_status order_name (reconcile order_name d)
  = Some (new_status_of (map kot_status (kots_of order_name d))).
Proof.
  intros Hk Ho Hs.
  unfold order_status. rewrite reconcile_orders. unfold reconciled_orders.
  destruct (kots_of order_name d) as [|k ks] eqn:K; [contradiction|].
  rewrite Ho, Hs.
  pose proof (find_row_name _ _ _ _ Ho) as Hn.
  set (o' := calculate_totals _ _).
  assert (Hn' : ro_name o' = order_name) by exact Hn.
  rewrite <- Hn' at 1.
  erewrite find_row_replace_same; [reflexivity|].
  rewrite Hn'. exact Ho.
Qed.

(** C1. For an order that has tickets and is not in one of the statuses the
    reconciler leaves alone, the reconciler sets the order's status by the
    first-match precedence over the statuses of the tickets whose
    [restaurant_order] is this order, and of no other ticket: all 'Ready' gives
    'Ready'; otherwise any 'Preparing' gives 'Preparing'; otherwise all
    'New' gives 'Confirmed'; otherwise 'Preparing'.  With two tickets, one
    'Ready' and one 'New', the order becomes 'Preparing', not 'Confirmed'. *)
Theorem reconciler_precedence (d : Db) (order_name : string)
  (o : RestaurantOrder) :
  (exists k, In k (db_kots d) /\ kot_restaurant_order k = order_name) ->
  find_row ro_name order_name (db_orders d) = Some o ->
  ~ sticky (ro_status o) ->
  let statuses :=
    map kot_status
      (filter (fun k => kot_restaurant_order k =? order_name) (db_kots d)) in
  let d' := state_of (update_restaurant_order_status order_name d) in
  exists st,
    order_status order_name d' = Some st
    /\ spec_precedence statuses st
    /\ (forall st', spec_precedence statuses st' -> st' = st)
    /\ (forall a b, statuses = [a; b] ->
          (a = "Ready" /\ b = "New") \/ (a = "New" /\ b = "Ready") ->
          st = "Preparing" /\ st <> "Confirmed").
Proof.
  intros (k0 & Hin & Hko) Ho Hs statuses d'.
  assert (Hk : kots_of order_name d <> []).
  { intros E.
    assert (F : In k0 (kots_of order_name d)).
    { unfold kots_of. apply filter_In. split; [exact Hin|].
      now apply String.eqb_eq. }
    rewrite E in F. contradiction. }
  exists (new_status_of statuses).
  assert (Hs' : str_in (ro_status o) sticky_statuses = false).
  { unfold sticky in Hs. now destruct (str_in _ _). }
  split; [|split; [|split]].
  - exact (order_status_reconciled d order_name o Hk Ho Hs').
  - apply new_status_precedence.
  - intros st' H.
    exact (spec_precedence_functional _ _ _ H (new_status_precedence _)).
  - intros a b E [[-> ->]|[-> ->]]; rewrite E; split;
      try reflexivity; discriminate.
Qed.

Lemma reconcile_keeps_sticky (d : Db) (order_name n st : string) :
  order_status n d = Some st -> sticky st ->
  order_status n (reconcile order_name d) = Some st.
Proof.
  unfold order_status, sticky. intros Hn Hst.
  rewrite reconcile_orders. unfold reconciled_orders.
  destruct (kots_of order_name d); trivial.
  destruct (find_row ro_name order_name (db_orders d)) as [o|] eqn:Ho; trivial.
  destruct (str_in (ro_status o) sticky_statuses) eqn:So; trivial.
  rewrite find_row_replace_other; trivial.
  change (n <> ro_name o). rewrite (find_row_name _ _ _ _ Ho).
  intros ->. rewrite Ho in Hn. simpl in Hn. congruence.
Qed.

(** ** Saving a ticket *)

Lemma kot_save_run (kot : KitchenOrder) (d : Db) :
  kot_items kot <> [] ->
  kot_save kot d
  = (Ok tt,
     reconcile (kot_restaurant_order kot)
       (with_kots (replace_row kot_name kot (db_kots d)) d)).
Proof.
  intros H. unfold kot_save, kot_validate, kot_on_update.
  destruct (kot_items kot); [contradiction|].
  unfold bind, ret, modify. apply reconciler_returns.
Qed.

Lemma kot_save_empty (kot : KitchenOrder) (d : Db) :
  kot_items kot = [] ->
  kot_save kot d
  = (Raise (ValidationError "Kitchen order must have at least one item"), d).
Proof.
  intros H. unfold kot_save, kot_validate. rewrite H. reflexivity.
Qed.

Lemma get_kot_found (kot_id : string) (kot : KitchenOrder) (d : Db) :
  lookup_kot kot_id d = Some kot -> get_kot kot_id d = (Ok kot, d).
Proof. unfold lookup_kot, get_kot. now intros ->. Qed.

Lemma get_kot_missing (kot_id : string) (d : Db) :
  lookup_kot kot_id d = None ->
  get_kot kot_id d = (Raise (DoesNotExistError "Kitchen Order" kot_id), d).
Proof. unfold lookup_kot, get_kot. now intros ->. Qed.

Lemma updated_kot_frame (now : datetime) (status : string)
  (item_id : option string) (kot : KitchenOrder) :
  kot_name (updated_kot now status item_id kot) = kot_name kot
  /\ kot_restaurant_order (updated_kot now status item_id kot)
     = kot_restaurant_order kot
  /\ (kot_items (updated_kot now status item_id kot) = [] ->
      kot_items kot = []).
Proof.
  unfold updated_kot, update_line, update_ticket.
  destruct (truthy_str item_id).
  - match goal with |- context [if ?b then _ else _] => destruct b end;
      simpl; repeat split; trivial;
      destruct (kot_items kot) as [|i r]; trivial; simpl;
      destruct (koi_name i =? _); discriminate.
  - destruct (status =? "Preparing"); [|destruct (status =? "Ready")];
      simpl; repeat split; trivial;
      destruct (kot_items kot); trivial; discriminate.
Qed.

(** The three ways [update_order_status] can run. *)
Lemma update_order_status_run (d : Db) (kot_id status : string)
  (item_id : option string) (kot : KitchenOrder) :
  lookup_kot kot_id d = Some kot ->
  kot_items kot <> [] ->
  let kot' := updated_kot (db_now d) status item_id kot in
  let d1 := with_kots (replace_row kot_name kot' (db_kots d)) d in
  let order := kot_restaurant_order kot in
  exists d',
    update_order_status kot_id status item_id d
    = (Ok (Success "Status updated" (kot_id, kot_status kot')), d')
    /\ db_kots d' = db_kots d1
    /\ db_orders d' = db_orders (reconcile order (reconcile order d1))
    /\ db_now d' = db_now d.
Proof.
  intros Hk Hi kot' d1 order.
  destruct (updated_kot_frame (db_now d) status item_id kot)
    as (Hname & Hord & Hitems).
  fold kot' in Hname, Hord, Hitems.
  assert (Hi' : kot_items kot' <> []) by (intros E; auto).
  unfold update_order_status.
  destruct (kot_status kot' =? "Ready") eqn:R;
    (eexists; split; [|split; [|split]];
     [ apply try_ok;
       rewrite (bind_ok _ _ _ _ _ (get_kot_found _ _ _ Hk));
       unfold now_datetime;
       rewrite (bind_ok (gets db_now) _ d d (db_now d)) by reflexivity;
       fold kot';
       rewrite (bind_ok _ _ _ _ _ (kot_save_run kot' d Hi'));
       rewrite (bind_ok _ _ _ _ _ (reconciler_returns _ _));
       unfold publish_realtime, when, bind, modify, ret;
       rewrite R; reflexivity
     | change (db_kots (reconcile (kot_restaurant_order kot')
                          (reconcile (kot_restaurant_order kot') d1))
               = db_kots d1);
       rewrite (proj1 (reconcile_frame _ _));
       apply (proj1 (reconcile_frame _ _))
     | change (db_orders (reconcile (kot_restaurant_order kot')
                            (reconcile (kot_restaurant_order kot') d1))
               = db_orders (reconcile order (reconcile order d1)));
       rewrite Hord; reflexivity
     | change (db_now (reconcile (kot_restaurant_order kot')
                         (reconcile (kot_restaurant_order kot') d1))
               = db_now d);
       rewrite (proj1 (proj2 (reconcile_frame _ _)));
       rewrite (proj1 (proj2 (reconcile_frame _ _))); reflexivity ]).
Qed.

Lemma update_order_status_fails (d : Db) (kot_id status : string)
  (item_id : option string) :
  lookup_kot kot_id d = None
  \/ (exists kot, lookup_kot kot_id d = Some kot /\ kot_items kot = []) ->
  exists msg,
    update_order_status kot_id status item_id d
    = (Ok (Failure msg None),
       with_error_log (db_error_log d ++ ["KOT Update Error: " ++ msg]) d).
Proof.
  intros [Hk | (kot & Hk & Hi)]; unfold update_order_status;
    eexists.
  - erewrite try_raise;
      [|erewrite bind_raise; [reflexivity|exact (get_kot_missing _ _ Hk)]].
    reflexivity.
  - erewrite try_raise.
    2:{ rewrite (bind_ok _ _ _ _ _ (get_kot_found _ _ _ Hk)).
        unfold now_datetime.
        rewrite (bind_ok (gets db_now) _ d d (db_now d)) by reflexivity.
        erewrite bind_raise; [reflexivity|].
        apply kot_save_empty.
        destruct (kot_items (updated_kot (db_now d) status item_id kot))
          eqn:E; trivial.
        assert (kot_items (updated_kot (db_now d) status item_id kot) <> [])
          by (rewrite E; discriminate).
        exfalso. revert H. clear E.
        unfold updated_kot, update_line, update_ticket. rewrite Hi.
        destruct (truthy_str item_id); simpl.
        - intros H; now apply H.
        - destruct (status =? "Preparing"); [|destruct (status =? "Ready")];
            simpl; rewrite ?Hi; intros H; now apply H. }
    reflexivity.
Qed.

(** [update_order_status] never changes an order in a sticky status. *)
Lemma update_order_status_keeps_sticky (d : Db) (kot_id status : string)
  (item_id : option string) (n st : string) :
  order_status n d = Some st -> sticky st ->
  order_status n (state_of (update_order_status kot_id status item_id d))
  = Some st.
Proof.
  intros Hn Hst.
  destruct (lookup_kot kot_id d) as [kot|] eqn:Hk.
  - destruct (kot_items kot) as [|i r] eqn:Hi.
    + destruct (update_order_status_fails d kot_id status item_id)
        as (msg & ->); [right; eauto|exact Hn].
    + destruct (update_order_status_run d kot_id status item_id kot Hk)
        as (d' & -> & _ & Ho & _); [rewrite Hi; discriminate|].
      unfold order_status, state_of, snd. rewrite Ho.
      apply reconcile_keeps_sticky; trivial.
      apply reconcile_keeps_sticky; trivial.
  - destruct (update_order_status_fails d kot_id status item_id)
      as (msg & ->); [now left|exact Hn].
Qed.

Lemma recalled_kot_items_nonempty (kot : KitchenOrder) :
  kot_items kot <> [] -> kot_items (recalled_kot kot) <> [].
Proof. unfold recalled_kot. simpl. now destruct (kot_items kot). Qed.

Lemma bumped_kot_items_nonempty (now : datetime) (kot : KitchenOrder) :
  kot_items kot <> [] -> kot_items (bumped_kot now kot) <> [].
Proof. unfold bumped_kot. simpl. now destruct (kot_items kot). Qed.

Lemma recall_order_run (d : Db) (kot_id : string) (kot : KitchenOrder) :
  lookup_kot kot_id d = Some kot ->
  kot_items kot <> [] ->
  let kot' := recalled_kot kot in
  let d1 := with_kots (replace_row kot_name kot' (db_kots d)) d in
  let order := kot_restaurant_order kot in
  exists d',
    recall_order kot_id d = (Ok (Success "Order recalled" tt), d')
    /\ db_kots d' = db_kots d1
    /\ db_orders d'
       = set_value ro_name order (set_ro_status "Ready")
           (db_orders (reconcile order d1)).
Proof.
  intros Hk Hi kot' d1 order.
  pose proof (recalled_kot_items_nonempty kot Hi) as Hi'. fold kot' in Hi'.
  unfold recall_order. eexists. split; [|split].
  - apply try_ok.
    rewrite (bind_ok _ _ _ _ _ (get_kot_found _ _ _ Hk)).
    fold kot'.
    rewrite (bind_ok _ _ _ _ _ (kot_save_run kot' d Hi')).
    reflexivity.
  - change (db_kots (reconcile order d1) = db_kots d1).
    apply (proj1 (reconcile_frame _ _)).
  - reflexivity.
Qed.

(** A bump of a ticket whose lines carry no [order_item] skips the loop
    over the order lines. *)
Lemma bump_loop_skips (items : list KitchenOrderItem) (d : Db) :
  Forall (fun i => truthy_str (koi_order_item i) = false) items ->
  for_each items (fun item =>
    when (truthy_str (koi_order_item item))
      (db_set_order_item_status (str_or (koi_order_item item) "") "Served")) d
  = (Ok tt, d).
Proof.
  induction 1 as [|i r Hi _ IH]; simpl; [reflexivity|].
  rewrite Hi. unfold when, bind, ret. exact IH.
Qed.

Lemma bump_order_run (d : Db) (kot_id : string) (kot : KitchenOrder) :
  lookup_kot kot_id d = Some kot ->
  kot_items kot <> [] ->
  Forall (fun i => truthy_str (koi_order_item i) = false) (kot_items kot) ->
  let kot' := bumped_kot (db_now d) kot in
  let d1 := with_kots (replace_row kot_name kot' (db_kots d)) d in
  let order := kot_restaurant_order kot in
  exists d',
    bump_order kot_id d = (Ok (Success "Order bumped" tt), d')
    /\ db_kots d' = db_kots d1
    /\ (db_orders d' = db_orders (reconcile order d1)
        \/ db_orders d'
           = set_value ro_name order (set_ro_status "Served")
               (db_orders (reconcile order d1))).
Proof.
  intros Hk Hi Hno kot' d1 order.
  pose proof (bumped_kot_items_nonempty (db_now d) kot Hi) as Hi'.
  fold kot' in Hi'.
  assert (Hno' : Forall (fun i => truthy_str (koi_order_item i) = false)
                   (kot_items kot')).
  { unfold kot', bumped_kot. simpl. rewrite Forall_map. exact Hno. }
  unfold bump_order.
  destruct (all_kots_served (kot_restaurant_order kot')
              (reconcile (kot_restaurant_order kot') d1)) eqn:Hall;
    (eexists; split; [|split];
     [ apply try_ok;
       rewrite (bind_ok _ _ _ _ _ (get_kot_found _ _ _ Hk));
       unfold now_datetime;
       rewrite (bind_ok (gets db_now) _ d d (db_now d)) by reflexivity;
       fold kot';
       rewrite (bind_ok _ _ _ _ _ (kot_save_run kot' d Hi'));
       fold d1;
       erewrite (bind_ok (gets _)); [|unfold gets; rewrite Hall; reflexivity];
       unfold when at 1;
       (erewrite bind_ok; [|reflexivity]);
       rewrite (bind_ok _ _ _ _ _ (bump_loop_skips _ _ Hno'));
       reflexivity
     | try (change (db_kots (reconcile order d1) = db_kots d1));
       apply (proj1 (reconcile_frame _ _))
     | first [ right; reflexivity | left; reflexivity ] ]).
Qed.

(** ** Sticky order statuses *)

(** C2, as stated, fails: recalling the ticket of a 'Served' order writes
    'Ready' over the order's status. *)
Lemma recall_overwrites_served :
  order_status "ORD-1" served_db = Some "Served"
  /\ sticky "Served"
  /\ order_status "ORD-1" (after_op (OpRecall "KOT-1") served_db)
     = Some "Ready".
Proof. repeat split. Qed.

(** C2, amended. An order whose status is 'Served', 'Completed',
    'Cancelled' or 'Paid' keeps it through every run of the reconciler, and
    therefore through [update_order_status] on any ticket, whatever the new
    status and line.  [recall_order] is different by design: after its
    ticket is saved it writes 'Ready' to the parent order, so a 'Served'
    order goes back to 'Ready'. *)
Theorem sticky_status_kept (d : Db) (n st : string) :
  order_status n d = Some st ->
  sticky st ->
  (forall order_name,
      order_status n (state_of (update_restaurant_order_status order_name d))
      = Some st)
  /\ (forall kot_id status item_id,
        order_status n (after_op (OpUpdate kot_id status item_id) d)
        = Some st)
  /\ (forall kot_id kot,
        lookup_kot kot_id d = Some kot ->
        kot_items kot <> [] ->
        kot_restaurant_order kot = n ->
        st = "Served" ->
        order_status n (after_op (OpRecall kot_id) d) = Some "Ready").
Proof.
  intros Hn Hst. split; [|split].
  - intros order_name. now apply reconcile_keeps_sticky.
  - intros kot_id status item_id.
    now apply update_order_status_keeps_sticky.
  - intros kot_id kot Hk Hi Ho _. simpl.
    destruct (recall_order_run d kot_id kot Hk Hi) as (d' & -> & _ & Hd').
    unfold order_status, state_of, snd. rewrite Hd', Ho.
    rewrite find_row_set_value by reflexivity.
    set (d1 := with_kots _ d).
    assert (H1 : order_status n (reconcile n d1) = Some st)
      by (apply reconcile_keeps_sticky; trivial).
    unfold order_status in H1.
    destruct (find_row ro_name n (db_orders (reconcile n d1))) as [o|] eqn:Eo;
      [|discriminate].
    simpl. rewrite (find_row_name _ _ _ _ Eo), String.eqb_refl.
    reflexivity.
Qed.

(** ** Ticket and line updates *)

Lemma lookup_kot_replaced (d d' : Db) (kot_id : string)
  (kot kot' : KitchenOrder) :
  lookup_kot kot_id d = Some kot ->
  kot_name kot' = kot_name kot ->
  db_kots d' = replace_row kot_name kot' (db_kots d) ->
  lookup_kot kot_id d' = Some kot'.
Proof.
  unfold lookup_kot. intros Hk Hn ->.
  pose proof (find_row_name _ _ _ _ Hk) as E.
  rewrite <- E, <- Hn.
  eapply find_row_replace_same. rewrite Hn, E. exact Hk.
Qed.

Lemma update_order_status_lookup (d : Db) (kot_id status : string)
  (item_id : option string) (kot : KitchenOrder) :
  lookup_kot kot_id d = Some kot ->
  kot_items kot <> [] ->
  lookup_kot kot_id (state_of (update_order_status kot_id status item_id d))
  = Some (updated_kot (db_now d) status item_id kot)
  /\ db_now (state_of (update_order_status kot_id status item_id d))
     = db_now d.
Proof.
  intros Hk Hi.
  destruct (update_order_status_run d kot_id status item_id kot Hk Hi)
    as (d' & E & Hkots & _ & Hnow).
  rewrite E. unfold state_of, snd. split; [|exact Hnow].
  eapply lookup_kot_replaced; eauto.
  apply updated_kot_frame.
Qed.

Lemma all_ready_Forall (items : list KitchenOrderItem) :
  all_ready items = true
  <-> Forall (fun l => koi_status l = "Ready") items.
Proof.
  unfold all_ready. rewrite forallb_forall, Forall_forall.
  split; intros H x Hx; apply String.eqb_eq; now apply H.
Qed.

Lemma update_line_items (now : datetime) (item_id status : string)
  (kot : KitchenOrder) :
  kot_items (update_line now item_id status kot)
  = set_line_status now item_id status (kot_items kot).
Proof.
  unfold update_line. simpl.
  destruct (all_ready _); reflexivity.
Qed.

Lemma update_line_status (now : datetime) (item_id status : string)
  (kot : KitchenOrder) :
  kot_status (update_line now item_id status kot)
  = if all_ready (set_line_status now item_id status (kot_items kot))
    then "Ready" else kot_status kot.
Proof.
  unfold update_line. simpl.
  destruct (all_ready _); reflexivity.
Qed.

Lemma update_line_completed_at (now : datetime) (item_id status : string)
  (kot : KitchenOrder) :
  kot_completed_at (update_line now item_id status kot)
  = if all_ready (set_line_status now item_id status (kot_items kot))
    then Some now else kot_completed_at kot.
Proof.
  unfold update_line. simpl.
  destruct (all_ready _); reflexivity.
Qed.

(** One line-level update: the lines after it, and the ticket promoted
    exactly when all of them are 'Ready'. *)
Lemma line_update_step (d : Db) (kot_id status item_id : string)
  (kot : KitchenOrder) :
  lookup_kot kot_id d = Some kot ->
  kot_items kot <> [] ->
  item_id <> "" ->
  let d' := after_op (OpUpdate kot_id status (Some item_id)) d in
  exists kot',
    lookup_kot kot_id d' = Some kot'
    /\ kot_items kot'
       = set_line_status (db_now d) item_id status (kot_items kot)
    /\ (Forall (fun l => koi_status l = "Ready") (kot_items kot') ->
        kot_status kot' = "Ready"
        /\ kot_completed_at kot' = Some (db_now d))
    /\ (~ Forall (fun l => koi_status l = "Ready") (kot_items kot') ->
        kot_status kot' = kot_status kot
        /\ kot_completed_at kot' = kot_completed_at kot).
Proof.
  intros Hk Hi Hid d'.
  destruct (update_order_status_lookup d kot_id status (Some item_id) kot
              Hk Hi) as (Hl & _).
  assert (Ht : truthy_str (Some item_id) = true).
  { simpl. apply String.eqb_neq in Hid. now rewrite Hid. }
  assert (Hs : str_or (Some item_id) "" = item_id).
  { simpl. apply String.eqb_neq in Hid. now rewrite Hid. }
  unfold updated_kot in Hl. rewrite Ht, Hs in Hl.
  eexists. split; [exact Hl|].
  rewrite update_line_items, update_line_status, update_line_completed_at.
  split; [reflexivity|].
  split; intros H.
  - apply all_ready_Forall in H. now rewrite H.
  - destruct (all_ready _) eqn:E; [|now split].
    apply all_ready_Forall in E. contradiction.
Qed.

(** A line as a 'Ready' update leaves it. *)
Lemma set_line_status_hit (now : datetime) (l : KitchenOrderItem)
  (rest : list KitchenOrderItem) :
  set_line_status now (koi_name l) "Ready" (l :: rest)
  = set_koi_completed_at (Some now) (set_koi_status "Ready" l) :: rest.
Proof. simpl. now rewrite String.eqb_refl. Qed.

Lemma set_line_status_miss (now : datetime) (item_id status : string)
  (l : KitchenOrderItem) (rest : list KitchenOrderItem) :
  koi_name l <> item_id ->
  set_line_status now item_id status (l :: rest)
  = l :: set_line_status now item_id status rest.
Proof. intros H. simpl. apply String.eqb_neq in H. now rewrite H. Qed.

Lemma truthy_name (name : string) :
  name <> "" ->
  truthy_str (Some name) = true /\ str_or (Some name) "" = name.
Proof.
  intros H. apply String.eqb_neq in H. simpl. now rewrite H.
Qed.

(** Three lines made 'Ready' one after the other: the ticket keeps its
    status after the first and the second, and is 'Ready' after the
    third. *)
Lemma three_line_ticket (d : Db) (kot_id : string) (kot : KitchenOrder)
  (l1 l2 l3 : KitchenOrderItem) :
  lookup_kot kot_id d = Some kot ->
  kot_items kot = [l1; l2; l3] ->
  NoDup [koi_name l1; koi_name l2; koi_name l3] ->
  Forall (fun l => koi_name l <> "" /\ koi_status l <> "Ready") [l1; l2; l3] ->
  let d1 := after_op (OpUpdate kot_id "Ready" (Some (koi_name l1))) d in
  let d2 := after_op (OpUpdate kot_id "Ready" (Some (koi_name l2))) d1 in
  let d3 := after_op (OpUpdate kot_id "Ready" (Some (koi_name l3))) d2 in
  option_map kot_status (lookup_kot kot_id d1) = Some (kot_status kot)
  /\ option_map kot_status (lookup_kot kot_id d2) = Some (kot_status kot)
  /\ option_map kot_status (lookup_kot kot_id d3) = Some "Ready".
Proof.
  intros Hk Hi Hnd Hall d1 d2 d3.
  inversion Hall as [|? ? [N1 S1] Hall']; subst.
  inversion Hall' as [|? ? [N2 S2] Hall'']; subst.
  inversion Hall'' as [|? ? [N3 S3] _]; subst.
  inversion Hnd as [|? ? Hn1 Hnd']; subst.
  inversion Hnd' as [|? ? Hn2 _]; subst.
  assert (N12 : koi_name l1 <> koi_name l2) by (intros E; apply Hn1; simpl; auto).
  assert (N13 : koi_name l1 <> koi_name l3) by (intros E; apply Hn1; simpl; auto).
  assert (N23 : koi_name l2 <> koi_name l3) by (intros E; apply Hn2; simpl; auto).
  apply String.eqb_neq in S1, S2, S3.
  (* first line *)
  destruct (update_order_status_lookup d kot_id "Ready" (Some (koi_name l1))
              kot Hk) as (L1 & _); [rewrite Hi; discriminate|].
  change (state_of _) with d1 in L1. unfold updated_kot in L1.
  destruct (truthy_name _ N1) as (Et1 & Es1). rewrite Et1, Es1 in L1.
  set (kot1 := update_line _ _ _ kot) in L1.
  assert (I1 : kot_items kot1
               = [set_koi_completed_at (Some (db_now d))
                    (set_koi_status "Ready" l1); l2; l3]).
  { unfold kot1. rewrite update_line_items, Hi. apply set_line_status_hit. }
  assert (T1 : kot_status kot1 = kot_status kot).
  { unfold kot1. rewrite update_line_status, Hi, set_line_status_hit.
    unfold all_ready. simpl. now rewrite S2. }
  (* second line *)
  destruct (update_order_status_lookup d1 kot_id "Ready" (Some (koi_name l2))
              kot1 L1) as (L2 & _); [rewrite I1; discriminate|].
  change (state_of _) with d2 in L2. unfold updated_kot in L2.
  destruct (truthy_name _ N2) as (Et2 & Es2). rewrite Et2, Es2 in L2.
  set (kot2 := update_line _ _ _ kot1) in L2.
  assert (I2 : kot_items kot2
               = [set_koi_completed_at (Some (db_now d))
                    (set_koi_status "Ready" l1);
                  set_koi_completed_at (Some (db_now d1))
                    (set_koi_status "Ready" l2); l3]).
  { unfold kot2. rewrite update_line_items, I1.
    rewrite set_line_status_miss by exact N12.
    now rewrite set_line_status_hit. }
  assert (T2 : kot_status kot2 = kot_status kot).
  { unfold kot2. rewrite update_line_status, I1.
    rewrite set_line_status_miss by exact N12.
    rewrite set_line_status_hit.
    unfold all_ready. simpl. now rewrite S3. }
  (* third line *)
  destruct (update_order_status_lookup d2 kot_id "Ready" (Some (koi_name l3))
              kot2 L2) as (L3 & _); [rewrite I2; discriminate|].
  change (state_of _) with d3 in L3. unfold updated_kot in L3.
  destruct (truthy_name _ N3) as (Et3 & Es3). rewrite Et3, Es3 in L3.
  set (kot3 := update_line _ _ _ kot2) in L3.
  assert (T3 : kot_status kot3 = "Ready").
  { unfold kot3. rewrite update_line_status, I2.
    rewrite set_line_status_miss by exact N13.
    rewrite set_line_status_miss by exact N23.
    now rewrite set_line_status_hit. }
  rewrite L1, L2, L3. simpl. now rewrite T1, T2, T3.
Qed.

(** C7. A status update of one line of a ticket changes that line; the
    ticket is then promoted to 'Ready', with a completion time, if and only
    if all of its lines are 'Ready', and otherwise keeps its status.  On a
    ticket of three lines made 'Ready' one by one the status is unchanged
    after the first and the second line and is 'Ready' after the third. *)
Theorem line_update_promotes_ticket (d : Db) (kot_id : string)
  (kot : KitchenOrder) :
  lookup_kot kot_id d = Some kot ->
  kot_items kot <> [] ->
  (forall status item_id,
      item_id <> "" ->
      let d' := after_op (OpUpdate kot_id status (Some item_id)) d in
      exists kot',
        lookup_kot kot_id d' = Some kot'
        /\ kot_items kot'
           = set_line_status (db_now d) item_id status (kot_items kot)
        /\ (Forall (fun l => koi_status l = "Ready") (kot_items kot') ->
            kot_status kot' = "Ready"
            /\ kot_completed_at kot' = Some (db_now d))
        /\ (~ Forall (fun l => koi_status l = "Ready") (kot_items kot') ->
            kot_status kot' = kot_status kot
            /\ kot_completed_at kot' = kot_completed_at kot))
  /\ (forall l1 l2 l3,
        kot_items kot = [l1; l2; l3] ->
        NoDup [koi_name l1; koi_name l2; koi_name l3] ->
        Forall (fun l => koi_name l <> "" /\ koi_status l <> "Ready")
          [l1; l2; l3] ->
        let d1 := after_op (OpUpdate kot_id "Ready" (Some (koi_name l1))) d in
        let d2 := after_op (OpUpdate kot_id "Ready" (Some (koi_name l2))) d1 in
        let d3 := after_op (OpUpdate kot_id "Ready" (Some (koi_name l3))) d2 in
        option_map kot_status (lookup_kot kot_id d1) = Some (kot_status kot)
        /\ option_map kot_status (lookup_kot kot_id d2)
           = Some (kot_status kot)
        /\ option_map kot_status (lookup_kot kot_id d3) = Some "Ready").
Proof.
  intros Hk Hi. split.
  - intros status item_id Hid. now apply line_update_step.
  - intros l1 l2 l3 E Hnd Hall. now apply three_line_ticket.
Qed.

Lemma Forall2_map_self {A} (R : A -> A -> Prop) (f : A -> A) (l : list A) :
  (forall x, R x (f x)) -> Forall2 R l (map f l).
Proof. intros H. induction l; simpl; constructor; auto. Qed.

(** C8. A ticket-level update to 'Preparing' moves every 'Pending' line to
    'Preparing' and stamps its start time, leaving the other lines as they
    were; a ticket-level update to 'Ready' moves every line that is not
    'Ready' to 'Ready' and stamps its completion time. *)
Theorem ticket_update_advances_lines (d : Db) (kot_id status : string)
  (item_id : option string) (kot : KitchenOrder) :
  lookup_kot kot_id d = Some kot ->
  kot_items kot <> [] ->
  truthy_str item_id = false ->
  let d' := after_op (OpUpdate kot_id status item_id) d in
  let now := db_now d in
  exists kot',
    lookup_kot kot_id d' = Some kot'
    /\ kot_status kot' = status
    /\ (status = "Preparing" ->
        kot_started_at kot' = Some now
        /\ Forall2
             (fun l l' =>
                (koi_status l = "Pending" ->
                 koi_status l' = "Preparing"
                 /\ koi_started_at l' = Some now
                 /\ koi_name l' = koi_name l)
                /\ (koi_status l <> "Pending" -> l' = l))
             (kot_items kot) (kot_items kot'))
    /\ (status = "Ready" ->
        kot_completed_at kot' = Some now
        /\ Forall2
             (fun l l' =>
                (koi_status l <> "Ready" ->
                 koi_status l' = "Ready"
                 /\ koi_completed_at l' = Some now
                 /\ koi_name l' = koi_name l)
                /\ (koi_status l = "Ready" -> l' = l))
             (kot_items kot) (kot_items kot')).
Proof.
  intros Hk Hi Hf d' now.
  destruct (update_order_status_lookup d kot_id status item_id kot Hk Hi)
    as (Hl & _).
  unfold updated_kot in Hl. rewrite Hf in Hl.
  eexists. split; [exact Hl|]. fold now.
  split; [|split].
  - unfold update_ticket.
    destruct (status =? "Preparing"); [reflexivity|].
    destruct (status =? "Ready"); reflexivity.
  - intros ->. unfold update_ticket. simpl. split; [reflexivity|].
    apply Forall2_map_self. intros l.
    destruct (koi_status l =? "Pending") eqn:E.
    + apply String.eqb_eq in E. split; [now intros _|]. congruence.
    + apply String.eqb_neq in E. split; [contradiction|reflexivity].
  - intros ->. unfold update_ticket. simpl. split; [reflexivity|].
    apply Forall2_map_self. intros l.
    destruct (koi_status l =? "Ready") eqn:E; simpl.
    + apply String.eqb_eq in E. split; [contradiction|reflexivity].
    + apply String.eqb_neq in E. split; [now intros _|contradiction].
Qed.

(** C9. Recalling a ticket sets its status to 'Ready', clears its served
    time and sets every one of its lines to 'Ready'. *)
Theorem recall_resets_ticket (d : Db) (kot_id : string) (kot : KitchenOrder) :
  lookup_kot kot_id d = Some kot ->
  kot_items kot <> [] ->
  let d' := after_op (OpRecall kot_id) d in
  exists kot',
    lookup_kot kot_id d' = Some kot'
    /\ kot_status kot' = "Ready"
    /\ kot_served_at kot' = None
    /\ Forall (fun l => koi_status l = "Ready") (kot_items kot')
    /\ map koi_name (kot_items kot') = map koi_name (kot_items kot).
Proof.
  intros Hk Hi d'.
  destruct (recall_order_run d kot_id kot Hk Hi) as (d'' & E & Hkots & _).
  exists (recalled_kot kot).
  split; [|split; [|split; [|split]]]; try reflexivity.
  - unfold d', after_op. rewrite E. unfold state_of, snd.
    eapply lookup_kot_replaced; eauto.
  - unfold recalled_kot. simpl. rewrite Forall_map.
    now apply Forall_forall.
  - unfold recalled_kot. simpl. rewrite map_map. reflexivity.
Qed.

(** ** Grouping by station *)

Lemma NoDup_snoc (s : string) (l : list string) :
  NoDup l -> ~ In s l -> NoDup (l ++ [s]).
Proof.
  induction l as [|k ks IH]; simpl; intros Hnd Hs.
  - constructor; [tauto|constructor].
  - inversion Hnd; subst. constructor.
    + rewrite in_app_iff. intros [F|[F|[]]]; [auto|].
      subst. apply Hs. auto.
    + apply IH; trivial. intros F. apply Hs. auto.
Qed.

Section Grouping.

Context {A : Type} (station_of : A -> string).

Lemma group_add_keys (s : string) (x : A) (g : list (string * list A)) :
  map fst (group_add s x g)
  = if existsb (String.eqb s) (map fst g) then map fst g
    else (map fst g ++ [s])%list.
Proof.
  induction g as [|[k ys] rest IH]; simpl; [reflexivity|].
  rewrite (String.eqb_sym s k).
  destruct (k =? s) eqn:E; simpl; [reflexivity|].
  rewrite IH. now destruct (existsb _ _).
Qed.

Lemma existsb_eqb_In (s : string) (l : list string) :
  existsb (String.eqb s) l = true <-> In s l.
Proof.
  rewrite existsb_exists. split.
  - intros [x [Hx E]]. apply String.eqb_eq in E. now subst.
  - intros H. exists s. split; trivial. apply String.eqb_refl.
Qed.

Lemma group_add_In (s : string) (x : A) (g : list (string * list A))
  (s' : string) (xs' : list A) :
  NoDup (map fst g) ->
  In (s', xs') (group_add s x g) ->
  (s' <> s /\ In (s', xs') g)
  \/ (s' = s /\ exists xs, In (s, xs) g /\ xs' = (xs ++ [x])%list)
  \/ (s' = s /\ ~ In s (map fst g) /\ xs' = [x]).
Proof.
  induction g as [|[k ys] rest IH]; simpl; intros Hnd Hin.
  - destruct Hin as [E|[]]. injection E as <- <-. right. right. auto.
  - inversion Hnd as [|? ? Hk Hnd']; subst.
    destruct (k =? s) eqn:E.
    + apply String.eqb_eq in E. subst k.
      destruct Hin as [E|Hin].
      * injection E as <- <-. right. left. split; trivial.
        exists ys. auto.
      * left. split; [|auto]. intros ->. apply Hk.
        change s with (fst (s, xs')). now apply in_map.
    + apply String.eqb_neq in E.
      destruct Hin as [Eq|Hin].
      * injection Eq as <- <-. left. auto.
      * destruct (IH Hnd' Hin) as [[Hne H]|[[-> [xs [H ->]]]|[-> [Hn ->]]]].
        -- left. auto.
        -- right. left. split; trivial. exists xs. auto.
        -- right. right. split; trivial. split; trivial.
           intros [F|F]; [congruence|contradiction].
Qed.

Lemma group_by_station_snoc (items : list A) (x : A) :
  group_by_station station_of (items ++ [x])
  = group_add (station_of x) x (group_by_station station_of items).
Proof. unfold group_by_station. now rewrite fold_left_app. Qed.

Lemma filter_station_none (s : string) (items : list A) :
  ~ In s (map station_of items) ->
  filter (fun i => station_of i =? s) items = [].
Proof.
  induction items as [|i r IH]; simpl; intros H; [reflexivity|].
  destruct (station_of i =? s) eqn:E.
  - apply String.eqb_eq in E. exfalso. apply H. auto.
  - apply IH. intros F. apply H. auto.
Qed.

(** What grouping gives: one group per distinct station, and in each group
    exactly the items of that station, in order. *)
Lemma group_by_station_spec (items : list A) :
  let groups := group_by_station station_of items in
  NoDup (map fst groups)
  /\ (forall s, In s (map fst groups) <-> In s (map station_of items))
  /\ (forall s xs, In (s, xs) groups ->
        xs = filter (fun i => station_of i =? s) items).
Proof.
  induction items as [|x items IH] using rev_ind.
  - simpl. split; [constructor|]. split; [tauto|]. intros s xs [].
  - rewrite group_by_station_snoc. simpl in IH.
    set (g := group_by_station station_of items) in *.
    destruct IH as (Hnd & Hkeys & Hgrp). cbv zeta.
    split; [|split].
    + rewrite group_add_keys.
      destruct (existsb _ _) eqn:E; trivial.
      assert (~ In (station_of x) (map fst g)).
      { intros H. apply existsb_eqb_In in H. congruence. }
      now apply NoDup_snoc.
    + intros s. rewrite group_add_keys, map_app, in_app_iff. simpl.
      destruct (existsb _ _) eqn:E.
      * apply existsb_eqb_In in E. rewrite Hkeys.
        split; [auto|]. intros [H|[<-|[]]]; trivial. now apply Hkeys.
      * rewrite in_app_iff, Hkeys. simpl. tauto.
    + intros s xs Hin. rewrite filter_app. simpl.
      destruct (group_add_In _ _ _ _ _ Hnd Hin)
        as [[Hne H]|[[-> [ys [H ->]]]|[-> [Hn ->]]]].
      * assert (E : (station_of x =? s) = false)
          by (apply String.eqb_neq; congruence).
        rewrite E, app_nil_r. now apply Hgrp.
      * rewrite String.eqb_refl. f_equal. now apply Hgrp.
      * rewrite String.eqb_refl.
        rewrite filter_station_none; [reflexivity|].
        now rewrite <- Hkeys.
Qed.

Lemma group_by_station_nonempty (items : list A) (g : string * list A) :
  In g (group_by_station station_of items) -> snd g <> [].
Proof.
  destruct g as [s xs]. intros Hin. simpl.
  destruct (group_by_station_spec items) as (_ & Hkeys & Hgrp).
  pose proof (Hgrp s xs Hin) as ->.
  assert (Hs : In s (map station_of items)).
  { apply Hkeys. change s with (fst (s, filter (fun i => station_of i =? s) items)).
    now apply in_map. }
  apply in_map_iff in Hs. destruct Hs as (i & <- & Hi).
  intros E.
  assert (In i (filter (fun j => station_of j =? station_of i) items)).
  { apply filter_In. split; trivial. apply String.eqb_refl. }
  rewrite E in H. contradiction.
Qed.

End Grouping.

(** ** Inserting tickets *)

Section Insertion.

Variable autoname : string -> nat -> string.

Lemma name_rows_run (rows : list KitchenOrderItem) (d : Db) :
  exists rows' n,
    name_rows autoname "Kitchen Order Item" set_koi_name rows d
    = (Ok rows', with_serial n d)
    /\ map (set_koi_name "") rows' = map (set_koi_name "") rows.
Proof.
  revert d. induction rows as [|r rest IH]; intros d; simpl.
  - exists [], (db_serial d). split; [|reflexivity].
    unfold ret. now destruct d.
  - destruct (IH (with_serial (S (db_serial d)) d)) as (rest' & n & E & Hm).
    eexists. exists n. split.
    + erewrite bind_ok; [|reflexivity].
      erewrite bind_ok; [|exact E]. reflexivity.
    + simpl. now rewrite Hm.
Qed.

Lemma strip_names_named (name : string) (items : list KitchenOrderItem)
  (kot : KitchenOrder) :
  map (set_koi_name "") items = map (set_koi_name "") (kot_items kot) ->
  strip_names (set_kot_items items (set_kot_name name kot)) = strip_names kot.
Proof. unfold strip_names. simpl. now intros ->. Qed.

Lemma kot_insert_run (kot : KitchenOrder) (d : Db) :
  kot_items kot <> [] ->
  exists kot' d',
    kot_insert autoname kot d = (Ok kot', d')
    /\ db_kots d' = (db_kots d ++ [kot'])%list
    /\ strip_names kot' = strip_names kot.
Proof.
  intros Hi. unfold kot_insert.
  destruct (name_rows_run (kot_items kot) (with_serial (S (db_serial d)) d))
    as (items & n & E & Hm).
  set (name := autoname "Kitchen Order" (db_serial d)).
  set (kot' := set_kot_items items (set_kot_name name kot)).
  assert (Hi' : kot_items kot' <> []).
  { simpl. intros ->. destruct (kot_items kot); [contradiction|discriminate]. }
  exists kot'. eexists. split; [|split].
  - erewrite bind_ok; [|reflexivity].
    erewrite bind_ok; [|exact E].
    fold name. fold kot'.
    erewrite bind_ok.
    2:{ unfold kot_validate. destruct (kot_items kot'); [contradiction|].
        reflexivity. }
    erewrite bind_ok; [|reflexivity].
    erewrite bind_ok; [|apply reconciler_returns].
    reflexivity.
  - rewrite (proj1 (reconcile_frame _ _)). reflexivity.
  - now apply strip_names_named.
Qed.

(** The loop that inserts one ticket per group. *)
Lemma fan_out_run {G} (mk : G -> KitchenOrder) (groups : list G) (d : Db) :
  (forall g, In g groups -> kot_items (mk g) <> []) ->
  exists news d',
    for_each groups (fun g => _ <- kot_insert autoname (mk g) ;; ret tt) d
    = (Ok tt, d')
    /\ db_kots d' = (db_kots d ++ news)%list
    /\ map strip_names news = map (fun g => strip_names (mk g)) groups.
Proof.
  revert d. induction groups as [|g rest IH]; intros d Hne.
  - exists [], d. simpl. rewrite app_nil_r. auto.
  - destruct (kot_insert_run (mk g) d) as (k & d1 & E & Hk & Hs);
      [apply Hne; simpl; auto|].
    destruct (IH d1) as (news & d' & E' & Hk' & Hs');
      [intros g' Hg'; apply Hne; simpl; auto|].
    exists (k :: news), d'. split; [|split].
    + simpl. erewrite bind_ok.
      2:{ erewrite bind_ok; [|exact E]. reflexivity. }
      exact E'.
    + rewrite Hk', Hk, <- app_assoc. reflexivity.
    + simpl. now rewrite Hs, Hs'.
Qed.

End Insertion.

(** ** Fan-out *)

(** The tickets a fan-out run inserts: one per distinct station of the
    items, each equal, names apart, to the ticket built for that station
    and the items of that station. *)
Lemma fan_out_tickets {A} (autoname : string -> nat -> string)
  (station_of : A -> string) (mk : string * list A -> KitchenOrder)
  (items : list A) (d : Db) :
  (forall g, kot_kitchen_station (mk g) = fst g) ->
  (forall g, snd g <> [] -> kot_items (mk g) <> []) ->
  exists news d',
    for_each (group_by_station station_of items)
      (fun g => _ <- kot_insert autoname (mk g) ;; ret tt) d
    = (Ok tt, d')
    /\ db_kots d' = (db_kots d ++ news)%list
    /\ NoDup (map kot_kitchen_station news)
    /\ (forall s, In s (map kot_kitchen_station news)
                  <-> exists x, In x items /\ station_of x = s)
    /\ Forall
         (fun k =>
            strip_names k
            = strip_names
                (mk (kot_kitchen_station k,
                     filter (fun x => station_of x =? kot_kitchen_station k)
                       items)))
         news.
Proof.
  intros Hst Hne.
  destruct (group_by_station_spec station_of items) as (Hnd & Hkeys & Hgrp).
  set (groups := group_by_station station_of items) in *.
  destruct (fan_out_run autoname mk groups d) as (news & d' & E & Hk & Hs).
  { intros g Hg. apply Hne.
    now apply (group_by_station_nonempty station_of items). }
  assert (Hstations : map kot_kitchen_station news = map fst groups).
  { change (map (fun k => kot_kitchen_station (strip_names k)) news
            = map fst groups).
    rewrite <- (map_map strip_names kot_kitchen_station), Hs, map_map.
    apply map_ext. intros g. apply Hst. }
  exists news, d'. repeat split; trivial.
  - now rewrite Hstations.
  - rewrite Hstations. intros H. apply Hkeys in H.
    apply in_map_iff in H. destruct H as (x & E' & Hx). eauto.
  - rewrite Hstations. intros (x & Hx & <-). apply Hkeys.
    now apply in_map.
  - apply Forall_forall. intros k Hin.
    assert (H : In (strip_names k) (map strip_names news))
      by now apply in_map.
    rewrite Hs in H. apply in_map_iff in H.
    destruct H as ([s xs] & Eg & Hg).
    assert (Es : kot_kitchen_station k = s).
    { change (kot_kitchen_station (strip_names k) = s).
      rewrite <- Eg. simpl. apply (Hst (s, xs)). }
    rewrite Es, <- (Hgrp s xs Hg). now symmetry.
Qed.

Lemma ticket_lines_fields {A} (build : A -> KitchenOrderItem)
  (items : list KitchenOrderItem) (lines : list A) :
  map (set_koi_name "") items = map (set_koi_name "") (map build lines) ->
  map (fun i => (koi_order_item i, koi_menu_item i, koi_qty i, koi_status i))
      items
  = map (fun l => (koi_order_item (build l), koi_menu_item (build l),
                   koi_qty (build l), koi_status (build l))) lines.
Proof.
  intros H.
  transitivity
    (map (fun i => (koi_order_item i, koi_menu_item i, koi_qty i,
                    koi_status i))
         (map (set_koi_name "") items)).
  - rewrite map_map. reflexivity.
  - rewrite H, !map_map. reflexivity.
Qed.

(** C6. A fan-out run inserts exactly one ticket per distinct station among
    its lines, the station of a line being its [kitchen_station] field, or
    'Main Kitchen' when the field is unset or empty; each ticket holds, in
    order, one 'Pending' ticket line per line of its station, with the
    line's item and quantity (and, at placement, its name as [order_item]).
    The tickets already there are left as they are, a run over no lines
    inserts nothing, and the tickets of an append are marked additional. *)
Theorem fan_out_one_ticket_per_station (autoname : string -> nat -> string)
  (order : RestaurantOrder) (new_items : list ValidatedItem) (d : Db) :
  let station (field : option string) : string :=
    match field with
    | Some s => if s =? "" then "Main Kitchen" else s
    | None => "Main Kitchen"
    end in
  (exists news d',
      create_kitchen_orders autoname order d = (Ok tt, d')
      /\ db_kots d' = (db_kots d ++ news)%list
      /\ NoDup (map kot_kitchen_station news)
      /\ (forall s, In s (map kot_kitchen_station news)
                    <-> exists line, In line (ro_items order)
                                     /\ station (roi_kitchen_station line) = s)
      /\ Forall
           (fun k =>
              let lines :=
                filter
                  (fun l => station (roi_kitchen_station l)
                            =? kot_kitchen_station k)
                  (ro_items order) in
              kot_restaurant_order k = ro_name order
              /\ kot_status k = "New"
              /\ kot_is_additional k = 0%Z
              /\ map (set_koi_name "") (kot_items k)
                 = map kot_line_of_order_line lines
              /\ map (fun i => (koi_order_item i, koi_menu_item i, koi_qty i,
                                koi_status i))
                     (kot_items k)
                 = map (fun l => (Some (roi_name l), roi_menu_item l,
                                  roi_qty l, "Pending"))
                       lines)
           news)
  /\ (exists news d',
        create_kitchen_orders_for_items autoname order new_items d
        = (Ok tt, d')
        /\ db_kots d' = (db_kots d ++ news)%list
        /\ NoDup (map kot_kitchen_station news)
        /\ (forall s, In s (map kot_kitchen_station news)
                      <-> exists item, In item new_items
                                       /\ station (vi_kitchen_station item) = s)
        /\ Forall
             (fun k =>
                let items :=
                  filter
                    (fun i => station (vi_kitchen_station i)
                              =? kot_kitchen_station k)
                    new_items in
                kot_restaurant_order k = ro_name order
                /\ kot_status k = "New"
                /\ kot_is_additional k = 1%Z
                /\ map (set_koi_name "") (kot_items k)
                   = map kot_line_of_validated items
                /\ map (fun i => (koi_order_item i, koi_menu_item i,
                                  koi_qty i, koi_status i))
                       (kot_items k)
                   = map (fun i => (None, vi_menu_item i, vi_qty i, "Pending"))
                         items)
             news)
  /\ create_kitchen_orders_for_items autoname order [] d = (Ok tt, d).
Proof.
  intros station.
  split; [|split].
  - destruct (fan_out_tickets autoname station_of_line (station_kot order)
                (ro_items order) d) as (news & d' & E & Hk & Hnd & Hs & Hf).
    { reflexivity. }
    { intros [s xs] H. simpl in *. now destruct xs. }
    exists news, d'. repeat split; trivial; try apply Hs.
    eapply Forall_impl; [|exact Hf]. intros k Ek. simpl in Ek.
    assert (Hi : map (set_koi_name "") (kot_items k)
                 = map (set_koi_name "")
                     (map kot_line_of_order_line
                        (filter (fun l => station_of_line l
                                          =? kot_kitchen_station k)
                           (ro_items order)))).
    { exact (f_equal kot_items Ek). }
    cbv zeta. repeat split.
    + exact (f_equal kot_restaurant_order Ek).
    + exact (f_equal kot_status Ek).
    + exact (f_equal kot_is_additional Ek).
    + rewrite Hi, map_map. reflexivity.
    + exact (ticket_lines_fields kot_line_of_order_line _ _ Hi).
  - destruct (fan_out_tickets autoname station_of_validated
                (additional_kot order) new_items d)
      as (news & d' & E & Hk & Hnd & Hs & Hf).
    { reflexivity. }
    { intros [s xs] H. simpl in *. now destruct xs. }
    exists news, d'. repeat split; trivial; try apply Hs.
    eapply Forall_impl; [|exact Hf]. intros k Ek. simpl in Ek.
    assert (Hi : map (set_koi_name "") (kot_items k)
                 = map (set_koi_name "")
                     (map kot_line_of_validated
                        (filter (fun i => station_of_validated i
                                          =? kot_kitchen_station k)
                           new_items))).
    { exact (f_equal kot_items Ek). }
    cbv zeta. repeat split.
    + exact (f_equal kot_restaurant_order Ek).
    + exact (f_equal kot_status Ek).
    + exact (f_equal kot_is_additional Ek).
    + rewrite Hi, map_map. reflexivity.
    + exact (ticket_lines_fields kot_line_of_validated _ _ Hi).
  - reflexivity.
Qed.

(** ** Order lines under ticket updates *)

Lemma calculate_totals_line_statuses (settings : RestaurantSettings)
  (o : RestaurantOrder) :
  map (fun i => (roi_name i, roi_status i))
      (ro_items (calculate_totals settings o))
  = map (fun i => (roi_name i, roi_status i)) (ro_items o).
Proof.
  unfold calculate_totals. simpl. rewrite map_map. reflexivity.
Qed.

Lemma reconcile_line_statuses (order_name : string) (d : Db) :
  order_line_statuses (reconcile order_name d) = order_line_statuses d.
Proof.
  unfold order_line_statuses. rewrite reconcile_orders.
  unfold reconciled_orders.
  destruct (kots_of order_name d); trivial.
  destruct (find_row ro_name order_name (db_orders d)) as [o|] eqn:Ho; trivial.
  destruct (str_in (ro_status o) sticky_statuses); trivial.
  eapply map_replace_row.
  - change (ro_name (calculate_totals _ _)) with (ro_name o).
    rewrite (find_row_name _ _ _ _ Ho). exact Ho.
  - now rewrite calculate_totals_line_statuses.
Qed.

Lemma set_order_status_line_statuses (name v : string)
  (orders : list RestaurantOrder) :
  map (fun o => map (fun i => (roi_name i, roi_status i)) (ro_items o))
      (set_value ro_name name (set_ro_status v) orders)
  = map (fun o => map (fun i => (roi_name i, roi_status i)) (ro_items o))
        orders.
Proof.
  unfold set_value. rewrite map_map. apply map_ext.
  intros o. now destruct (ro_name o =? name).
Qed.

(** C10. The lines of a ticket created for appended items carry no
    [order_item]; bumping a ticket whose lines carry none sets the ticket
    and its lines to 'Served' and leaves the status of every line of every
    order as it was. *)
Theorem appended_ticket_bump_keeps_order_lines
  (autoname : string -> nat -> string) (order : RestaurantOrder)
  (new_items : list ValidatedItem) (d : Db) :
  (exists news d',
      create_kitchen_orders_for_items autoname order new_items d
      = (Ok tt, d')
      /\ db_kots d' = (db_kots d ++ news)%list
      /\ Forall
           (fun k => Forall (fun l => koi_order_item l = None) (kot_items k))
           news)
  /\ (forall d2 kot_id kot,
        lookup_kot kot_id d2 = Some kot ->
        kot_items kot <> [] ->
        Forall (fun l => koi_order_item l = None) (kot_items kot) ->
        let d3 := after_op (OpBump kot_id) d2 in
        (exists kot',
            lookup_kot kot_id d3 = Some kot'
            /\ kot_status kot' = "Served"
            /\ Forall (fun l => koi_status l = "Served") (kot_items kot'))
        /\ order_line_statuses d3 = order_line_statuses d2).
Proof.
  split.
  - destruct (fan_out_tickets autoname station_of_validated
                (additional_kot order) new_items d)
      as (news & d' & E & Hk & _ & _ & Hf).
    { reflexivity. }
    { intros [s xs] H. simpl in *. now destruct xs. }
    exists news, d'. repeat split; trivial.
    eapply Forall_impl; [|exact Hf]. intros k Ek.
    assert (Ek' : map koi_order_item (kot_items k)
                  = map (fun _ => None)
                      (filter
                         (fun x => station_of_validated x
                                   =? kot_kitchen_station k)
                         new_items)).
    { transitivity (map koi_order_item (kot_items (strip_names k))).
      - simpl. rewrite map_map. reflexivity.
      - rewrite Ek. simpl. rewrite !map_map. reflexivity. }
    apply Forall_forall. intros l Hl.
    apply (in_map koi_order_item) in Hl. rewrite Ek' in Hl.
    apply in_map_iff in Hl. now destruct Hl as (x & <- & _).
  - intros d2 kot_id kot Hk Hi Hno d3.
    assert (Hno' : Forall (fun i => truthy_str (koi_order_item i) = false)
                     (kot_items kot)).
    { eapply Forall_impl; [|exact Hno]. now intros l ->. }
    destruct (bump_order_run d2 kot_id kot Hk Hi Hno')
      as (d' & E & Hkots & Ho).
    unfold d3, after_op. rewrite E. unfold state_of, snd. split.
    + exists (bumped_kot (db_now d2) kot). split; [|split].
      * eapply lookup_kot_replaced; eauto.
      * reflexivity.
      * unfold bumped_kot. simpl. rewrite Forall_map.
        now apply Forall_forall.
    + unfold order_line_statuses.
      destruct Ho as [-> | ->].
      * apply reconcile_line_statuses.
      * rewrite set_order_status_line_statuses.
        apply reconcile_line_statuses.
Qed.

(** ** Validation of the requested entries *)

Lemma validate_order_items_spec (d : Db) (items : list OrderEntry)
  (branch : option string) :
  validate_order_items d items branch
  = (validated_lines d branch items, rejections d branch items).
Proof.
  unfold validate_order_items, validated_lines, rejections.
  change (@nil ValidatedItem, @nil string)
    with (@nil ValidatedItem ++ [], @nil string ++ [])%list at 1.
  assert (G : forall v e,
             fold_left
               (fun acc item =>
                  match validate_entry d branch item with
                  | Skipped => acc
                  | Rejected error => (fst acc, (snd acc ++ [error])%list)
                  | Validated line => ((fst acc ++ [line])%list, snd acc)
                  end) items (v, e)
             = ((v ++ flat_map
                        (fun e => match validate_entry d branch e with
                                  | Validated line => [line]
                                  | _ => []
                                  end) items)%list,
                (e ++ flat_map
                        (fun e => match validate_entry d branch e with
                                  | Rejected error => [error]
                                  | _ => []
                                  end) items)%list)).
  { induction items as [|x rest IH]; intros v e; simpl.
    - now rewrite !app_nil_r.
    - destruct (validate_entry d branch x); simpl; rewrite IH;
        rewrite <- ?app_assoc; reflexivity. }
  apply G.
Qed.

Lemma validate_entry_below_one (d : Db) (branch : option string)
  (e : OrderEntry) :
  (entry_qty e < 1)%Z -> validate_entry d branch e = Skipped.
Proof.
  intros H. unfold validate_entry.
  apply Z.ltb_lt in H. now rewrite H.
Qed.

Lemma flat_map_filter_skipped {B} (d : Db) (branch : option string)
  (f : entry_result -> list B) (items : list OrderEntry) :
  f Skipped = [] ->
  flat_map (fun e => f (validate_entry d branch e)) items
  = flat_map (fun e => f (validate_entry d branch e))
      (filter (fun e => negb (entry_qty e <? 1)%Z) items).
Proof.
  intros Hf. induction items as [|x rest IH]; simpl; [reflexivity|].
  destruct (entry_qty x <? 1)%Z eqn:E; simpl.
  - apply Z.ltb_lt in E.
    rewrite (validate_entry_below_one d branch x E), Hf. exact IH.
  - now rewrite IH.
Qed.

(** Entries below quantity 1 leave no trace in the result. *)
Lemma validate_order_items_drops (d : Db) (items : list OrderEntry)
  (branch : option string) :
  validate_order_items d items branch
  = validate_order_items d
      (filter (fun e => negb (entry_qty e <? 1)%Z) items) branch.
Proof.
  rewrite !validate_order_items_spec.
  unfold validated_lines, rejections. f_equal.
  - apply (flat_map_filter_skipped d branch
             (fun r => match r with Validated line => [line] | _ => [] end)).
    reflexivity.
  - apply (flat_map_filter_skipped d branch
             (fun r => match r with Rejected error => [error] | _ => [] end)).
    reflexivity.
Qed.

Section Placement.

Variable autoname : string -> nat -> string.

Lemma place_order_rejects (table_code : string) (items : list OrderEntry)
  (customer_name customer_phone notes : option string)
  (order_type language : string) (d : Db) (table : RestaurantTable)
  (first : string) (rest : list string) :
  find (fun t => (rt_qr_code t =? table_code) && rt_enabled t) (db_tables d)
  = Some table ->
  snd (validate_order_items d items (Some (rt_branch table)))
  = first :: rest ->
  place_order autoname table_code items customer_name customer_phone notes
    order_type language d
  = (Ok (Failure first (Some (first :: rest))), d).
Proof.
  intros Ht He. unfold place_order. apply try_ok.
  erewrite bind_ok; [|unfold gets; rewrite Ht; reflexivity].
  destruct items as [|e items']; [discriminate|].
  erewrite bind_ok; [|reflexivity].
  cbv beta. rewrite He. reflexivity.
Qed.

End Placement.

(** C5. Validation skips every entry whose quantity is below 1, without an
    error for it: the result is that of the list without those entries.
    The errors are the messages of the rejected entries, and when there is
    one, [place_order] returns the failure with the first message and the
    whole list, and leaves the database as it was: no order, no ticket,
    no session. *)
Theorem invalid_entry_rejects_order (autoname : string -> nat -> string)
  (table_code : string) (items : list OrderEntry)
  (customer_name customer_phone notes : option string)
  (order_type language : string) (d : Db) (table : RestaurantTable) :
  find (fun t => (rt_qr_code t =? table_code) && rt_enabled t) (db_tables d)
  = Some table ->
  let branch := Some (rt_branch table) in
  let errors := snd (validate_order_items d items branch) in
  (forall e, (entry_qty e < 1)%Z -> validate_entry d branch e = Skipped)
  /\ validate_order_items d items branch
     = validate_order_items d
         (filter (fun e => negb (entry_qty e <? 1)%Z) items) branch
  /\ errors = rejections d branch items
  /\ (errors <> [] ->
      place_order autoname table_code items customer_name customer_phone
        notes order_type language d
      = (Ok (Failure (hd "" errors) (Some errors)), d)).
Proof.
  intros Ht branch errors. split; [|split; [|split]].
  - intros e. apply validate_entry_below_one.
  - apply validate_order_items_drops.
  - unfold errors. now rewrite validate_order_items_spec.
  - intros Hne. destruct errors as [|first rest] eqn:E; [contradiction|].
    simpl. eapply place_order_rejects; eauto.
Qed.

(** ** Placement of a valid order *)

Section Acceptance.

Variable autoname : string -> nat -> string.

Lemma name_rows_ok {A} (doctype : string) (set_name : string -> A -> A)
  (rows : list A) (d : Db) :
  exists rows' n,
    name_rows autoname doctype set_name rows d = (Ok rows', with_serial n d).
Proof.
  revert d. induction rows as [|r rest IH]; intros d; simpl.
  - exists [], (db_serial d). unfold ret. now destruct d.
  - destruct (IH (with_serial (S (db_serial d)) d)) as (rest' & n & E).
    eexists. exists n.
    erewrite bind_ok; [|reflexivity].
    erewrite bind_ok; [|exact E]. reflexivity.
Qed.

Lemma get_or_create_table_session_run (table : string)
  (customer_name customer_phone : option string) (d : Db) :
  exists session d1,
    get_or_create_table_session autoname table customer_name customer_phone d
    = (Ok session, d1)
    /\ db_settings d1 = db_settings d.
Proof.
  unfold get_or_create_table_session, bind, gets.
  destruct (find _ (db_sessions d)); simpl.
  - eexists. eexists. split; reflexivity.
  - eexists. eexists. split; reflexivity.
Qed.

Lemma ro_insert_run (order : RestaurantOrder) (d : Db) :
  exists order' d2, ro_insert autoname order d = (Ok order', d2).
Proof.
  unfold ro_insert.
  destruct (name_rows_ok "Restaurant Order Item" set_roi_name
              (ro_items order) (with_serial (S (db_serial d)) d))
    as (items & n & E).
  erewrite bind_ok; [|reflexivity].
  erewrite bind_ok; [|exact E].
  unfold bind, gets, modify, update_table_status, when, ret.
  match goal with
  | |- context [if (?a && ?b)%bool then _ else _] => destruct (a && b)%bool
  end; eexists; eexists; reflexivity.
Qed.

Lemma create_kitchen_orders_ok (order : RestaurantOrder) (d : Db) :
  exists d', create_kitchen_orders autoname order d = (Ok tt, d').
Proof.
  destruct (fan_out_tickets autoname station_of_line (station_kot order)
              (ro_items order) d) as (news & d' & E & _).
  { reflexivity. }
  { intros [s xs] H. simpl in *. now destruct xs. }
  exists d'. exact E.
Qed.

(** A placement on a valid table, with entries and without errors, goes
    through and returns the total computed from the validated lines. *)
Lemma place_order_accepts (table_code : string) (items : list OrderEntry)
  (customer_name customer_phone notes : option string)
  (order_type language : string) (d : Db) (table : RestaurantTable) :
  find (fun t => (rt_qr_code t =? table_code) && rt_enabled t) (db_tables d)
  = Some table ->
  items <> [] ->
  snd (validate_order_items d items (Some (rt_branch table))) = [] ->
  let validated := fst (validate_order_items d items (Some (rt_branch table))) in
  let subtotal := place_subtotal validated in
  let service_charge := place_service_charge (db_settings d) subtotal in
  let vat := place_vat (db_settings d) subtotal service_charge in
  exists order_id d',
    place_order autoname table_code items customer_name customer_phone notes
      order_type language d
    = (Ok (Success "Order placed successfully"
             {| pd_order_id := order_id;
                pd_table_number := rt_table_number table;
                pd_estimated_time := max_prep_time validated;
                pd_grand_total := (subtotal + service_charge + vat)%Qc;
                pd_status := "New" |}), d').
Proof.
  intros Ht Hi He validated subtotal service_charge vat.
  unfold place_order.
  destruct (get_or_create_table_session_run (rt_name table) customer_name
              customer_phone d) as (session & d1 & Es & Hset).
  set (order :=
         {| ro_name := ""; ro_table := rt_name table;
            ro_table_number := rt_table_number table;
            ro_branch := rt_branch table; ro_table_session := session;
            ro_order_type := order_type;
            ro_customer_name := customer_name;
            ro_customer_phone := customer_phone; ro_notes := notes;
            ro_language := language; ro_status := "New";
            ro_subtotal := subtotal; ro_service_charge := service_charge;
            ro_service_charge_percent :=
              num_or (service_charge_percent (db_settings d)) 0;
            ro_vat := vat;
            ro_vat_percent :=
              num_or (vat_percent (db_settings d)) (Z2Qc 15);
            ro_grand_total := (subtotal + service_charge + vat)%Qc;
            ro_total_qty := 0; ro_tax_amount := 0; ro_tip_amount := None;
            ro_discount_amount := None; ro_restaurant_table := None;
            ro_estimated_preparation_time := max_prep_time validated;
            ro_items := map order_line validated |}).
  destruct (ro_insert_run order d1) as (order' & d2 & Eo).
  destruct (create_kitchen_orders_ok order' d2) as (d3 & Ek).
  exists (ro_name order'). eexists.
  apply try_ok.
  erewrite bind_ok; [|unfold gets; rewrite Ht; reflexivity].
  destruct items as [|e items']; [contradiction|].
  erewrite bind_ok; [|reflexivity].
  cbv beta. rewrite He.
  erewrite bind_ok; [|exact Es].
  erewrite bind_ok; [|unfold gets; rewrite Hset; reflexivity].
  fold validated. fold subtotal. fold service_charge. fold vat. fold order.
  erewrite bind_ok; [|exact Eo].
  erewrite bind_ok; [|exact Ek].
  reflexivity.
Qed.

End Acceptance.

(** ** Totals *)

(** C3, at the input where the code departs from it: with a service charge
    of 10 percent and VAT of 15 percent, one item of 100.00 is answered with
    a grand total of 126.50 (subtotal 100, service charge 10, VAT 16.50 on
    110), but the order row that [insert] writes went through
    [calculate_totals], which adds the per-line tax (none) instead of the
    VAT: the persisted grand total is 110. *)
Theorem returned_and_persisted_totals :
  exists data o,
    result_of (burger_order fees_10_15)
    = Ok (Success "Order placed successfully" data)
    /\ pd_grand_total data = Q2Qc (253 # 2)
    /\ find_row ro_name (pd_order_id data)
         (db_orders (state_of (burger_order fees_10_15))) = Some o
    /\ ro_subtotal o = Z2Qc 100
    /\ ro_service_charge o = Z2Qc 10
    /\ ro_vat o = Q2Qc (33 # 2)
    /\ ro_tax_amount o = Z2Qc 0
    /\ flt (ro_tip_amount o) = Z2Qc 0
    /\ flt (ro_discount_amount o) = Z2Qc 0
    /\ ro_grand_total o = Z2Qc 110.
Proof.
  eexists. eexists.
  split; [vm_compute; reflexivity|].
  split; [apply Qc_is_canon; vm_compute; reflexivity|].
  split; [vm_compute; reflexivity|].
  repeat split; apply Qc_is_canon; vm_compute; reflexivity.
Qed.

(** C4, as stated, fails for VAT: with both percentages unset, one item of
    100.00 is answered with a grand total of 115, and the order is stored
    with a VAT percentage of 15 and a VAT of 15. *)
Lemma unset_vat_is_fifteen :
  vat_percent (db_settings (demo_db fees_unset)) = None
  /\ exists data o,
       result_of (burger_order fees_unset)
       = Ok (Success "Order placed successfully" data)
       /\ pd_grand_total data = Z2Qc 115
       /\ find_row ro_name (pd_order_id data)
            (db_orders (state_of (burger_order fees_unset))) = Some o
       /\ ro_subtotal o = Z2Qc 100
       /\ ro_vat_percent o = Z2Qc 15
       /\ ro_vat o = Z2Qc 15.
Proof.
  split; [reflexivity|].
  eexists. eexists.
  split; [vm_compute; reflexivity|].
  split; [apply Qc_is_canon; vm_compute; reflexivity|].
  split; [vm_compute; reflexivity|].
  repeat split; apply Qc_is_canon; vm_compute; reflexivity.
Qed.

Lemma Qc_zero_percent (x : Qc) : (x * 0 / Z2Qc 100)%Qc = 0%Qc.
Proof. unfold Qcdiv. ring. Qed.

(** C4, amended. In a placement that goes through, an unset service-charge
    percentage counts as 0, so the service charge is 0 and the total
    returned is the subtotal plus VAT; an unset VAT percentage counts as
    15, so the VAT is 15 percent of subtotal plus service charge and is
    part of the total returned. *)
Theorem unset_fee_defaults (autoname : string -> nat -> string)
  (table_code : string) (items : list OrderEntry)
  (customer_name customer_phone notes : option string)
  (order_type language : string) (d : Db) (table : RestaurantTable) :
  find (fun t => (rt_qr_code t =? table_code) && rt_enabled t) (db_tables d)
  = Some table ->
  items <> [] ->
  snd (validate_order_items d items (Some (rt_branch table))) = [] ->
  let subtotal :=
    place_subtotal
      (fst (validate_order_items d items (Some (rt_branch table)))) in
  let settings := db_settings d in
  let service_charge := place_service_charge settings subtotal in
  let vat := place_vat settings subtotal service_charge in
  let answer :=
    result_of
      (place_order autoname table_code items customer_name customer_phone
         notes order_type language d) in
  returned_total answer = Some (subtotal + service_charge + vat)%Qc
  /\ (service_charge_percent settings = None ->
      service_charge = 0%Qc
      /\ returned_total answer = Some (subtotal + vat)%Qc)
  /\ (vat_percent settings = None ->
      vat = ((subtotal + service_charge) * Z2Qc 15 / Z2Qc 100)%Qc).
Proof.
  intros Ht Hi He subtotal settings service_charge vat answer.
  destruct (place_order_accepts autoname table_code items customer_name
              customer_phone notes order_type language d table Ht Hi He)
    as (order_id & d' & E).
  assert (Ha : returned_total answer
               = Some (subtotal + service_charge + vat)%Qc).
  { unfold answer. rewrite E. reflexivity. }
  split; [exact Ha|]. split.
  - intros Hs.
    assert (Hz : service_charge = 0%Qc).
    { unfold service_charge, place_service_charge. fold settings.
      rewrite Hs. simpl. apply Qc_zero_percent. }
    split; [exact Hz|]. rewrite Ha. f_equal. rewrite Hz. ring.
  - intros Hv. unfold vat, place_vat. fold settings. rewrite Hv. reflexivity.
Qed.

(** ** Runs on the sample data *)

(** Two lines on two stations give two tickets, the second at the fallback
    station, and the reconciler run by the inserts confirms the order. *)
Example two_stations_two_tickets :
  map (fun k => (kot_kitchen_station k, kot_status k,
                 map koi_order_item (kot_items k)))
      (db_kots (state_of two_station_order))
  = [("Grill", "New", [Some "Restaurant Order Item-2"]);
     ("Main Kitchen", "New", [Some "Restaurant Order Item-3"])]
  /\ map (fun o => (ro_name o, ro_status o))
         (db_orders (state_of two_station_order))
     = [("Restaurant Order-1", "Confirmed")].
Proof. split; vm_compute; reflexivity. Qed.

(** An append adds a ticket of its own, marked additional and without
    [order_item] on its line, next to the two that were there; the total it
    answers with is the one [calculate_totals] stored, 280 + 28, while the
    VAT field holds 46.20. *)
Example append_adds_additional_ticket :
  map (fun k => (kot_kitchen_station k, kot_is_additional k,
                 map koi_order_item (kot_items k)))
      (db_kots (state_of appended_order))
  = [("Grill", 0%Z, [Some "Restaurant Order Item-2"]);
     ("Main Kitchen", 0%Z, [Some "Restaurant Order Item-3"]);
     ("Grill", 1%Z, [None])]
  /\ exists data,
       result_of appended_order
       = Ok (Success "Items added successfully" data)
       /\ ad_grand_total data = Z2Qc 308
       /\ ad_items_count data = 3%nat.
Proof.
  split; [vm_compute; reflexivity|].
  eexists. split; [vm_compute; reflexivity|].
  split; [apply Qc_is_canon; vm_compute; reflexivity|reflexivity].
Qed.

(** The reconciler leaves a paid order alone, whatever its tickets say;
    the direct writes of [recall_order] and [bump_order] do not. *)
Example paid_order_under_ticket_updates :
  order_status "ORD-1"
    (state_of (update_restaurant_order_status "ORD-1" paid_db))
  = Some "Paid"
  /\ order_status "ORD-1" (after_op (OpUpdate "KOT-1" "Preparing" None) paid_db)
     = Some "Paid"
  /\ order_status "ORD-1" (after_op (OpRecall "KOT-1") paid_db)
     = Some "Ready"
  /\ order_status "ORD-1" (after_op (OpBump "KOT-1") paid_db)
     = Some "Served".
Proof. repeat split; vm_compute; reflexivity. Qed.

(** What [calculate_totals] writes as grand total: the per-line tax, not
    the VAT, is the tax in it. *)
Lemma calculate_totals_grand_total (settings : RestaurantSettings)
  (o : RestaurantOrder) :
  let o' := calculate_totals settings o in
  ro_grand_total o'
  = (ro_subtotal o' + ro_tax_amount o' + ro_service_charge o'
     + flt (ro_tip_amount o) - flt (ro_discount_amount o))%Qc
  /\ ro_tax_amount o' = calculate_tax (ro_items o')
  /\ ro_vat o' = ro_vat o.
Proof. repeat split. Qed.

(** * The properties on the sample data *)

(** The reconciler on two orders that share the ticket table: the order
    with one 'Ready' and one 'New' ticket becomes 'Preparing'; the order
    whose single ticket is 'New' becomes 'Confirmed', the tickets of the
    other order not being read. *)
Lemma reconciler_precedence_witness :
  order_status "ORD-1"
    (state_of (update_restaurant_order_status "ORD-1" two_order_db))
  = Some "Preparing"
  /\ order_status "ORD-2"
       (state_of (update_restaurant_order_status "ORD-2" two_order_db))
     = Some "Confirmed".
Proof.
  assert (Hs : ~ sticky "New") by (vm_compute; discriminate).
  split.
  - assert (Hk : exists k, In k (db_kots two_order_db)
                           /\ kot_restaurant_order k = "ORD-1").
    { exists (demo_kot "KOT-1" "ORD-1" "Ready" None [demo_line "L1" "Ready"]).
      split; [simpl; auto|reflexivity]. }
    destruct (reconciler_precedence two_order_db "ORD-1"
                (demo_order "ORD-1" "New" [demo_order_line "OL-1" "Pending"])
                Hk eq_refl Hs) as (st & E & _ & _ & Hex).
    rewrite E. f_equal.
    apply (Hex "Ready" "New" eq_refl). left. split; reflexivity.
  - assert (Hk : exists k, In k (db_kots two_order_db)
                           /\ kot_restaurant_order k = "ORD-2").
    { exists (demo_kot "KOT-3" "ORD-2" "New" None [demo_line "L3" "Pending"]).
      split; [simpl; auto|reflexivity]. }
    destruct (reconciler_precedence two_order_db "ORD-2"
                (demo_order "ORD-2" "New" [demo_order_line "OL-2" "Pending"])
                Hk eq_refl Hs) as (st & E & _ & Huniq & _).
    rewrite E. f_equal. symmetry. apply Huniq.
    apply all_tickets_new.
    + intros F. inversion F. discriminate.
    + intros F. inversion F as [? ? H|? ? H]; [discriminate|inversion H].
    + repeat constructor.
Defined.

(** Fan-out over four lines, two for the grill, one without station and
    one with an empty station: one ticket for 'Grill' and one for
    'Main Kitchen', the latter with the two lines that name no station. *)
Lemma fan_out_one_ticket_per_station_witness :
  exists news d',
    create_kitchen_orders demo_autoname stations_order (demo_db fees_10_15)
    = (Ok tt, d')
    /\ db_kots d' = news
    /\ NoDup (map kot_kitchen_station news)
    /\ In "Grill" (map kot_kitchen_station news)
    /\ In "Main Kitchen" (map kot_kitchen_station news)
    /\ ~ In "" (map kot_kitchen_station news)
    /\ Forall
         (fun k =>
            (kot_kitchen_station k = "Main Kitchen" ->
             map koi_order_item (kot_items k) = [Some "OL-2"; Some "OL-3"])
            /\ (kot_kitchen_station k = "Grill" ->
                map koi_order_item (kot_items k) = [Some "OL-1"; Some "OL-4"]))
         news.
Proof.
  destruct (proj1 (fan_out_one_ticket_per_station demo_autoname stations_order
                     [] (demo_db fees_10_15)))
    as (news & d' & E & Hk & Hnd & Hs & Hf).
  exists news, d'. split; [exact E|]. split; [exact Hk|].
  split; [exact Hnd|]. split; [|split; [|split]].
  - apply Hs. exists (station_line "OL-1" (Some "Grill")).
    split; [simpl; auto|reflexivity].
  - apply Hs. exists (station_line "OL-2" None).
    split; [simpl; auto|reflexivity].
  - intros F. apply Hs in F. destruct F as (line & Hin & Hst).
    simpl in Hin.
    destruct Hin as [<-|[<-|[<-|[<-|[]]]]]; discriminate Hst.
  - eapply Forall_impl; [|exact Hf]. intros k (_ & _ & _ & _ & Hraw).
    split; intros Hst; rewrite Hst in Hraw;
      apply (f_equal (map (fun t => fst (fst (fst t))))) in Hraw;
      rewrite !map_map in Hraw; exact Hraw.
Defined.

(** The served order under a ticket update and under a recall. *)
Lemma sticky_status_kept_witness :
  order_status "ORD-1" served_db = Some "Served"
  /\ order_status "ORD-1"
       (after_op (OpUpdate "KOT-1" "Preparing" None) served_db)
     = Some "Served"
  /\ order_status "ORD-1" (after_op (OpRecall "KOT-1") served_db)
     = Some "Ready".
Proof.
  destruct (sticky_status_kept served_db "ORD-1" "Served" eq_refl eq_refl)
    as (_ & Hu & Hr).
  split; [reflexivity|]. split; [apply Hu|].
  apply (Hr "KOT-1"
           (demo_kot "KOT-1" "ORD-1" "Served" (Some 900%Z)
              [demo_line "L1" "Served"])).
  - reflexivity.
  - simpl. discriminate.
  - reflexivity.
  - reflexivity.
Defined.

(** One burger placed with both percentages unset. *)
Lemma unset_fee_defaults_witness :
  let d := demo_db fees_unset in
  let subtotal :=
    place_subtotal
      (fst (validate_order_items d [entry "Burger" 1] (Some "Main"))) in
  let service_charge := place_service_charge fees_unset subtotal in
  service_charge = 0%Qc
  /\ returned_total (result_of (burger_order fees_unset))
     = Some (subtotal + place_vat fees_unset subtotal service_charge)%Qc
  /\ place_vat fees_unset subtotal service_charge
     = ((subtotal + service_charge) * Z2Qc 15 / Z2Qc 100)%Qc.
Proof.
  intros d subtotal service_charge.
  assert (Ht : find (fun t => (rt_qr_code t =? "qr-1") && rt_enabled t)
                 (db_tables d) = Some demo_table) by reflexivity.
  assert (Hi : [entry "Burger" 1] <> []) by discriminate.
  assert (He : snd (validate_order_items d [entry "Burger" 1]
                      (Some (rt_branch demo_table))) = [])
    by (vm_compute; reflexivity).
  destruct (unset_fee_defaults demo_autoname "qr-1" [entry "Burger" 1]
              None None None "Dine In" "ar" d demo_table Ht Hi He)
    as (_ & Hs & Hv).
  destruct (Hs eq_refl) as (Hz & Hr).
  split; [exact Hz|]. split; [exact Hr|]. exact (Hv eq_refl).
Defined.

(** A request with a disabled and an unknown item is rejected whole. *)
Lemma invalid_entry_rejects_order_witness :
  place_order demo_autoname "qr-1" rejected_entries None None None
    "Dine In" "ar" (demo_db fees_10_15)
  = (Ok (Failure "Item not available: Soup"
           (Some ["Item not available: Soup"; "Item not found: Pizza"])),
     demo_db fees_10_15).
Proof.
  assert (Ht : find (fun t => (rt_qr_code t =? "qr-1") && rt_enabled t)
                 (db_tables (demo_db fees_10_15)) = Some demo_table)
    by reflexivity.
  destruct (invalid_entry_rejects_order demo_autoname "qr-1" rejected_entries
              None None None "Dine In" "ar" (demo_db fees_10_15) demo_table
              Ht) as (_ & _ & _ & H).
  apply H. vm_compute. discriminate.
Defined.

(** The three lines of the sample ticket made 'Ready' one by one. *)
Lemma line_update_promotes_ticket_witness :
  let d1 := after_op (OpUpdate "KOT-1" "Ready" (Some "L1")) three_line_db in
  let d2 := after_op (OpUpdate "KOT-1" "Ready" (Some "L2")) d1 in
  let d3 := after_op (OpUpdate "KOT-1" "Ready" (Some "L3")) d2 in
  option_map kot_status (lookup_kot "KOT-1" d1) = Some "Preparing"
  /\ option_map kot_status (lookup_kot "KOT-1" d2) = Some "Preparing"
  /\ option_map kot_status (lookup_kot "KOT-1" d3) = Some "Ready".
Proof.
  assert (Hk : lookup_kot "KOT-1" three_line_db = Some three_line_kot)
    by reflexivity.
  assert (Hi : kot_items three_line_kot <> []) by (simpl; discriminate).
  destruct (line_update_promotes_ticket three_line_db "KOT-1" three_line_kot
              Hk Hi) as (_ & H3).
  apply (H3 (demo_line "L1" "Pending") (demo_line "L2" "Preparing")
            (demo_line "L3" "Pending")).
  - reflexivity.
  - repeat constructor; simpl; intuition discriminate.
  - repeat constructor; simpl; discriminate.
Defined.

(** The sample ticket set to 'Preparing' as a whole. *)
Lemma ticket_update_advances_lines_witness :
  exists kot',
    lookup_kot "KOT-1"
      (after_op (OpUpdate "KOT-1" "Preparing" None) three_line_db)
    = Some kot'
    /\ kot_status kot' = "Preparing"
    /\ kot_started_at kot' = Some 1000%Z
    /\ map koi_status (kot_items kot')
       = ["Preparing"; "Preparing"; "Preparing"].
Proof.
  assert (Hk : lookup_kot "KOT-1" three_line_db = Some three_line_kot)
    by reflexivity.
  assert (Hi : kot_items three_line_kot <> []) by (simpl; discriminate).
  destruct (ticket_update_advances_lines three_line_db "KOT-1" "Preparing"
              None three_line_kot Hk Hi eq_refl)
    as (kot' & Hl & Hs & Hp & _).
  exists kot'. split; [exact Hl|]. split; [exact Hs|].
  split; [exact (proj1 (Hp eq_refl))|].
  assert (E : Some kot'
              = Some (updated_kot 1000%Z "Preparing" None three_line_kot)).
  { rewrite <- Hl. reflexivity. }
  injection E as ->. reflexivity.
Defined.

(** The served ticket recalled. *)
Lemma recall_resets_ticket_witness :
  exists kot',
    lookup_kot "KOT-1" (after_op (OpRecall "KOT-1") served_db) = Some kot'
    /\ kot_status kot' = "Ready"
    /\ kot_served_at kot' = None
    /\ Forall (fun l => koi_status l = "Ready") (kot_items kot').
Proof.
  assert (Hk : lookup_kot "KOT-1" served_db
               = Some (demo_kot "KOT-1" "ORD-1" "Served" (Some 900%Z)
                         [demo_line "L1" "Served"])) by reflexivity.
  destruct (recall_resets_ticket served_db "KOT-1" _ Hk)
    as (kot' & Hl & Hs & Ht & Hf & _).
  - simpl. discriminate.
  - exists kot'. auto.
Defined.

(** The sample ticket, whose lines carry no [order_item], bumped. *)
Lemma appended_ticket_bump_keeps_order_lines_witness :
  let d3 := after_op (OpBump "KOT-1") three_line_db in
  (exists kot',
      lookup_kot "KOT-1" d3 = Some kot'
      /\ kot_status kot' = "Served"
      /\ Forall (fun l => koi_status l = "Served") (kot_items kot'))
  /\ order_line_statuses d3 = [[("OL-1", "Pending")]].
Proof.
  destruct (appended_ticket_bump_keeps_order_lines demo_autoname
              (demo_order "ORD-1" "Preparing" []) appended_items
              three_line_db) as (_ & H).
  assert (Hk : lookup_kot "KOT-1" three_line_db = Some three_line_kot)
    by reflexivity.
  apply (H three_line_db "KOT-1" three_line_kot Hk).
  - simpl. discriminate.
  - repeat constructor.
Defined.

(** * Further properties of the endpoints and controllers *)

(** ** Tickets that are missing or have no line *)

Lemma bump_order_fails (d : Db) (kot_id : string) :
  lookup_kot kot_id d = None
  \/ (exists kot, lookup_kot kot_id d = Some kot /\ kot_items kot = []) ->
  exists msg,
    bump_order kot_id d
    = (Ok (Failure msg None),
       with_error_log (db_error_log d ++ ["Bump Order Error: " ++ msg]) d).
Proof.
  intros [Hk | (kot & Hk & Hi)]; unfold bump_order; eexists.
  - erewrite try_raise;
      [|erewrite bind_raise; [reflexivity|exact (get_kot_missing _ _ Hk)]].
    reflexivity.
  - erewrite try_raise.
    2:{ rewrite (bind_ok _ _ _ _ _ (get_kot_found _ _ _ Hk)).
        unfold now_datetime.
        rewrite (bind_ok (gets db_now) _ d d (db_now d)) by reflexivity.
        erewrite bind_raise; [reflexivity|].
        apply kot_save_empty. unfold bumped_kot. simpl. now rewrite Hi. }
    reflexivity.
Qed.

Lemma recall_order_fails (d : Db) (kot_id : string) :
  lookup_kot kot_id d = None
  \/ (exists kot, lookup_kot kot_id d = Some kot /\ kot_items kot = []) ->
  exists msg,
    recall_order kot_id d
    = (Ok (Failure msg None),
       with_error_log (db_error_log d ++ ["Recall Order Error: " ++ msg]) d).
Proof.
  intros [Hk | (kot & Hk & Hi)]; unfold recall_order; eexists.
  - erewrite try_raise;
      [|erewrite bind_raise; [reflexivity|exact (get_kot_missing _ _ Hk)]].
    reflexivity.
  - erewrite try_raise.
    2:{ rewrite (bind_ok _ _ _ _ _ (get_kot_found _ _ _ Hk)).
        erewrite bind_raise; [reflexivity|].
        apply kot_save_empty. unfold recalled_kot. simpl. now rewrite Hi. }
    reflexivity.
Qed.

(** X1. On a ticket that does not exist, or that has no line,
    [update_order_status], [bump_order] and [recall_order] answer with a
    failure and leave the database as it was, one entry in the error log
    apart. *)
Theorem ticket_update_fails_cleanly (d : Db) (kot_id : string) :
  lookup_kot kot_id d = None
  \/ (exists kot, lookup_kot kot_id d = Some kot /\ kot_items kot = []) ->
  (forall status item_id,
      exists msg,
        update_order_status kot_id status item_id d
        = (Ok (Failure msg None),
           with_error_log
             (db_error_log d ++ ["KOT Update Error: " ++ msg]) d))
  /\ (exists msg,
        bump_order kot_id d
        = (Ok (Failure msg None),
           with_error_log
             (db_error_log d ++ ["Bump Order Error: " ++ msg]) d))
  /\ (exists msg,
        recall_order kot_id d
        = (Ok (Failure msg None),
           with_error_log
             (db_error_log d ++ ["Recall Order Error: " ++ msg]) d)).
Proof.
  intros H. split; [|split].
  - intros status item_id. now apply update_order_status_fails.
  - now apply bump_order_fails.
  - now apply recall_order_fails.
Qed.

(** ** The reconciler, continued *)

(** X2. The reconciler does nothing at all for an order without tickets,
    and for tickets whose order is missing it only logs the error. *)
Theorem reconciler_skips (d : Db) (order_name : string) :
  (kots_of order_name d = [] ->
   update_restaurant_order_status order_name d = (Ok tt, d))
  /\ (kots_of order_name d <> [] ->
      find_row ro_name order_name (db_orders d) = None ->
      update_restaurant_order_status order_name d
      = (Ok tt,
         with_error_log
           (db_error_log d
            ++ ["Order Status Update Error: Restaurant Order "
                ++ order_name ++ " not found"]) d)).
Proof.
  unfold update_restaurant_order_status, try_except, bind, gets.
  split.
  - intros ->. reflexivity.
  - intros Hk Ho. destruct (kots_of order_name d); [contradiction|].
    unfold get_order. rewrite Ho. reflexivity.
Qed.

Lemma new_status_not_sticky (statuses : list string) :
  str_in (new_status_of statuses) sticky_statuses = false
  /\ In (new_status_of statuses) ["Ready"; "Preparing"; "Confirmed"].
Proof.
  unfold new_status_of.
  destruct (forallb _ statuses); [simpl; auto|].
  destruct (existsb _ statuses); [simpl; auto|].
  destruct (forallb _ statuses); simpl; auto.
Qed.

Lemma set_roi_amount_twice (items : list RestaurantOrderItem) :
  map (fun item => set_roi_amount (roi_rate item * Z2Qc (roi_qty item))%Qc item)
    (map (fun item =>
            set_roi_amount (roi_rate item * Z2Qc (roi_qty item))%Qc item)
         items)
  = map (fun item => set_roi_amount (roi_rate item * Z2Qc (roi_qty item))%Qc item)
      items.
Proof. rewrite map_map. reflexivity. Qed.

(** Recomputing the totals of a document whose totals were computed, with a
    status written in between, changes nothing but the status. *)
Lemma calculate_totals_again (settings : RestaurantSettings) (v : string)
  (o : RestaurantOrder) :
  calculate_totals settings (set_ro_status v (calculate_totals settings o))
  = set_ro_status v (calculate_totals settings o).
Proof.
  unfold calculate_totals. simpl. rewrite set_roi_amount_twice. reflexivity.
Qed.

Lemma replace_row_twice {A} (name_of : A -> string) (row : A)
  (rows : list A) :
  replace_row name_of row (replace_row name_of row rows)
  = replace_row name_of row rows.
Proof.
  induction rows as [|r rest IH]; simpl; [reflexivity|].
  destruct (name_of r =? name_of row) eqn:E; simpl.
  - now rewrite String.eqb_refl.
  - now rewrite E, IH.
Qed.

(** A second run of the reconciler right after the first leaves the order
    rows as the first left them. *)
Lemma reconcile_twice (order_name : string) (d : Db) :
  db_orders (reconcile order_name (reconcile order_name d))
  = db_orders (reconcile order_name d).
Proof.
  rewrite (reconcile_orders order_name (reconcile order_name d)).
  unfold reconciled_orders at 1. unfold kots_of.
  destruct (reconcile_frame order_name d) as (Hk & _ & Hs & _).
  rewrite Hk, Hs. fold (kots_of order_name d).
  rewrite reconcile_orders. unfold reconciled_orders.
  destruct (kots_of order_name d) as [|k ks] eqn:K; [reflexivity|].
  destruct (find_row ro_name order_name (db_orders d)) as [o|] eqn:Ho.
  2:{ now rewrite Ho. }
  destruct (str_in (ro_status o) sticky_statuses) eqn:So.
  { now rewrite Ho, So. }
  set (new := new_status_of (map kot_status (k :: ks))).
  set (o1 := calculate_totals (db_settings d) (set_ro_status new o)).
  assert (Hn : ro_name o1 = order_name)
    by exact (find_row_name _ _ _ _ Ho).
  assert (H1 : find_row ro_name order_name
                 (replace_row ro_name o1 (db_orders d)) = Some o1).
  { rewrite <- Hn at 1. eapply find_row_replace_same.
    rewrite Hn. exact Ho. }
  rewrite H1.
  change (ro_status o1) with new.
  assert (Hns : str_in new sticky_statuses = false)
    by apply new_status_not_sticky.
  rewrite Hns.
  assert (E : calculate_totals (db_settings d) (set_ro_status new o1) = o1).
  { unfold o1.
    assert (Es : set_ro_status new
                   (calculate_totals (db_settings d) (set_ro_status new o))
                 = calculate_totals (db_settings d) (set_ro_status new o))
      by reflexivity.
    rewrite <- Es at 2. apply calculate_totals_again. }
  rewrite E. apply replace_row_twice.
Qed.

(** X3. The reconciler is idempotent on the orders: a second run right
    after the first leaves every order row as the first left it.  The
    status it writes is 'Ready', 'Preparing' or 'Confirmed', never one of
    the statuses it refuses to overwrite. *)
Theorem reconciler_idempotent (d : Db) (order_name : string) :
  let d1 := state_of (update_restaurant_order_status order_name d) in
  let d2 := state_of (update_restaurant_order_status order_name d1) in
  db_orders d2 = db_orders d1
  /\ (forall st,
        order_status order_name d1 = Some st ->
        order_status order_name d = Some st
        \/ In st ["Ready"; "Preparing"; "Confirmed"]).
Proof.
  intros d1 d2.
  change d1 with (reconcile order_name d).
  change d2 with (reconcile order_name (reconcile order_name d)).
  split.
  - apply reconcile_twice.
  - intros st. unfold order_status. rewrite reconcile_orders.
    unfold reconciled_orders.
    destruct (kots_of order_name d) as [|k ks]; [auto|].
    destruct (find_row ro_name order_name (db_orders d)) as [o|] eqn:Ho;
      [|rewrite Ho; auto].
    destruct (str_in (ro_status o) sticky_statuses); [rewrite Ho; auto|].
    set (o1 := calculate_totals _ _).
    assert (Hn : ro_name o1 = order_name)
      by exact (find_row_name _ _ _ _ Ho).
    rewrite <- Hn at 1.
    erewrite find_row_replace_same; [|rewrite Hn; exact Ho].
    simpl. intros E. injection E as <-. right.
    apply new_status_not_sticky.
Qed.

(** ** Writing statuses to order lines *)

Lemma update_order_items_run (items : list KitchenOrderItem)
  (status : string) (d : Db) :
  update_order_items items status d
  = (Ok tt,
     with_orders
       (set_lines_status (order_item_refs items) status (db_orders d)) d).
Proof.
  unfold update_order_items. revert d.
  induction items as [|i r IH]; intros d; simpl.
  - unfold ret. now destruct d.
  - destruct (truthy_str (koi_order_item i)); simpl.
    + erewrite bind_ok; [|reflexivity]. rewrite IH. reflexivity.
    + erewrite bind_ok; [|reflexivity]. rewrite IH. reflexivity.
Qed.

Lemma set_lines_status_heads (refs : list string) (status : string)
  (orders : list RestaurantOrder) :
  map (fun o => (ro_name o, ro_status o))
      (set_lines_status refs status orders)
  = map (fun o => (ro_name o, ro_status o)) orders.
Proof.
  unfold set_lines_status. revert orders.
  induction refs as [|n refs IH]; intros orders; simpl; [reflexivity|].
  rewrite IH, map_map. reflexivity.
Qed.

Lemma order_status_heads (n : string) (l1 l2 : list RestaurantOrder) :
  map (fun o => (ro_name o, ro_status o)) l1
  = map (fun o => (ro_name o, ro_status o)) l2 ->
  option_map ro_status (find_row ro_name n l1)
  = option_map ro_status (find_row ro_name n l2).
Proof.
  unfold find_row. revert l2.
  induction l1 as [|a l1 IH]; intros [|b l2] H; simpl in *;
    try discriminate; [reflexivity|].
  injection H as Hn Hs Hr. rewrite Hn.
  destruct (ro_name b =? n); simpl; [now rewrite Hs|now apply IH].
Qed.

Lemma mark_lines_nil (status : string) (lines : list (list (string * string))) :
  mark_lines [] status lines = lines.
Proof.
  unfold mark_lines. simpl.
  erewrite map_ext; [apply map_id|].
  intros ls. apply map_id.
Qed.

Lemma mark_lines_cons (n : string) (refs : list string) (status : string)
  (lines : list (list (string * string))) :
  mark_lines refs status (mark_lines [n] status lines)
  = mark_lines (n :: refs) status lines.
Proof.
  unfold mark_lines. rewrite map_map. apply map_ext. intros ls.
  rewrite map_map. apply map_ext. intros [name st]. simpl.
  rewrite orb_false_r.
  destruct (name =? n); simpl.
  - now destruct (str_in name refs).
  - reflexivity.
Qed.

Lemma set_lines_status_lines (refs : list string) (status : string)
  (orders : list RestaurantOrder) :
  map (fun o => map (fun i => (roi_name i, roi_status i)) (ro_items o))
      (set_lines_status refs status orders)
  = mark_lines refs status
      (map (fun o => map (fun i => (roi_name i, roi_status i)) (ro_items o))
           orders).
Proof.
  unfold set_lines_status. revert orders.
  induction refs as [|n refs IH]; intros orders; simpl.
  - now rewrite mark_lines_nil.
  - rewrite IH, <- mark_lines_cons. f_equal.
    unfold mark_lines. rewrite !map_map. apply map_ext. intros o. simpl.
    unfold set_value. rewrite !map_map. apply map_ext. intros i. simpl.
    rewrite orb_false_r. now destruct (roi_name i =? n).
Qed.

Lemma bumped_kot_refs (now : datetime) (kot : KitchenOrder) :
  order_item_refs (kot_items (bumped_kot now kot))
  = order_item_refs (kot_items kot).
Proof.
  unfold bumped_kot, order_item_refs. simpl.
  induction (kot_items kot) as [|i r IH]; simpl; [reflexivity|].
  now rewrite IH.
Qed.

(** How [bump_order] runs on a ticket that exists and has lines. *)
Lemma bump_order_runs (d : Db) (kot_id : string) (kot : KitchenOrder) :
  lookup_kot kot_id d = Some kot ->
  kot_items kot <> [] ->
  let kot' := bumped_kot (db_now d) kot in
  let d1 := with_kots (replace_row kot_name kot' (db_kots d)) d in
  let order := kot_restaurant_order kot in
  let d2 := reconcile order d1 in
  let orders2 :=
    if all_kots_served order d2
    then set_value ro_name order (set_ro_status "Served") (db_orders d2)
    else db_orders d2 in
  exists d',
    bump_order kot_id d = (Ok (Success "Order bumped" tt), d')
    /\ db_kots d' = db_kots d1
    /\ db_orders d'
       = set_lines_status (order_item_refs (kot_items kot)) "Served" orders2.
Proof.
  intros Hk Hi kot' d1 order d2 orders2.
  pose proof (bumped_kot_items_nonempty (db_now d) kot Hi) as Hi'.
  fold kot' in Hi'.
  unfold bump_order.
  destruct (all_kots_served order d2) eqn:Hall;
    (eexists; split; [|split];
     [ apply try_ok;
       rewrite (bind_ok _ _ _ _ _ (get_kot_found _ _ _ Hk));
       unfold now_datetime;
       rewrite (bind_ok (gets db_now) _ d d (db_now d)) by reflexivity;
       fold kot';
       rewrite (bind_ok _ _ _ _ _ (kot_save_run kot' d Hi'));
       fold d1;
       change (kot_restaurant_order kot') with order; fold d2;
       erewrite (bind_ok (gets _)); [|unfold gets; rewrite Hall; reflexivity];
       unfold when at 1;
       (erewrite bind_ok; [|reflexivity]);
       erewrite bind_ok;
         [|exact (update_order_items_run (kot_items kot') "Served" _)];
       reflexivity
     | apply (proj1 (reconcile_frame _ _))
     | unfold orders2; rewrite <- (bumped_kot_refs (db_now d) kot);
       reflexivity ]).
Qed.

(** ** What a bump does to the order *)

(** X4. Bumping a ticket writes 'Served' to exactly the order lines its
    ticket lines refer to, in whichever order they are, and leaves the
    status of every other order line as it was. *)
Theorem bump_serves_referenced_lines (d : Db) (kot_id : string)
  (kot : KitchenOrder) :
  lookup_kot kot_id d = Some kot ->
  kot_items kot <> [] ->
  order_line_statuses (after_op (OpBump kot_id) d)
  = mark_lines (order_item_refs (kot_items kot)) "Served"
      (order_line_statuses d).
Proof.
  intros Hk Hi.
  destruct (bump_order_runs d kot_id kot Hk Hi) as (d' & E & _ & Ho).
  unfold after_op. rewrite E. unfold state_of, snd, order_line_statuses.
  rewrite Ho, set_lines_status_lines. f_equal.
  destruct (all_kots_served _ _).
  - rewrite set_order_status_line_statuses.
    apply reconcile_line_statuses.
  - apply reconcile_line_statuses.
Qed.

Lemma In_replace_row {A} (name_of : A -> string) (row : A) (rows : list A)
  (x : A) :
  NoDup (map name_of rows) ->
  In x (replace_row name_of row rows) ->
  x = row \/ (In x rows /\ name_of x <> name_of row).
Proof.
  induction rows as [|r rest IH]; simpl; intros Hnd Hin; [contradiction|].
  inversion Hnd as [|? ? Hr Hnd']; subst.
  destruct (name_of r =? name_of row) eqn:E.
  - apply String.eqb_eq in E. destruct Hin as [<-|Hin]; [now left|].
    right. split; [now right|]. intros F. apply Hr.
    rewrite E, <- F. now apply in_map.
  - apply String.eqb_neq in E. destruct Hin as [<-|Hin].
    + right. split; [now left|exact E].
    + destruct (IH Hnd' Hin) as [->|[H1 H2]]; [now left|].
      right. split; [now right|exact H2].
Qed.

Lemma In_replace_row_other {A} (name_of : A -> string) (row : A)
  (rows : list A) (x : A) :
  In x rows -> name_of x <> name_of row ->
  In x (replace_row name_of row rows).
Proof.
  induction rows as [|r rest IH]; simpl; intros Hin Hne; [contradiction|].
  destruct (name_of r =? name_of row) eqn:E.
  - destruct Hin as [<-|Hin]; [|now right].
    apply String.eqb_eq in E. contradiction.
  - destruct Hin as [<-|Hin]; [now left|]. right. now apply IH.
Qed.

Lemma reconcile_keeps_order (d : Db) (order_name : string)
  (o : RestaurantOrder) :
  find_row ro_name order_name (db_orders d) = Some o ->
  exists o', find_row ro_name order_name (db_orders (reconcile order_name d))
             = Some o'.
Proof.
  intros Ho. rewrite reconcile_orders. unfold reconciled_orders.
  destruct (kots_of order_name d); [eauto|]. rewrite Ho.
  destruct (str_in (ro_status o) sticky_statuses); [eauto|].
  set (o1 := calculate_totals _ _).
  assert (Hn : ro_name o1 = order_name)
    by exact (find_row_name _ _ _ _ Ho).
  exists o1. rewrite <- Hn at 1.
  eapply find_row_replace_same. rewrite Hn. exact Ho.
Qed.

Lemma order_status_set_value (n v : string) (orders : list RestaurantOrder)
  (o : RestaurantOrder) :
  find_row ro_name n orders = Some o ->
  option_map ro_status
    (find_row ro_name n (set_value ro_name n (set_ro_status v) orders))
  = Some v.
Proof.
  intros Ho. rewrite find_row_set_value by reflexivity. rewrite Ho. simpl.
  now rewrite (find_row_name _ _ _ _ Ho), String.eqb_refl.
Qed.

(** X5. After a bump, the order is 'Served' as soon as every other ticket
    of the order is 'Served' or 'Cancelled', whatever the order's status
    was; while another ticket of the order is still open, an order in a
    status the reconciler leaves alone keeps it. *)
Theorem bump_serves_order_when_last (d : Db) (kot_id : string)
  (kot : KitchenOrder) (o : RestaurantOrder) :
  lookup_kot kot_id d = Some kot ->
  kot_items kot <> [] ->
  NoDup (map kot_name (db_kots d)) ->
  let order := kot_restaurant_order kot in
  find_row ro_name order (db_orders d) = Some o ->
  let d' := after_op (OpBump kot_id) d in
  ((forall k, In k (db_kots d) -> kot_restaurant_order k = order ->
              kot_name k <> kot_id ->
              str_in (kot_status k) ["Served"; "Cancelled"] = true) ->
   order_status order d' = Some "Served")
  /\ ((exists k, In k (db_kots d) /\ kot_restaurant_order k = order
                 /\ kot_name k <> kot_id
                 /\ str_in (kot_status k) ["Served"; "Cancelled"] = false) ->
      sticky (ro_status o) ->
      order_status order d' = Some (ro_status o)).
Proof.
  intros Hk Hi Hnd order Ho d'.
  destruct (bump_order_runs d kot_id kot Hk Hi) as (d1 & E & _ & Hd).
  set (kot' := bumped_kot (db_now d) kot) in *.
  set (d2 := reconcile order
               (with_kots (replace_row kot_name kot' (db_kots d)) d)) in *.
  assert (Hn : kot_name kot' = kot_id)
    by exact (find_row_name _ _ _ _ Hk).
  assert (Hs : order_status order d'
               = option_map ro_status
                   (find_row ro_name order
                      (if all_kots_served order d2
                       then set_value ro_name order (set_ro_status "Served")
                              (db_orders d2)
                       else db_orders d2))).
  { unfold d', after_op. rewrite E. unfold state_of, snd, order_status.
    rewrite Hd. apply order_status_heads, set_lines_status_heads. }
  assert (Hk2 : db_kots d2 = replace_row kot_name kot' (db_kots d)).
  { unfold d2. now rewrite (proj1 (reconcile_frame _ _)). }
  split.
  - intros Hothers.
    assert (Hall : all_kots_served order d2 = true).
    { unfold all_kots_served. rewrite Hk2.
      apply negb_true_iff. apply not_true_is_false. intros F.
      apply existsb_exists in F. destruct F as (k & Hin & Hc).
      apply andb_true_iff in Hc. destruct Hc as (Hc1 & Hc2).
      apply String.eqb_eq in Hc1. apply negb_true_iff in Hc2.
      destruct (In_replace_row _ _ _ _ Hnd Hin) as [->|[Hin' Hne]].
      - discriminate Hc2.
      - rewrite Hn in Hne. rewrite (Hothers k Hin' Hc1 Hne) in Hc2.
        discriminate. }
    rewrite Hs, Hall.
    destruct (reconcile_keeps_order
                (with_kots (replace_row kot_name kot' (db_kots d)) d)
                order o Ho) as (o2 & Ho2).
    fold d2 in Ho2. exact (order_status_set_value _ _ _ _ Ho2).
  - intros (k & Hin & Hko & Hkn & Hks) Hst.
    assert (Hall : all_kots_served order d2 = false).
    { unfold all_kots_served. rewrite Hk2.
      apply negb_false_iff. apply existsb_exists. exists k. split.
      - apply In_replace_row_other; trivial. now rewrite Hn.
      - rewrite Hko, String.eqb_refl, Hks. reflexivity. }
    rewrite Hs, Hall.
    apply (reconcile_keeps_sticky
             (with_kots (replace_row kot_name kot' (db_kots d)) d)
             order order (ro_status o)); trivial.
    unfold order_status. simpl. now rewrite Ho.
Qed.

(** ** What a recall does to the order *)

(** X6. A recall that goes through leaves the parent order 'Ready',
    whatever its status was: the write is not guarded. *)
Theorem recall_sets_order_ready (d : Db) (kot_id : string)
  (kot : KitchenOrder) (o : RestaurantOrder) :
  lookup_kot kot_id d = Some kot ->
  kot_items kot <> [] ->
  find_row ro_name (kot_restaurant_order kot) (db_orders d) = Some o ->
  order_status (kot_restaurant_order kot) (after_op (OpRecall kot_id) d)
  = Some "Ready".
Proof.
  intros Hk Hi Ho.
  destruct (recall_order_run d kot_id kot Hk Hi) as (d' & E & _ & Hd).
  unfold after_op. rewrite E. unfold state_of, snd, order_status. rewrite Hd.
  destruct (reconcile_keeps_order
              (with_kots (replace_row kot_name (recalled_kot kot) (db_kots d)) d)
              (kot_restaurant_order kot) o Ho) as (o2 & Ho2).
  exact (order_status_set_value _ _ _ _ Ho2).
Qed.

(** ** What ticket updates leave alone *)

Lemma orders_agree_refl (order : string) (l : list RestaurantOrder) :
  orders_agree_except order l l.
Proof. split; auto. Qed.

Lemma orders_agree_trans (order : string) (l1 l2 l3 : list RestaurantOrder) :
  orders_agree_except order l1 l2 ->
  orders_agree_except order l2 l3 ->
  orders_agree_except order l1 l3.
Proof.
  intros [N1 S1] [N2 S2]. split; [congruence|].
  intros n Hn. rewrite S2, S1; auto.
Qed.

Lemma orders_agree_reconcile (order : string) (d : Db) :
  orders_agree_except order (db_orders d) (db_orders (reconcile order d)).
Proof.
  rewrite reconcile_orders. unfold reconciled_orders.
  destruct (kots_of order d); [apply orders_agree_refl|].
  destruct (find_row ro_name order (db_orders d)) as [o|] eqn:Ho;
    [|apply orders_agree_refl].
  destruct (str_in (ro_status o) sticky_statuses); [apply orders_agree_refl|].
  set (o1 := calculate_totals _ _).
  assert (Hn : ro_name o1 = order) by exact (find_row_name _ _ _ _ Ho).
  split.
  - eapply map_replace_row; [rewrite Hn; exact Ho|].
    rewrite Hn. symmetry. exact (find_row_name _ _ _ _ Ho).
  - intros n Hne. rewrite find_row_replace_other; [reflexivity|].
    now rewrite Hn.
Qed.

Lemma orders_agree_set_status (order v : string) (l : list RestaurantOrder) :
  orders_agree_except order l (set_value ro_name order (set_ro_status v) l).
Proof.
  split.
  - unfold set_value. rewrite map_map. apply map_ext.
    intros o. now destruct (ro_name o =? order).
  - intros n Hne. rewrite find_row_set_value by reflexivity.
    destruct (find_row ro_name n l) as [o|] eqn:Ho; [|reflexivity].
    simpl. rewrite (find_row_name _ _ _ _ Ho).
    apply String.eqb_neq in Hne. now rewrite Hne.
Qed.

Lemma orders_agree_set_lines (order : string) (refs : list string)
  (v : string) (l : list RestaurantOrder) :
  orders_agree_except order l (set_lines_status refs v l).
Proof.
  pose proof (set_lines_status_heads refs v l) as H.
  split.
  - apply (f_equal (map fst)) in H. now rewrite !map_map in H.
  - intros n _. now apply order_status_heads.
Qed.

Lemma kots_replaced_frame (d d' : Db) (kot_id : string)
  (kot kot' : KitchenOrder) :
  lookup_kot kot_id d = Some kot ->
  kot_name kot' = kot_name kot ->
  db_kots d' = replace_row kot_name kot' (db_kots d) ->
  (forall other, other <> kot_id -> lookup_kot other d' = lookup_kot other d)
  /\ map kot_name (db_kots d') = map kot_name (db_kots d).
Proof.
  unfold lookup_kot. intros Hk Hn ->.
  pose proof (find_row_name _ _ _ _ Hk) as E.
  split.
  - intros other Hne. apply find_row_replace_other. congruence.
  - eapply map_replace_row; [rewrite Hn, E; exact Hk|exact Hn].
Qed.

(** X7. A ticket update, bump or recall changes no ticket but the one it is
    addressed to and adds or removes no ticket and no order; the status of
    every order other than that ticket's parent stays as it was. *)
Theorem ticket_ops_touch_only_their_rows (op : ticket_op) (d : Db) :
  let d' := after_op op d in
  (forall other, other <> op_target op ->
                 lookup_kot other d' = lookup_kot other d)
  /\ map kot_name (db_kots d') = map kot_name (db_kots d)
  /\ map ro_name (db_orders d') = map ro_name (db_orders d)
  /\ (forall n,
        (forall kot, lookup_kot (op_target op) d = Some kot ->
                     n <> kot_restaurant_order kot) ->
        order_status n d' = order_status n d).
Proof.
  intros d'.
  destruct (lookup_kot (op_target op) d) as [kot|] eqn:Hk.
  2:{ assert (E : exists log, d' = with_error_log log d).
      { unfold d'. destruct op as [kot_id status item_id|kot_id|kot_id];
          simpl in *.
        - destruct (update_order_status_fails d kot_id status item_id
                      (or_introl Hk)) as (msg & ->).
          eexists; reflexivity.
        - destruct (bump_order_fails d kot_id (or_introl Hk)) as (msg & ->).
          eexists; reflexivity.
        - destruct (recall_order_fails d kot_id (or_introl Hk)) as (msg & ->).
          eexists; reflexivity. }
      destruct E as (log & ->). repeat split; auto. }
  destruct (kot_items kot) as [|i r] eqn:Hi.
  { assert (E : exists log, d' = with_error_log log d).
    { unfold d'. destruct op as [kot_id status item_id|kot_id|kot_id];
        simpl in *.
      - destruct (update_order_status_fails d kot_id status item_id
                    (or_intror (ex_intro _ kot (conj Hk Hi)))) as (msg & ->).
        eexists; reflexivity.
      - destruct (bump_order_fails d kot_id
                    (or_intror (ex_intro _ kot (conj Hk Hi)))) as (msg & ->).
        eexists; reflexivity.
      - destruct (recall_order_fails d kot_id
                    (or_intror (ex_intro _ kot (conj Hk Hi)))) as (msg & ->).
        eexists; reflexivity. }
    destruct E as (log & ->). repeat split; auto. }
  assert (Hne : kot_items kot <> []) by (rewrite Hi; discriminate).
  assert (G : exists kot',
             kot_name kot' = kot_name kot
             /\ db_kots d' = replace_row kot_name kot' (db_kots d)
             /\ orders_agree_except (kot_restaurant_order kot)
                  (db_orders d) (db_orders d')).
  { unfold d'. destruct op as [kot_id status item_id|kot_id|kot_id];
      simpl in *.
    - destruct (update_order_status_run d kot_id status item_id kot Hk Hne)
        as (d1 & -> & Hkots & Ho & _).
      exists (updated_kot (db_now d) status item_id kot).
      split; [apply updated_kot_frame|]. split; [exact Hkots|].
      unfold state_of, snd. rewrite Ho.
      eapply orders_agree_trans; [|apply orders_agree_reconcile].
      apply (orders_agree_reconcile (kot_restaurant_order kot)
               (with_kots _ d)).
    - destruct (bump_order_runs d kot_id kot Hk Hne)
        as (d1 & -> & Hkots & Ho).
      exists (bumped_kot (db_now d) kot).
      split; [reflexivity|]. split; [exact Hkots|].
      unfold state_of, snd. rewrite Ho.
      eapply orders_agree_trans; [|apply orders_agree_set_lines].
      destruct (all_kots_served _ _).
      + eapply orders_agree_trans; [|apply orders_agree_set_status].
        apply (orders_agree_reconcile (kot_restaurant_order kot)
                 (with_kots _ d)).
      + apply (orders_agree_reconcile (kot_restaurant_order kot)
                 (with_kots _ d)).
    - destruct (recall_order_run d kot_id kot Hk Hne)
        as (d1 & -> & Hkots & Ho).
      exists (recalled_kot kot).
      split; [reflexivity|]. split; [exact Hkots|].
      unfold state_of, snd. rewrite Ho.
      eapply orders_agree_trans; [|apply orders_agree_set_status].
      apply (orders_agree_reconcile (kot_restaurant_order kot)
               (with_kots _ d)). }
  destruct G as (kot' & Hn & Hkots & Hnames & Hst).
  destruct (kots_replaced_frame d d' (op_target op) kot kot' Hk Hn Hkots)
    as (Hother & Hkn).
  repeat split; trivial.
  intros n Hno. apply Hst. now apply Hno.
Qed.

(** ** Edge cases of a status update *)

Lemma set_line_status_unknown (now : datetime) (item_id status : string)
  (items : list KitchenOrderItem) :
  (forall l, In l items -> koi_name l <> item_id) ->
  set_line_status now item_id status items = items.
Proof.
  induction items as [|l r IH]; intros H; simpl; [reflexivity|].
  assert (E : (koi_name l =? item_id) = false).
  { apply String.eqb_neq. apply H. now left. }
  rewrite E, IH; [reflexivity|]. intros x Hx. apply H. now right.
Qed.

(** X8. A line-level update that names no line of the ticket is answered
    as a success although no line changes.  The ticket itself stays as it
    was unless all of its lines were 'Ready' already; then it is set to
    'Ready' with the current time as completion time, whatever its status
    was, and nothing else of it changes. *)
Theorem unknown_line_update_succeeds (d : Db) (kot_id status item_id : string)
  (kot : KitchenOrder) :
  lookup_kot kot_id d = Some kot ->
  kot_items kot <> [] ->
  item_id <> "" ->
  (forall l, In l (kot_items kot) -> koi_name l <> item_id) ->
  exists kot' d',
    update_order_status kot_id status (Some item_id) d
    = (Ok (Success "Status updated" (kot_id, kot_status kot')), d')
    /\ lookup_kot kot_id d' = Some kot'
    /\ kot_items kot' = kot_items kot
    /\ (~ Forall (fun l => koi_status l = "Ready") (kot_items kot) ->
        kot' = kot)
    /\ (Forall (fun l => koi_status l = "Ready") (kot_items kot) ->
        kot_status kot' = "Ready"
        /\ kot_completed_at kot' = Some (db_now d)
        /\ kot' = set_kot_completed_at (Some (db_now d))
                    (set_kot_status "Ready" kot)).
Proof.
  intros Hk Hi Hid Hun.
  destruct (update_order_status_run d kot_id status (Some item_id) kot Hk Hi)
    as (d' & E & Hkots & _).
  destruct (truthy_name _ Hid) as (Et & Es).
  unfold updated_kot in *. rewrite Et, Es in *.
  set (kot' := update_line (db_now d) item_id status kot) in *.
  exists kot', d'. split; [exact E|].
  assert (Hitems : kot_items kot' = kot_items kot).
  { unfold kot'. rewrite update_line_items.
    now apply set_line_status_unknown. }
  split; [|split; [exact Hitems|split]].
  - eapply lookup_kot_replaced; eauto.
    unfold kot', update_line. simpl.
    destruct (all_ready _); reflexivity.
  - intros Hnr. unfold kot', update_line. simpl.
    rewrite set_line_status_unknown by exact Hun.
    destruct (all_ready (kot_items kot)) eqn:R.
    + apply all_ready_Forall in R. contradiction.
    + now destruct kot.
  - intros Hr. apply all_ready_Forall in Hr.
    assert (E' : kot' = set_kot_completed_at (Some (db_now d))
                          (set_kot_status "Ready" kot)).
    { unfold kot', update_line. simpl.
      rewrite set_line_status_unknown by exact Hun.
      rewrite Hr. now destruct kot. }
    rewrite E'. repeat split.
Qed.

(** X9. A ticket-level update to a status other than 'Preparing' and
    'Ready' writes the status and nothing else: lines and timestamps stay
    as they were, so a ticket set to 'Served' this way has no served
    time. *)
Theorem other_status_update_writes_status_only (d : Db)
  (kot_id status : string) (item_id : option string) (kot : KitchenOrder) :
  lookup_kot kot_id d = Some kot ->
  kot_items kot <> [] ->
  truthy_str item_id = false ->
  status <> "Preparing" ->
  status <> "Ready" ->
  exists kot',
    lookup_kot kot_id (after_op (OpUpdate kot_id status item_id) d)
    = Some kot'
    /\ kot_status kot' = status
    /\ kot_items kot' = kot_items kot
    /\ kot_started_at kot' = kot_started_at kot
    /\ kot_completed_at kot' = kot_completed_at kot
    /\ kot_served_at kot' = kot_served_at kot.
Proof.
  intros Hk Hi Hf Hp Hr.
  destruct (update_order_status_lookup d kot_id status item_id kot Hk Hi)
    as (Hl & _).
  unfold updated_kot, update_ticket in Hl. rewrite Hf in Hl.
  apply String.eqb_neq in Hp, Hr. rewrite Hp, Hr in Hl.
  eexists. split; [exact Hl|]. repeat split.
Qed.

(** ** Validated lines *)

(** *** How a quantity is read *)

Section Reading.

Local Open Scope Z_scope.

Lemma float_of_int_small (z : Z) :
  Z.abs z <= 2 ^ 53 -> float_of_int z = Some z.
Proof.
  intros H. unfold float_of_int.
  destruct (Z.log2 (Z.abs z) + 1 <=? 53) eqn:N; [reflexivity|].
  apply Z.leb_gt in N.
  assert (Hp : 0 < Z.abs z).
  { destruct (Z.eq_dec (Z.abs z) 0) as [E|E]; [rewrite E in N; simpl in N; lia|].
    pose proof (Z.abs_nonneg z). lia. }
  assert (H53 : 2 ^ 53 <= Z.abs z).
  { pose proof (Z.log2_spec _ Hp) as [L _].
    eapply Z.le_trans; [|exact L].
    apply Z.pow_le_mono_r; lia. }
  assert (E : Z.abs z = 2 ^ 53) by lia.
  rewrite E.
  destruct (Z.abs_spec z) as [[_ A]|[_ A]]; rewrite E in A.
  - subst z. reflexivity.
  - assert (z = - 2 ^ 53) by lia. subst z. reflexivity.
Qed.


(** The rounding step of [float_of_int] for an integer of more than 53
    bits. *)
Lemma float_of_int_large (z : Z) :
  53 < Z.log2 (Z.abs z) + 1 ->
  let a := Z.abs z in
  let s := Z.log2 a - 52 in
  let q := a / 2 ^ s in
  let r := a mod 2 ^ s in
  let q' := if (2 ^ (s - 1) <? r) || (r =? 2 ^ (s - 1)) && Z.odd q
            then q + 1 else q in
  1 <= s
  /\ 2 ^ 52 <= q < 2 ^ 53
  /\ a = q * 2 ^ s + r
  /\ 0 <= r < 2 ^ s
  /\ 2 ^ s = 2 * 2 ^ (s - 1)
  /\ float_of_int z
     = if 1024 <? Z.log2 (q' * 2 ^ s) + 1 then None
       else Some (Z.sgn z * (q' * 2 ^ s)).
Proof.
  intros N. cbv zeta. unfold float_of_int.
  pose proof (Z.abs_nonneg z) as Ha.
  remember (Z.abs z) as a eqn:Ea.
  destruct (Z.log2 a + 1 <=? 53) eqn:N'; [apply Z.leb_le in N'; lia|].
  replace (Z.log2 a + 1 - 53) with (Z.log2 a - 52) by lia.
  remember (Z.log2 a - 52) as s eqn:Es.
  assert (Hs : 1 <= s) by lia.
  assert (Hp : 0 < a).
  { destruct (Z.eq_dec a 0) as [E|E]; [rewrite E in N; simpl in N; lia|lia]. }
  pose proof (Z.log2_spec _ Hp) as [Llo Lhi].
  assert (E1 : Z.log2 a = 52 + s) by lia.
  rewrite E1 in Llo. replace (Z.succ (Z.log2 a)) with (53 + s) in Lhi by lia.
  rewrite Z.pow_add_r in Llo, Lhi by lia.
  rewrite Z.shiftr_div_pow2 by lia.
  assert (P : 0 < 2 ^ s) by (apply Z.pow_pos_nonneg; lia).
  rewrite !Z.shiftl_mul_pow2 by lia.
  rewrite Z.mul_1_l.
  assert (Hh : 2 ^ s = 2 * 2 ^ (s - 1)).
  { replace s with (1 + (s - 1)) at 1 by lia.
    rewrite Z.pow_add_r by lia. reflexivity. }
  pose proof (Z.div_mod a (2 ^ s) ltac:(lia)) as D.
  pose proof (Z.mod_pos_bound a (2 ^ s) P) as B.
  assert (Er : a - a / 2 ^ s * 2 ^ s = a mod 2 ^ s) by lia.
  rewrite Er.
  split; [exact Hs|]. split; [|split; [lia|split; [exact B|split; [exact Hh|]]]].
  - split.
    + apply Z.div_le_lower_bound; lia.
    + apply Z.div_lt_upper_bound; lia.
  - reflexivity.
Qed.

Lemma log2_below (v n : Z) : 0 <= n -> 0 < v < 2 ^ n -> Z.log2 v < n.
Proof. intros Hn [Hv Hlt]. now apply Z.log2_lt_pow2. Qed.

Lemma log2_above (v n : Z) : 0 <= n -> 2 ^ n <= v -> n <= Z.log2 v.
Proof.
  intros Hn H. rewrite <- (Z.log2_pow2 n) by lia. now apply Z.log2_le_mono.
Qed.

(** [cint] on an integer: the integer itself up to 2^53 in magnitude;
    beyond, the nearest integer with a significand of 53 bits, ties to
    even; and 0 from 2^1024 - 2^970 on, where [float] overflows. *)
Lemma cint_spec (z : Z) :
  (Z.abs z <= 2 ^ 53 -> cint z = z)
  /\ (2 ^ 1024 - 2 ^ 970 <= Z.abs z -> cint z = 0)
  /\ (2 ^ 53 < Z.abs z < 2 ^ 1024 - 2 ^ 970 ->
      let unit := 2 ^ (Z.log2 (Z.abs z) - 52) in
      exists m,
        cint z = m * unit
        /\ 2 * Z.abs (cint z - z) <= unit
        /\ (2 * Z.abs (cint z - z) = unit -> Z.even m = true)).
Proof.
  split; [|split].
  - intros H. unfold cint. now rewrite float_of_int_small.
  - intros H. unfold cint.
    assert (T : 2 ^ 1023 <= 2 ^ 1024 - 2 ^ 970) by (vm_compute; discriminate).
    assert (L : 1023 <= Z.log2 (Z.abs z)) by (apply log2_above; lia).
    destruct (float_of_int_large z ltac:(lia))
      as (Hs & Hq & Ha & Hr & Hh & E).
    rewrite E. clear E.
    remember (Z.abs z) as a eqn:Ea.
    remember (Z.log2 a - 52) as s eqn:Es.
    remember (a / 2 ^ s) as q eqn:Eq.
    remember (a mod 2 ^ s) as r eqn:Er.
    remember (2 ^ (s - 1)) as h eqn:Eh.
    match goal with
    | |- context [if 1024 <? Z.log2 (?x * _) + 1 then _ else _] =>
        set (q' := x)
    end.
    assert (V : 2 ^ 1024 <= q' * 2 ^ s).
    { destruct (Z.eq_dec s 971) as [S|S].
      - (* 1024 bits: the significand is all ones and rounds up *)
        assert (P971 : 2 ^ s = 2 ^ 971) by now rewrite S.
        assert (H970 : h = 2 ^ 970).
        { rewrite Eh, S. reflexivity. }
        assert (Q : q = 2 ^ 53 - 1).
        { assert (C : 2 ^ 1024 - 2 ^ 970 = (2 ^ 53 - 1) * 2 ^ 971 + 2 ^ 970)
            by (vm_compute; reflexivity).
          assert (P : 0 < 2 ^ 971) by (vm_compute; reflexivity).
          assert (P' : 0 < 2 ^ 970) by (vm_compute; reflexivity).
          rewrite P971 in *. nia. }
        assert (R : h <= r).
        { assert (C : 2 ^ 1024 - 2 ^ 970 = (2 ^ 53 - 1) * 2 ^ 971 + 2 ^ 970)
            by (vm_compute; reflexivity).
          rewrite P971 in *. rewrite Q in Ha. lia. }
        assert (U : q' = q + 1).
        { unfold q'. destruct (h <? r) eqn:C1; [reflexivity|].
          apply Z.ltb_ge in C1. assert (Hrh : r = h) by lia.
          rewrite Hrh, Z.eqb_refl, Q. reflexivity. }
        rewrite U, Q, P971. vm_compute. discriminate.
      - assert (S' : 972 <= s) by lia.
        assert (Q' : 2 ^ 52 <= q').
        { unfold q'. destruct (_ || _); lia. }
        replace 1024 with (52 + 972) by lia. rewrite Z.pow_add_r by lia.
        apply Z.mul_le_mono_nonneg;
          [apply Z.pow_nonneg; lia | lia | apply Z.pow_nonneg; lia
          | apply Z.pow_le_mono_r; lia]. }
    pose proof (log2_above _ 1024 ltac:(lia) V) as L'.
    destruct (1024 <? Z.log2 (q' * 2 ^ s) + 1) eqn:C; [reflexivity|].
    apply Z.ltb_ge in C. lia.
  - intros [Hlo Hhi]. cbv zeta. unfold cint.
    assert (L : 53 <= Z.log2 (Z.abs z)) by (apply log2_above; lia).
    assert (L2 : Z.log2 (Z.abs z) < 1024).
    { apply log2_below; [lia|].
      assert (T : 2 ^ 1024 - 2 ^ 970 < 2 ^ 1024) by (vm_compute; reflexivity).
      lia. }
    destruct (float_of_int_large z ltac:(lia))
      as (Hs & Hq & Ha & Hr & Hh & E).
    rewrite E. clear E.
    remember (Z.abs z) as a eqn:Ea.
    remember (Z.log2 a - 52) as s eqn:Es.
    remember (a / 2 ^ s) as q eqn:Eq.
    remember (a mod 2 ^ s) as r eqn:Er.
    remember (2 ^ (s - 1)) as h eqn:Eh.
    match goal with
    | |- context [if 1024 <? Z.log2 (?x * _) + 1 then _ else _] =>
        set (q' := x)
    end.
    assert (P : 0 < 2 ^ s) by (apply Z.pow_pos_nonneg; lia).
    assert (Q' : q <= q' <= q + 1) by (unfold q'; destruct (_ || _); lia).
    assert (V : q' * 2 ^ s < 2 ^ 1024).
    { destruct (Z.eq_dec s 971) as [S|S].
      - assert (P971 : 2 ^ s = 2 ^ 971) by now rewrite S.
        assert (H970 : h = 2 ^ 970) by (rewrite Eh, S; reflexivity).
        assert (C : 2 ^ 1024 - 2 ^ 970 = (2 ^ 53 - 1) * 2 ^ 971 + 2 ^ 970)
          by (vm_compute; reflexivity).
        assert (C' : 2 ^ 1024 = 2 ^ 53 * 2 ^ 971) by (vm_compute; reflexivity).
        assert (P971' : 0 < 2 ^ 971) by (vm_compute; reflexivity).
        assert (U : q' <= 2 ^ 53 - 1).
        { destruct (Z.eq_dec q (2 ^ 53 - 1)) as [Q|Q]; [|lia].
          assert (R : r < h) by (rewrite P971 in *; rewrite Q in Ha; lia).
          unfold q'.
          assert (C1 : (h <? r) = false) by (apply Z.ltb_ge; lia).
          assert (C2 : (r =? h) = false) by (apply Z.eqb_neq; lia).
          rewrite C1, C2. cbn [orb andb]. lia. }
        rewrite P971, C'. nia.
      - assert (S' : s <= 970) by lia.
        assert (B : 2 ^ s <= 2 ^ 970) by (apply Z.pow_le_mono_r; lia).
        assert (C' : 2 ^ 53 * 2 ^ 970 < 2 ^ 1024) by (vm_compute; reflexivity).
        assert (q' * 2 ^ s <= 2 ^ 53 * 2 ^ 970); [|lia].
        apply Z.mul_le_mono_nonneg; lia. }
    assert (Vp : 0 < q' * 2 ^ s) by nia.
    pose proof (log2_below _ 1024 ltac:(lia) (conj Vp V)) as L'.
    destruct (1024 <? Z.log2 (q' * 2 ^ s) + 1) eqn:C;
      [apply Z.ltb_lt in C; lia|].
    exists (Z.sgn z * q').
    assert (Hz : z = Z.sgn z * a) by (rewrite Ea, Z.mul_comm; symmetry; apply Z.abs_sgn).
    assert (Hsg : Z.sgn z = 1 \/ Z.sgn z = -1).
    { destruct (Z.sgn_spec z) as [[? ?]|[[? ?]|[? ?]]]; [lia| |lia].
      subst z. simpl in Ea. lia. }
    assert (Hd : Z.abs (Z.sgn z * (q' * 2 ^ s) - z) = Z.abs (q' * 2 ^ s - a)).
    { rewrite Hz at 2. destruct Hsg as [-> | ->]; lia. }
    split; [ring|]. rewrite Hd.
    assert (Hup : q' = if (h <? r) || (r =? h) && Z.odd q then q + 1 else q)
      by reflexivity.
    clearbody q'.
    remember (2 ^ s) as p eqn:Ep in *.
    split.
    + destruct (h <? r) eqn:C1; cbn [orb andb] in Hup.
      * apply Z.ltb_lt in C1. lia.
      * apply Z.ltb_ge in C1. destruct (r =? h) eqn:C2; cbn [orb andb] in Hup.
        -- apply Z.eqb_eq in C2. destruct (Z.odd q); lia.
        -- apply Z.eqb_neq in C2. lia.
    + intros T.
      assert (Ev : Z.even q' = true).
      { destruct (h <? r) eqn:C1; cbn [orb andb] in Hup.
        - apply Z.ltb_lt in C1. lia.
        - apply Z.ltb_ge in C1. destruct (r =? h) eqn:C2; cbn [orb andb] in Hup.
          + destruct (Z.odd q) eqn:O.
            * rewrite Hup. rewrite Z.add_1_r, Z.even_succ. exact O.
            * rewrite Hup. rewrite <- Z.negb_odd, O. reflexivity.
          + apply Z.eqb_neq in C2. lia. }
      rewrite Z.even_mul, Ev. apply orb_true_r.
Qed.

Example cint_examples :
  cint (2 ^ 53 + 1) = 2 ^ 53
  /\ cint (2 ^ 53 + 3) = 2 ^ 53 + 4
  /\ cint (- (2 ^ 53 + 1)) = - 2 ^ 53
  /\ cint (2 ^ 1024) = 0
  /\ cint 3 = 3.
Proof. repeat split; vm_compute; reflexivity. Qed.

End Reading.

Lemma validate_entry_validated (d : Db) (branch : option string)
  (e : OrderEntry) (line : ValidatedItem) :
  validate_entry d branch e = Validated line ->
  (1 <= vi_qty line)%Z
  /\ vi_qty line = entry_qty e
  /\ vi_total line = (vi_rate line * Z2Qc (vi_qty line))%Qc
  /\ exists mi,
       In mi (db_menu d)
       /\ entry_item_name e = Some (mi_name mi)
       /\ mi_enabled mi = true
       /\ check_item_availability d (mi_item_code mi) branch = true
       /\ vi_menu_item line = mi_name mi
       /\ vi_rate line
          = (flt (mi_price mi) + modifier_price (oe_modifiers e))%Qc.
Proof.
  unfold validate_entry.
  destruct (entry_qty e <? 1)%Z eqn:Q; [discriminate|].
  apply Z.ltb_ge in Q.
  destruct (entry_item_name e) as [n|] eqn:N; [|discriminate].
  destruct (find_row mi_name n (db_menu d)) as [mi|] eqn:F; [|discriminate].
  destruct (mi_enabled mi) eqn:En; [|discriminate]. simpl.
  destruct (check_item_availability d (mi_item_code mi) branch) eqn:Av;
    [|discriminate]. simpl.
  intros E. injection E as <-. simpl.
  repeat split; trivial.
  exists mi. repeat split; trivial.
  - unfold find_row in F. now apply find_some in F.
  - now rewrite (find_row_name _ _ _ _ F).
Qed.

(** X10. Every entry whose quantity, as [cint] reads it, is at least 1
    gives exactly one validated line or one error.  A validated line has
    the quantity read from its entry, at least 1; it refers to an enabled
    menu item that passed the stock check; its rate is the item's price
    plus the prices of the modifiers, and its total is rate times quantity.
    The quantity read is 1 when the entry has none, the integer itself up
    to 2^53 in magnitude, beyond that the nearest integer with 53
    significant bits (ties to even), and 0 from 2^1024 - 2^970 on, where
    the conversion to [float] fails: such an entry is dropped. *)
Theorem validated_lines_are_priced (d : Db) (items : list OrderEntry)
  (branch : option string) :
  let checked := validate_order_items d items branch in
  (List.length (fst checked) + List.length (snd checked)
   = List.length (filter (fun e => negb (entry_qty e <? 1)%Z) items))%nat
  /\ Forall
       (fun line =>
          (1 <= vi_qty line)%Z
          /\ vi_total line = (vi_rate line * Z2Qc (vi_qty line))%Qc
          /\ exists e mi,
               In e items /\ In mi (db_menu d)
               /\ entry_item_name e = Some (mi_name mi)
               /\ mi_enabled mi = true
               /\ check_item_availability d (mi_item_code mi) branch = true
               /\ vi_menu_item line = mi_name mi
               /\ vi_qty line = entry_qty e
               /\ vi_rate line
                  = (flt (mi_price mi) + modifier_price (oe_modifiers e))%Qc)
       (fst checked)
  /\ Forall
       (fun e =>
          match oe_qty e with
          | None => entry_qty e = 1%Z
          | Some q =>
              ((Z.abs q <= 2 ^ 53)%Z -> entry_qty e = q)
              /\ ((2 ^ 1024 - 2 ^ 970 <= Z.abs q)%Z -> entry_qty e = 0%Z)
              /\ ((2 ^ 53 < Z.abs q < 2 ^ 1024 - 2 ^ 970)%Z ->
                  let unit := (2 ^ (Z.log2 (Z.abs q) - 52))%Z in
                  exists m,
                    entry_qty e = (m * unit)%Z
                    /\ (2 * Z.abs (entry_qty e - q) <= unit)%Z
                    /\ ((2 * Z.abs (entry_qty e - q))%Z = unit ->
                        Z.even m = true))
          end)
       items.
Proof.
  intros checked. unfold checked. rewrite validate_order_items_spec.
  unfold validated_lines, rejections. simpl. split; [|split].
  - induction items as [|e r IH]; simpl; [reflexivity|].
    rewrite !length_app.
    destruct (entry_qty e <? 1)%Z eqn:Q; simpl.
    + apply Z.ltb_lt in Q.
      rewrite (validate_entry_below_one d branch e Q). simpl. exact IH.
    + assert (Hv : validate_entry d branch e <> Skipped).
      { unfold validate_entry. rewrite Q.
        destruct (match entry_item_name e with
                  | Some n => find_row mi_name n (db_menu d)
                  | None => None
                  end); [|discriminate].
        destruct (negb (mi_enabled m)); [discriminate|].
        destruct (negb (check_item_availability d (mi_item_code m) branch));
          discriminate. }
      destruct (validate_entry d branch e); [contradiction| |];
        simpl; rewrite <- IH; lia.
  - apply Forall_forall. intros line Hin.
    apply in_flat_map in Hin. destruct Hin as (e & He & Hl).
    destruct (validate_entry d branch e) as [| |line'] eqn:V;
      try contradiction.
    destruct Hl as [<-|[]].
    destruct (validate_entry_validated d branch e line' V)
      as (Hq & Hqe & Ht & mi & Hmi & Hn & Hen & Hav & Hm & Hr).
    repeat split; trivial. exists e, mi. repeat split; trivial.
  - apply Forall_forall. intros e _. unfold entry_qty.
    destruct (oe_qty e) as [q|]; [exact (cint_spec q)|reflexivity].
Qed.

Lemma find_row_map_menu (v : bool) (n : string) (menu : list MenuItem) :
  find_row mi_name n (map (set_mi_is_available v) menu)
  = option_map (set_mi_is_available v) (find_row mi_name n menu).
Proof.
  unfold find_row. induction menu as [|m r IH]; simpl; [reflexivity|].
  destruct (mi_name m =? n); [reflexivity|exact IH].
Qed.

(** X11. Validation never looks at the sold-out flag [is_available] of a
    menu item, although it reads it: with the flag set or cleared on every
    item, the validated lines and the errors are the same. *)
Theorem validation_ignores_sold_out_flag (d : Db) (v : bool)
  (items : list OrderEntry) (branch : option string) :
  validate_order_items (with_menu_availability v d) items branch
  = validate_order_items d items branch.
Proof.
  assert (E : forall e, validate_entry (with_menu_availability v d) branch e
                        = validate_entry d branch e).
  { intros e. unfold validate_entry.
    destruct (entry_qty e <? 1)%Z; [reflexivity|].
    destruct (entry_item_name e) as [n|]; [|reflexivity].
    simpl db_menu. rewrite find_row_map_menu.
    destruct (find_row mi_name n (db_menu d)) as [mi|]; reflexivity. }
  rewrite !validate_order_items_spec. unfold validated_lines, rejections.
  f_equal; apply flat_map_ext; intros e; now rewrite E.
Qed.

(** ** Estimated preparation time *)

Lemma max_prep_fold (validated : list ValidatedItem) (acc : Z) :
  let m :=
    fold_left
      (fun acc item =>
         if (acc <? vi_preparation_time item)%Z then vi_preparation_time item
         else acc)
      validated acc in
  (acc <= m)%Z
  /\ Forall (fun item => (vi_preparation_time item <= m)%Z) validated
  /\ (m = acc \/ exists item, In item validated /\ vi_preparation_time item = m).
Proof.
  revert acc. induction validated as [|x r IH]; intros acc; simpl.
  - split; [lia|]. split; [constructor|now left].
  - destruct (acc <? vi_preparation_time x)%Z eqn:E.
    + apply Z.ltb_lt in E.
      destruct (IH (vi_preparation_time x)) as (H1 & H2 & H3).
      split; [lia|]. split; [constructor; trivial|].
      destruct H3 as [H3|(i & Hi & H3)]; right; eauto.
    + apply Z.ltb_ge in E.
      destruct (IH acc) as (H1 & H2 & H3).
      split; [lia|]. split; [constructor; trivial; lia|].
      destruct H3 as [H3|(i & Hi & H3)]; [now left|right; eauto].
Qed.

(** X12. The estimated preparation time of an order is the largest
    preparation time among its lines, not their sum, and 0 when no line has
    a positive one. *)
Theorem estimated_time_is_maximum (validated : list ValidatedItem) :
  let m := max_prep_time validated in
  (0 <= m)%Z
  /\ Forall (fun item => (vi_preparation_time item <= m)%Z) validated
  /\ (m = 0%Z
      \/ exists item, In item validated /\ vi_preparation_time item = m).
Proof. exact (max_prep_fold validated 0%Z). Qed.

(** ** Fan-out loses and repeats no line *)

Lemma group_add_flat {A} (s : string) (x : A) (g : list (string * list A)) :
  Permutation (flat_map snd (group_add s x g)) (x :: flat_map snd g).
Proof.
  induction g as [|[k ys] rest IH]; simpl; [reflexivity|].
  destruct (k =? s); simpl.
  - rewrite <- app_assoc. simpl.
    symmetry. apply Permutation_middle.
  - rewrite IH. symmetry. apply Permutation_middle.
Qed.

Lemma group_by_station_flat {A} (station_of : A -> string) (items : list A) :
  Permutation (flat_map snd (group_by_station station_of items)) items.
Proof.
  induction items as [|x items IH] using rev_ind; [reflexivity|].
  rewrite group_by_station_snoc, group_add_flat, IH.
  apply Permutation_cons_append.
Qed.

Lemma flat_map_strip (news : list KitchenOrder) :
  flat_map (fun k => map koi_order_item (kot_items k)) news
  = flat_map (fun k => map koi_order_item (kot_items k))
      (map strip_names news).
Proof.
  induction news as [|k r IH]; simpl; [reflexivity|].
  rewrite IH, map_map. reflexivity.
Qed.

Lemma station_kots_refs (order : RestaurantOrder)
  (groups : list (string * list RestaurantOrderItem)) :
  flat_map (fun k => map koi_order_item (kot_items k))
    (map (fun g => strip_names (station_kot order g)) groups)
  = map (fun l => Some (roi_name l)) (flat_map snd groups).
Proof.
  induction groups as [|g r IH]; simpl; [reflexivity|].
  rewrite IH, map_app, !map_map. reflexivity.
Qed.

(** X13. Fan-out at placement loses no line and repeats none: the ticket
    lines of the new tickets, taken together, refer to the order's lines,
    each of them once. *)
Theorem fan_out_partitions_lines (autoname : string -> nat -> string)
  (order : RestaurantOrder) (d : Db) :
  exists news d',
    create_kitchen_orders autoname order d = (Ok tt, d')
    /\ db_kots d' = (db_kots d ++ news)%list
    /\ Permutation
         (flat_map (fun k => map koi_order_item (kot_items k)) news)
         (map (fun l => Some (roi_name l)) (ro_items order)).
Proof.
  unfold create_kitchen_orders.
  set (groups := group_by_station station_of_line (ro_items order)).
  destruct (fan_out_run autoname (station_kot order) groups d)
    as (news & d' & E & Hk & Hs).
  { intros [s xs] Hg.
    pose proof (group_by_station_nonempty station_of_line _ _ Hg) as H.
    simpl in *. now destruct xs. }
  exists news, d'. split; [exact E|]. split; [exact Hk|].
  rewrite flat_map_strip, Hs.
  rewrite station_kots_refs. apply Permutation_map.
  apply group_by_station_flat.
Qed.

(** ** What a placement stores *)

Lemma validated_lines_totals (d : Db) (branch : option string)
  (items : list OrderEntry) :
  Forall (fun line => vi_total line = (vi_rate line * Z2Qc (vi_qty line))%Qc)
    (validated_lines d branch items).
Proof.
  apply Forall_forall. intros line Hin. unfold validated_lines in Hin.
  apply in_flat_map in Hin. destruct Hin as (e & _ & Hl).
  destruct (validate_entry d branch e) as [| |line'] eqn:V; try contradiction.
  destruct Hl as [<-|[]].
  now destruct (validate_entry_validated d branch e line' V) as (_ & _ & H & _).
Qed.

Lemma find_row_app_fresh {A} (name_of : A -> string) (n : string)
  (pre : list A) (o : A) :
  find_row name_of n pre = None ->
  name_of o = n ->
  find_row name_of n (pre ++ [o]) = Some o.
Proof.
  unfold find_row. intros Hp Ho.
  induction pre as [|r rest IH]; simpl in *.
  - now rewrite Ho, String.eqb_refl.
  - destruct (name_of r =? n); [discriminate|now apply IH].
Qed.

Lemma replace_row_app_fresh {A} (name_of : A -> string) (pre : list A)
  (o o' : A) :
  find_row name_of (name_of o') pre = None ->
  name_of o = name_of o' ->
  replace_row name_of o' (pre ++ [o]) = (pre ++ [o'])%list.
Proof.
  unfold find_row. intros Hp Ho.
  induction pre as [|r rest IH]; simpl in *.
  - now rewrite Ho, String.eqb_refl.
  - destruct (name_of r =? name_of o'); [discriminate|].
    now rewrite IH.
Qed.

Lemma new_status_all_new (statuses : list string) :
  statuses <> [] ->
  Forall (eq "New") statuses ->
  new_status_of statuses = "Confirmed".
Proof.
  intros Hne Hall. destruct statuses as [|s r]; [contradiction|].
  inversion Hall as [|? ? <- Hr]; subst.
  unfold new_status_of. simpl.
  assert (P : existsb (fun s => s =? "Preparing") r = false).
  { apply not_true_is_false. intros F. apply existsb_eq_status in F.
    apply Exists_exists in F. destruct F as (x & Hx & <-).
    rewrite Forall_forall in Hr. specialize (Hr _ Hx). discriminate. }
  assert (N : forallb (fun s => s =? "New") r = true)
    by now apply forallb_eq_status.
  now rewrite P, N.
Qed.

Section Persisting.

Variable autoname : string -> nat -> string.

Lemma session_run_frame (table : string)
  (customer_name customer_phone : option string) (d : Db) :
  exists session d1,
    get_or_create_table_session autoname table customer_name customer_phone d
    = (Ok session, d1)
    /\ db_settings d1 = db_settings d
    /\ db_orders d1 = db_orders d
    /\ db_kots d1 = db_kots d
    /\ (db_serial d <= db_serial d1)%nat.
Proof.
  unfold get_or_create_table_session, bind, gets.
  destruct (find _ (db_sessions d)); simpl.
  - eexists. eexists. repeat split. lia.
  - eexists. eexists. split; [reflexivity|]. simpl. repeat split. lia.
Qed.

Lemma name_rows_roi (rows : list RestaurantOrderItem) (d : Db) :
  exists rows' n,
    name_rows autoname "Restaurant Order Item" set_roi_name rows d
    = (Ok rows', with_serial n d)
    /\ map (set_roi_name "") rows' = map (set_roi_name "") rows.
Proof.
  revert d. induction rows as [|r rest IH]; intros d; simpl.
  - exists [], (db_serial d). split; [|reflexivity].
    unfold ret. now destruct d.
  - destruct (IH (with_serial (S (db_serial d)) d)) as (rest' & n & E & Hm).
    eexists. exists n. split.
    + erewrite bind_ok; [|reflexivity].
      erewrite bind_ok; [|exact E]. reflexivity.
    + simpl. now rewrite Hm.
Qed.

(** [insert] of an order that is linked to no [restaurant_table]. *)
Lemma ro_insert_runs (order : RestaurantOrder) (d : Db) :
  ro_restaurant_table order = None ->
  exists items n,
    let order' :=
      calculate_totals (db_settings d)
        (set_ro_items items
           (set_ro_name (autoname "Restaurant Order" (db_serial d)) order)) in
    ro_insert autoname order d
    = (Ok order', with_orders (db_orders d ++ [order']) (with_serial n d))
    /\ map (set_roi_name "") items = map (set_roi_name "") (ro_items order).
Proof.
  intros Ht. unfold ro_insert.
  destruct (name_rows_roi (ro_items order) (with_serial (S (db_serial d)) d))
    as (items & n & E & Hm).
  exists items, n. split; [|exact Hm].
  erewrite bind_ok; [|reflexivity].
  erewrite bind_ok; [|exact E].
  unfold bind, gets, modify, update_table_status, when, ret. simpl.
  rewrite Ht. reflexivity.
Qed.

Lemma kot_insert_runs (kot : KitchenOrder) (d : Db) :
  kot_items kot <> [] ->
  exists kot' n,
    kot_insert autoname kot d
    = (Ok kot',
       reconcile (kot_restaurant_order kot)
         (with_kots (db_kots d ++ [kot']) (with_serial n d)))
    /\ strip_names kot' = strip_names kot.
Proof.
  intros Hi. unfold kot_insert.
  destruct (name_rows_run autoname (kot_items kot)
              (with_serial (S (db_serial d)) d)) as (items & n & E & Hm).
  set (name := autoname "Kitchen Order" (db_serial d)).
  set (kot' := set_kot_items items (set_kot_name name kot)).
  assert (Hi' : kot_items kot' <> []).
  { simpl. intros ->. destruct (kot_items kot); [contradiction|discriminate]. }
  exists kot', n. split; [|now apply strip_names_named].
  erewrite bind_ok; [|reflexivity].
  erewrite bind_ok; [|exact E].
  fold name. fold kot'.
  erewrite bind_ok.
  2:{ unfold kot_validate. destruct (kot_items kot'); [contradiction|].
      reflexivity. }
  erewrite bind_ok; [|reflexivity].
  erewrite bind_ok; [|apply reconciler_returns].
  reflexivity.
Qed.

End Persisting.

Lemma reconcile_orders_writes (d : Db) (n : string) (o : RestaurantOrder) :
  kots_of n d <> [] ->
  find_row ro_name n (db_orders d) = Some o ->
  str_in (ro_status o) sticky_statuses = false ->
  db_orders (reconcile n d)
  = replace_row ro_name
      (calculate_totals (db_settings d)
         (set_ro_status (new_status_of (map kot_status (kots_of n d))) o))
      (db_orders d).
Proof.
  intros Hk Ho Hs. rewrite reconcile_orders. unfold reconciled_orders.
  destruct (kots_of n d); [contradiction|]. now rewrite Ho, Hs.
Qed.

Section Confirming.

Variable autoname : string -> nat -> string.

(** The loop of the fan-out at placement, seen from the order: the
    reconciler run by each insert confirms the new order and leaves its
    amounts as [insert] computed them. *)
Lemma fan_out_confirms {G} (mk : G -> KitchenOrder)
  (settings : RestaurantSettings) (x : RestaurantOrder) (groups : list G) :
  let o0 := calculate_totals settings x in
  let name := ro_name x in
  ro_status x = "New" ->
  (forall g, In g groups ->
             kot_items (mk g) <> []
             /\ kot_restaurant_order (mk g) = name
             /\ kot_status (mk g) = "New") ->
  forall d pre o,
    db_settings d = settings ->
    db_orders d = (pre ++ [o])%list ->
    find_row ro_name name pre = None ->
    o = o0 \/ o = set_ro_status "Confirmed" o0 ->
    Forall (fun k => kot_status k = "New") (kots_of name d) ->
    exists d',
      for_each groups (fun g => _ <- kot_insert autoname (mk g) ;; ret tt) d
      = (Ok tt, d')
      /\ db_orders d'
         = (pre ++ [match groups with
                    | [] => o
                    | _ :: _ => set_ro_status "Confirmed" o0
                    end])%list
      /\ db_settings d' = settings.
Proof.
  intros o0 name Hnew.
  induction groups as [|g rest IH]; intros Hmk d pre o Hset Hord Hpre Ho Hkots.
  - exists d. simpl. auto.
  - destruct (Hmk g (or_introl eq_refl)) as (Hgi & Hgo & Hgs).
    destruct (kot_insert_runs autoname (mk g) d Hgi) as (kot' & n & E & Hs).
    rewrite Hgo in E.
    set (dm := with_kots (db_kots d ++ [kot']) (with_serial n d)) in E.
    assert (Hko : kot_restaurant_order kot' = name).
    { rewrite <- Hgo. exact (f_equal kot_restaurant_order Hs). }
    assert (Hks : kot_status kot' = "New").
    { rewrite <- Hgs. exact (f_equal kot_status Hs). }
    assert (Hkm : kots_of name dm = (kots_of name d ++ [kot'])%list).
    { unfold kots_of, dm. simpl. rewrite filter_app. simpl.
      now rewrite Hko, String.eqb_refl. }
    assert (Hname : ro_name o = name)
      by (destruct Ho as [-> | ->]; reflexivity).
    assert (Hsticky : str_in (ro_status o) sticky_statuses = false).
    { destruct Ho as [-> | ->]; simpl; [|reflexivity].
      unfold o0. change (ro_status (calculate_totals settings x))
        with (ro_status x). now rewrite Hnew. }
    assert (Hnewst : new_status_of (map kot_status (kots_of name dm))
                     = "Confirmed").
    { apply new_status_all_new.
      - rewrite Hkm. destruct (kots_of name d); discriminate.
      - rewrite Hkm, map_app. apply Forall_app. split.
        + apply Forall_map. eapply Forall_impl; [|exact Hkots].
          intros k Hk. now symmetry.
        + simpl. constructor; [now symmetry|constructor]. }
    assert (Ho1 : calculate_totals settings (set_ro_status "Confirmed" o)
                  = set_ro_status "Confirmed" o0).
    { destruct Ho as [-> | ->].
      - unfold o0. apply calculate_totals_again.
      - change (set_ro_status "Confirmed" (set_ro_status "Confirmed" o0))
          with (set_ro_status "Confirmed" o0).
        unfold o0. apply calculate_totals_again. }
    assert (Hd1 : db_orders (reconcile name dm)
                  = (pre ++ [set_ro_status "Confirmed" o0])%list).
    { rewrite (reconcile_orders_writes dm name o).
      - change (db_settings dm) with (db_settings d).
        change (db_orders dm) with (db_orders d).
        rewrite Hset, Hord, Hnewst, Ho1.
        apply replace_row_app_fresh; [exact Hpre|exact Hname].
      - rewrite Hkm. destruct (kots_of name d); discriminate.
      - change (db_orders dm) with (db_orders d). rewrite Hord.
        exact (find_row_app_fresh ro_name name pre o Hpre Hname).
      - exact Hsticky. }
    destruct (IH (fun g' Hg' => Hmk g' (or_intror Hg'))
                (reconcile name dm) pre (set_ro_status "Confirmed" o0))
      as (d' & E' & Ho' & Hs').
    + rewrite (proj1 (proj2 (proj2 (reconcile_frame _ _)))). exact Hset.
    + exact Hd1.
    + exact Hpre.
    + now right.
    + unfold kots_of. rewrite (proj1 (reconcile_frame _ _)).
      fold (kots_of name dm). rewrite Hkm. apply Forall_app. split; trivial.
      constructor; [exact Hks|constructor].
    + exists d'. split; [|split; [|exact Hs']].
      * simpl. erewrite bind_ok.
        2:{ erewrite bind_ok; [|exact E]. reflexivity. }
        exact E'.
      * rewrite Ho'. now destruct rest.
Qed.

End Confirming.

Lemma fold_amounts (l : list RestaurantOrderItem) (a : Qc) :
  fold_left (fun acc item => (acc + roi_amount item)%Qc)
    (map (fun item =>
            set_roi_amount (roi_rate item * Z2Qc (roi_qty item))%Qc item) l) a
  = fold_left Qcplus
      (map (fun item => (roi_rate item * Z2Qc (roi_qty item))%Qc) l) a.
Proof.
  revert a. induction l as [|i r IH]; intros a; simpl; [reflexivity|].
  apply IH.
Qed.

Lemma place_subtotal_fold (validated : list ValidatedItem) :
  place_subtotal validated = fold_left Qcplus (map vi_total validated) 0%Qc.
Proof.
  unfold place_subtotal. generalize 0%Qc.
  induction validated as [|v r IH]; intros a; simpl; [reflexivity|].
  apply IH.
Qed.

Lemma calculate_tax_none (l : list RestaurantOrderItem) :
  Forall (fun i => roi_tax_rate i = None) l -> calculate_tax l = 0%Qc.
Proof.
  intros H. unfold calculate_tax. generalize 0%Qc.
  induction H as [|i r Hi _ IH]; intros a; simpl; [reflexivity|].
  rewrite Hi. simpl. apply IH.
Qed.

Lemma service_charge_agrees (settings : RestaurantSettings) (subtotal : Qc) :
  (if truthy_num (service_charge_percent settings)
   then (subtotal * flt (service_charge_percent settings) / Z2Qc 100)%Qc
   else 0%Qc)
  = place_service_charge settings subtotal.
Proof.
  unfold place_service_charge.
  destruct (service_charge_percent settings) as [q|]; simpl.
  - destruct (Qc_eq_bool q 0); simpl;
      [now rewrite Qc_zero_percent|reflexivity].
  - now rewrite Qc_zero_percent.
Qed.

(** The amounts [calculate_totals] gives an order whose lines are, names
    apart, the lines [place_order] builds from the validated items. *)
Lemma placed_totals (settings : RestaurantSettings) (x : RestaurantOrder)
  (validated : list ValidatedItem) :
  map (set_roi_name "") (ro_items x)
  = map (set_roi_name "") (map order_line validated) ->
  Forall (fun line => vi_total line = (vi_rate line * Z2Qc (vi_qty line))%Qc)
    validated ->
  ro_tip_amount x = None ->
  ro_discount_amount x = None ->
  let o0 := calculate_totals settings x in
  let subtotal := place_subtotal validated in
  ro_subtotal o0 = subtotal
  /\ ro_service_charge o0 = place_service_charge settings subtotal
  /\ ro_grand_total o0
     = (subtotal + place_service_charge settings subtotal)%Qc
  /\ map roi_status (ro_items o0) = map (fun _ => "Pending") validated.
Proof.
  intros Hm Ht Htip Hdis o0 subtotal.
  assert (Hsub : ro_subtotal o0 = subtotal).
  { unfold o0, calculate_totals, subtotal. simpl.
    rewrite fold_amounts, place_subtotal_fold. f_equal.
    transitivity
      (map (fun item => (roi_rate item * Z2Qc (roi_qty item))%Qc)
           (map (set_roi_name "") (ro_items x))).
    - rewrite map_map. reflexivity.
    - rewrite Hm, !map_map. simpl.
      clear Hm. induction Ht as [|v r Hv _ IH]; simpl; [reflexivity|].
      now rewrite Hv, IH. }
  assert (Htax : ro_tax_amount o0 = 0%Qc).
  { unfold o0, calculate_totals. simpl. apply calculate_tax_none.
    rewrite Forall_map. apply Forall_forall. intros i Hi. simpl.
    apply (in_map (set_roi_name "")) in Hi. rewrite Hm, map_map in Hi.
    apply in_map_iff in Hi. destruct Hi as (v & Hv & _).
    exact (f_equal roi_tax_rate (eq_sym Hv)). }
  assert (Hsc : ro_service_charge o0 = place_service_charge settings subtotal).
  { rewrite <- service_charge_agrees, <- Hsub. reflexivity. }
  split; [exact Hsub|]. split; [exact Hsc|]. split.
  - transitivity (ro_subtotal o0 + ro_tax_amount o0 + ro_service_charge o0
                  + flt (ro_tip_amount x) - flt (ro_discount_amount x))%Qc;
      [reflexivity|].
    rewrite Htax, Hsc, Hsub, Htip, Hdis. simpl. ring.
  - unfold o0, calculate_totals. simpl. rewrite map_map. simpl.
    transitivity (map roi_status (map (set_roi_name "") (ro_items x))).
    + rewrite map_map. reflexivity.
    + rewrite Hm, !map_map. reflexivity.
Qed.

Lemma group_by_station_empty_iff {A} (station_of : A -> string)
  (items : list A) :
  group_by_station station_of items = [] <-> items = [].
Proof.
  destruct (group_by_station_spec station_of items) as (_ & Hkeys & _).
  split.
  - intros E. destruct items as [|x r]; [reflexivity|].
    exfalso. rewrite E in Hkeys. apply (proj2 (Hkeys (station_of x))).
    simpl. auto.
  - intros ->. reflexivity.
Qed.

Section Storing.

Variable autoname : string -> nat -> string.

(** X14. A placement that goes through appends exactly one order row.  The
    row holds the subtotal, the service charge and the VAT of the validated
    lines, but its grand total is subtotal plus service charge (the VAT is in
    the answered total only), and its status is 'Confirmed' as soon as it
    has a line, while the answer says 'New'. *)
Theorem placement_stores_order (table_code : string) (items : list OrderEntry)
  (customer_name customer_phone notes : option string)
  (order_type language : string) (d : Db) (table : RestaurantTable) :
  find (fun t => (rt_qr_code t =? table_code) && rt_enabled t) (db_tables d)
  = Some table ->
  items <> [] ->
  snd (validate_order_items d items (Some (rt_branch table))) = [] ->
  order_names_unused autoname d ->
  let validated := fst (validate_order_items d items (Some (rt_branch table))) in
  let subtotal := place_subtotal validated in
  let service_charge := place_service_charge (db_settings d) subtotal in
  let vat := place_vat (db_settings d) subtotal service_charge in
  exists o d',
    place_order autoname table_code items customer_name customer_phone notes
      order_type language d
    = (Ok (Success "Order placed successfully"
             {| pd_order_id := ro_name o;
                pd_table_number := rt_table_number table;
                pd_estimated_time := max_prep_time validated;
                pd_grand_total := (subtotal + service_charge + vat)%Qc;
                pd_status := "New" |}), d')
    /\ db_orders d' = (db_orders d ++ [o])%list
    /\ ro_subtotal o = subtotal
    /\ ro_service_charge o = service_charge
    /\ ro_vat o = vat
    /\ ro_grand_total o = (subtotal + service_charge)%Qc
    /\ ro_status o = match validated with [] => "New" | _ :: _ => "Confirmed" end
    /\ map roi_status (ro_items o) = map (fun _ => "Pending") validated.
Proof.
  intros Ht Hi He Hfresh validated subtotal service_charge vat.
  destruct (session_run_frame autoname (rt_name table) customer_name
              customer_phone d) as (session & d1 & Es & Hset & Hord & Hkot & Hser).
  set (order :=
         {| ro_name := ""; ro_table := rt_name table;
            ro_table_number := rt_table_number table;
            ro_branch := rt_branch table; ro_table_session := session;
            ro_order_type := order_type;
            ro_customer_name := customer_name;
            ro_customer_phone := customer_phone; ro_notes := notes;
            ro_language := language; ro_status := "New";
            ro_subtotal := subtotal; ro_service_charge := service_charge;
            ro_service_charge_percent :=
              num_or (service_charge_percent (db_settings d)) 0;
            ro_vat := vat;
            ro_vat_percent :=
              num_or (vat_percent (db_settings d)) (Z2Qc 15);
            ro_grand_total := (subtotal + service_charge + vat)%Qc;
            ro_total_qty := 0; ro_tax_amount := 0; ro_tip_amount := None;
            ro_discount_amount := None; ro_restaurant_table := None;
            ro_estimated_preparation_time := max_prep_time validated;
            ro_items := map order_line validated |}).
  destruct (ro_insert_runs autoname order d1 eq_refl) as (rows & n & Eo & Hrows).
  set (name := autoname "Restaurant Order" (db_serial d1)) in *.
  set (x := set_ro_items rows (set_ro_name name order)) in *.
  set (order' := calculate_totals (db_settings d1) x) in *.
  cbv zeta in Eo.
  set (d2 := with_orders (db_orders d1 ++ [order']) (with_serial n d1)) in *.
  set (groups := group_by_station station_of_line (ro_items order')).
  destruct (Hfresh (db_serial d1) Hser) as (Hnone & Hnokot).
  fold name in Hnone, Hnokot.
  destruct (fan_out_confirms autoname (station_kot order') (db_settings d1) x
              groups eq_refl) with (d := d2) (pre := db_orders d) (o := order')
    as (d3 & Ek & Hord3 & _).
  { intros g Hg. split; [|split; reflexivity].
    simpl. intros E. apply map_eq_nil in E.
    exact (group_by_station_nonempty station_of_line _ g Hg E). }
  { reflexivity. }
  { unfold d2. simpl. now rewrite Hord. }
  { exact Hnone. }
  { left. reflexivity. }
  { assert (E : kots_of name d2 = kots_of name d).
    { unfold kots_of, d2. simpl. now rewrite Hkot. }
    change (Forall (fun k => kot_status k = "New") (kots_of name d2)).
    rewrite E, Hnokot. constructor. }
  assert (Hv : Forall (fun line =>
                 vi_total line = (vi_rate line * Z2Qc (vi_qty line))%Qc)
                 validated).
  { unfold validated. rewrite validate_order_items_spec. simpl.
    apply validated_lines_totals. }
  destruct (placed_totals (db_settings d1) x validated Hrows Hv eq_refl eq_refl)
    as (Hsub & Hsc & Hgt & Hst).
  fold order' in Hsub, Hsc, Hgt, Hst. fold subtotal in Hsub, Hsc, Hgt.
  rewrite Hset in Hsc, Hgt. fold service_charge in Hsc, Hgt.
  set (o := match groups with
            | [] => order'
            | _ :: _ => set_ro_status "Confirmed" order'
            end) in *.
  assert (Hsame : ro_name o = ro_name order'
                  /\ ro_subtotal o = ro_subtotal order'
                  /\ ro_service_charge o = ro_service_charge order'
                  /\ ro_vat o = vat
                  /\ ro_grand_total o = ro_grand_total order'
                  /\ ro_items o = ro_items order').
  { unfold o. destruct groups; repeat split. }
  destruct Hsame as (Hn & H1 & H2 & H3 & H4 & H5).
  exists o. eexists. split; [|split; [|repeat split]].
  - unfold place_order. apply try_ok.
    erewrite bind_ok; [|unfold gets; rewrite Ht; reflexivity].
    destruct items as [|e items']; [contradiction|].
    erewrite bind_ok; [|reflexivity].
    cbv beta. rewrite He.
    erewrite bind_ok; [|exact Es].
    erewrite bind_ok; [|unfold gets; rewrite Hset; reflexivity].
    fold validated. fold subtotal. fold service_charge. fold vat. fold order.
    erewrite bind_ok; [|exact Eo].
    erewrite bind_ok; [|exact Ek].
    rewrite Hn. reflexivity.
  - simpl. exact Hord3.
  - now rewrite H1.
  - now rewrite H2.
  - exact H3.
  - now rewrite H4.
  - unfold o.
    assert (Hg : groups = [] <-> validated = []).
    { unfold groups. rewrite group_by_station_empty_iff.
      split; intros E.
      - apply (f_equal (map roi_status)) in E. rewrite Hst in E.
        now apply map_eq_nil in E.
      - destruct (ro_items order'); [reflexivity|].
        rewrite E in Hst. discriminate. }
    destruct groups, validated; try reflexivity.
    + discriminate (proj1 Hg eq_refl).
    + discriminate (proj2 Hg eq_refl).
  - now rewrite H5.
Qed.

End Storing.

(** ** A bump while other tickets are open *)

Lemma new_status_with_served (statuses : list string) :
  In "Served" statuses -> new_status_of statuses = "Preparing".
Proof.
  intros Hin. unfold new_status_of.
  destruct (forallb (fun s => s =? "Ready") statuses) eqn:R.
  { rewrite forallb_forall in R. discriminate (R _ Hin). }
  destruct (existsb (fun s => s =? "Preparing") statuses); [reflexivity|].
  destruct (forallb (fun s => s =? "New") statuses) eqn:N; [|reflexivity].
  rewrite forallb_forall in N. discriminate (N _ Hin).
Qed.

(** X15. A bump of one ticket while another ticket of the order is neither
    'Served' nor 'Cancelled' sets an order the reconciler may write to
    'Preparing', whatever it was before (also when it was 'Ready'): the save
    of the served ticket runs the reconciler, which reads a 'Served' ticket
    as the remaining case. *)
Theorem bump_with_open_ticket_sets_preparing (d : Db) (kot_id : string)
  (kot : KitchenOrder) (o : RestaurantOrder) :
  lookup_kot kot_id d = Some kot ->
  kot_items kot <> [] ->
  let order := kot_restaurant_order kot in
  find_row ro_name order (db_orders d) = Some o ->
  str_in (ro_status o) sticky_statuses = false ->
  (exists k, In k (db_kots d) /\ kot_restaurant_order k = order
             /\ kot_name k <> kot_id
             /\ str_in (kot_status k) ["Served"; "Cancelled"] = false) ->
  order_status order (after_op (OpBump kot_id) d) = Some "Preparing".
Proof.
  intros Hk Hi order Ho Hns (k & Hin & Hko & Hkn & Hks).
  destruct (bump_order_runs d kot_id kot Hk Hi) as (d1 & E & _ & Hd).
  set (kot' := bumped_kot (db_now d) kot) in *.
  set (d0 := with_kots (replace_row kot_name kot' (db_kots d)) d) in *.
  set (d2 := reconcile order d0) in *.
  assert (Hn : kot_name kot' = kot_id)
    by exact (find_row_name _ _ _ _ Hk).
  assert (Hk2 : db_kots d2 = replace_row kot_name kot' (db_kots d)).
  { unfold d2. now rewrite (proj1 (reconcile_frame _ _)). }
  assert (Hall : all_kots_served order d2 = false).
  { unfold all_kots_served. rewrite Hk2.
    apply negb_false_iff. apply existsb_exists. exists k. split.
    - apply In_replace_row_other; trivial. now rewrite Hn.
    - rewrite Hko, String.eqb_refl, Hks. reflexivity. }
  assert (Hin' : In kot' (kots_of order d0)).
  { unfold kots_of. apply filter_In. split.
    - assert (L : lookup_kot kot_id d0 = Some kot').
      { apply (lookup_kot_replaced d d0 kot_id kot kot'); trivial. }
      unfold lookup_kot, find_row in L. now apply find_some in L.
    - apply String.eqb_refl. }
  assert (Hs : order_status order (after_op (OpBump kot_id) d)
               = option_map ro_status
                   (find_row ro_name order
                      (if all_kots_served order d2
                       then set_value ro_name order (set_ro_status "Served")
                              (db_orders d2)
                       else db_orders d2))).
  { unfold after_op. rewrite E. unfold state_of, snd, order_status.
    rewrite Hd. apply order_status_heads, set_lines_status_heads. }
  rewrite Hs, Hall.
  change (order_status order (reconcile order d0) = Some "Preparing").
  rewrite (order_status_reconciled d0 order o); trivial.
  - f_equal. apply new_status_with_served.
    change "Served" with (kot_status kot'). now apply in_map.
  - intros F. rewrite F in Hin'. contradiction.
Qed.

(** ** The kitchen board after a bump or a recall *)

Section Board.

Variable order_by : list KitchenOrder -> list KitchenOrder.

(** A query returns the rows that pass the filters, in some order. *)
Hypothesis order_by_permutes : forall l, Permutation (order_by l) l.

Lemma get_kitchen_orders_run (station branch status : option string)
  (d : Db) :
  get_kitchen_orders order_by station branch status d
  = (Ok (map (kds_entry (db_now d))
           (order_by (filter (kds_filter station branch status) (db_kots d)))),
     d).
Proof. reflexivity. Qed.

Lemma replaced_ticket_off_board (station branch status : option string)
  (now : datetime) (kots : list KitchenOrder) (kot kot' : KitchenOrder)
  (kot_id : string) :
  find_row kot_name kot_id kots = Some kot ->
  kot_name kot' = kot_id ->
  NoDup (map kot_name kots) ->
  kds_filter station branch status kot' = false ->
  ~ In kot_id
      (map kds_id
         (map (kds_entry now)
            (order_by (filter (kds_filter station branch status)
                         (replace_row kot_name kot' kots))))).
Proof.
  intros Hk Hn Hnd Hf Hin.
  rewrite map_map in Hin. apply in_map_iff in Hin.
  destruct Hin as (k & Hid & Hin). simpl in Hid.
  apply (Permutation_in _ (order_by_permutes _)) in Hin.
  apply filter_In in Hin. destruct Hin as (Hin & Hpass).
  destruct (In_replace_row _ _ _ _ Hnd Hin) as [->|[_ Hne]].
  - rewrite Hf in Hpass. discriminate.
  - apply Hne. now rewrite Hid, Hn.
Qed.

(** X16. A ticket that was bumped is not on the default kitchen board any
    more, and neither is a ticket that was recalled: the default filter
    keeps 'New' and 'Preparing' only.  The recalled ticket is listed, as
    'Ready' and with no elapsed time, when the status 'Ready' is asked
    for. *)
Theorem bumped_or_recalled_ticket_leaves_board (d : Db) (kot_id : string)
  (kot : KitchenOrder) (station branch : option string) :
  lookup_kot kot_id d = Some kot ->
  kot_items kot <> [] ->
  NoDup (map kot_name (db_kots d)) ->
  (exists entries,
     result_of (get_kitchen_orders order_by station branch None
                  (after_op (OpBump kot_id) d)) = Ok entries
     /\ ~ In kot_id (map kds_id entries))
  /\ (exists entries,
        result_of (get_kitchen_orders order_by station branch None
                     (after_op (OpRecall kot_id) d)) = Ok entries
        /\ ~ In kot_id (map kds_id entries))
  /\ (exists entries e,
        result_of (get_kitchen_orders order_by None None (Some "Ready")
                     (after_op (OpRecall kot_id) d)) = Ok entries
        /\ In e entries /\ kds_id e = kot_id /\ kds_status e = "Ready"
        /\ kds_elapsed_time e = 0%Z).
Proof.
  intros Hk Hi Hnd.
  assert (Hn : kot_name kot = kot_id) by exact (find_row_name _ _ _ _ Hk).
  destruct (bump_order_runs d kot_id kot Hk Hi) as (db & Eb & Hkb & _).
  destruct (recall_order_run d kot_id kot Hk Hi) as (dr & Er & Hkr & _).
  simpl in Hkb, Hkr.
  split; [|split].
  - eexists. split; [rewrite get_kitchen_orders_run; reflexivity|].
    unfold after_op. rewrite Eb. unfold state_of, snd. rewrite Hkb.
    apply (replaced_ticket_off_board _ _ _ _ _ kot); trivial.
    unfold kds_filter. simpl. apply andb_false_r.
  - eexists. split; [rewrite get_kitchen_orders_run; reflexivity|].
    unfold after_op. rewrite Er. unfold state_of, snd. rewrite Hkr.
    apply (replaced_ticket_off_board _ _ _ _ _ kot); trivial.
    unfold kds_filter. simpl. apply andb_false_r.
  - eexists. exists (kds_entry (db_now dr) (recalled_kot kot)).
    split; [rewrite get_kitchen_orders_run; reflexivity|].
    split; [|split; [exact Hn|split]].
    + unfold after_op. rewrite Er. unfold state_of, snd.
      apply in_map.
      apply (Permutation_in _ (Permutation_sym (order_by_permutes _))).
      apply filter_In. split; [|reflexivity].
      assert (L : lookup_kot kot_id dr = Some (recalled_kot kot))
        by (apply (lookup_kot_replaced d dr kot_id kot); trivial).
      unfold lookup_kot, find_row in L. now apply find_some in L.
    + reflexivity.
    + unfold kds_entry. simpl. now destruct (kot_started_at kot).
Qed.

End Board.

(** ** Adding lines to an order *)

Lemma fold_amounts_names (l : list RestaurantOrderItem) (a : Qc) :
  fold_left (fun acc item => (acc + roi_amount item)%Qc) l a
  = fold_left (fun acc item => (acc + roi_amount item)%Qc)
      (map (set_roi_name "") l) a.
Proof.
  revert a. induction l as [|i r IH]; intros a; simpl; [reflexivity|].
  apply IH.
Qed.

Lemma fold_tax_names (l : list RestaurantOrderItem) (a : Qc) :
  fold_left
    (fun total_tax item =>
       if truthy_num (roi_tax_rate item)
       then (total_tax + roi_amount item * flt (roi_tax_rate item) / Z2Qc 100)%Qc
       else total_tax) l a
  = fold_left
      (fun total_tax item =>
         if truthy_num (roi_tax_rate item)
         then (total_tax + roi_amount item * flt (roi_tax_rate item) / Z2Qc 100)%Qc
         else total_tax) (map (set_roi_name "") l) a.
Proof.
  revert a. induction l as [|i r IH]; intros a; simpl; [reflexivity|].
  apply IH.
Qed.

Lemma amounts_names (l : list RestaurantOrderItem) :
  map (set_roi_name "")
    (map (fun item =>
            set_roi_amount (roi_rate item * Z2Qc (roi_qty item))%Qc item) l)
  = map (fun item =>
           set_roi_amount (roi_rate item * Z2Qc (roi_qty item))%Qc item)
      (map (set_roi_name "") l).
Proof. rewrite !map_map. reflexivity. Qed.

(** The grand total [calculate_totals] computes reads the lines (not their
    names), the tip and the discount, and nothing else of the document. *)
Lemma calculate_totals_reads (settings : RestaurantSettings)
  (a b : RestaurantOrder) :
  map (set_roi_name "") (ro_items a) = map (set_roi_name "") (ro_items b) ->
  ro_tip_amount a = ro_tip_amount b ->
  ro_discount_amount a = ro_discount_amount b ->
  ro_grand_total (calculate_totals settings a)
  = ro_grand_total (calculate_totals settings b).
Proof.
  intros Hm Ht Hd. unfold calculate_totals, calculate_tax. simpl.
  rewrite Ht, Hd.
  rewrite (fold_amounts_names (map _ (ro_items a))),
          (fold_amounts_names (map _ (ro_items b))),
          (fold_tax_names (map _ (ro_items a))),
          (fold_tax_names (map _ (ro_items b))).
  rewrite !amounts_names, Hm. reflexivity.
Qed.

Section Appending.

Variable autoname : string -> nat -> string.

Lemma name_new_rows_run (rows : list RestaurantOrderItem) (d : Db) :
  exists rows' n,
    name_new_rows autoname rows d = (Ok rows', with_serial n d)
    /\ map (set_roi_name "") rows' = map (set_roi_name "") rows.
Proof.
  revert d. induction rows as [|r rest IH]; intros d; simpl.
  - exists [], (db_serial d). split; [|reflexivity].
    unfold ret. now destruct d.
  - destruct (roi_name r =? "").
    + destruct (IH (with_serial (S (db_serial d)) d)) as (rest' & n & E & Hm).
      eexists. exists n. split.
      * erewrite bind_ok; [|erewrite bind_ok; reflexivity].
        erewrite bind_ok; [|exact E]. reflexivity.
      * simpl. now rewrite Hm.
    + destruct (IH d) as (rest' & n & E & Hm).
      eexists. exists n. split.
      * erewrite bind_ok; [|reflexivity].
        erewrite bind_ok; [|exact E]. reflexivity.
      * simpl. now rewrite Hm.
Qed.

Lemma ro_save_appended_run (order : RestaurantOrder) (d : Db) :
  exists rows d',
    ro_save_appended autoname order d
    = (Ok (calculate_totals (db_settings d) (set_ro_items rows order)), d')
    /\ map (set_roi_name "") rows = map (set_roi_name "") (ro_items order).
Proof.
  destruct (name_new_rows_run (ro_items order) d) as (rows & n & E & Hm).
  exists rows.
  assert (E' : exists d',
             ro_save (set_ro_items rows order) (with_serial n d)
             = (Ok (calculate_totals (db_settings d) (set_ro_items rows order)),
                d')).
  { unfold ro_save, bind, gets, modify, update_table_status, when, ret.
    match goal with
    | |- context [if (?a && ?b)%bool then _ else _] => destruct (a && b)%bool
    end; eexists; reflexivity. }
  destruct E' as (d' & E'). exists d'. split; [|exact Hm].
  unfold ro_save_appended.
  erewrite bind_ok; [|exact E]. exact E'.
Qed.

(** X17. [add_items_to_order] on an order that is not 'Completed',
    'Cancelled' or 'Paid' (a 'Served' order is accepted), with entries that
    pass validation, goes through.  The grand total it answers with is the
    one [calculate_totals] computes on saving: subtotal, line tax, the
    service charge of the settings, tip and discount; the total with VAT
    that the endpoint computed before saving is overwritten.  The count is
    that of the old lines and the validated ones. *)
Theorem add_items_answers_saved_total (order_id : string)
  (items : list OrderEntry) (d : Db) (order : RestaurantOrder) :
  find_row ro_name order_id (db_orders d) = Some order ->
  str_in (ro_status order) ["Completed"; "Cancelled"; "Paid"] = false ->
  snd (validate_order_items d items (Some (ro_branch order))) = [] ->
  let validated := fst (validate_order_items d items (Some (ro_branch order))) in
  let saved :=
    calculate_totals (db_settings d)
      (set_ro_items (ro_items order ++ map order_line validated)%list order) in
  (exists d',
     add_items_to_order autoname order_id items d
     = (Ok (Success "Items added successfully"
              {| ad_order_id := order_id;
                 ad_grand_total := ro_grand_total saved;
                 ad_items_count :=
                   (List.length (ro_items order) + List.length validated)%nat |}),
        d'))
  /\ ro_grand_total saved
     = (ro_subtotal saved + ro_tax_amount saved + ro_service_charge saved
        + flt (ro_tip_amount order) - flt (ro_discount_amount order))%Qc.
Proof.
  intros Ho Hs He validated saved. split; [|reflexivity].
  destruct (ro_save_appended_run (append_items validated order) d)
    as (rows & d2 & Es & Hm).
  set (order' := calculate_totals (db_settings d)
                   (set_ro_items rows (append_items validated order))) in *.
  destruct (fan_out_run autoname (additional_kot order')
              (group_by_station station_of_validated validated) d2)
    as (news & d3 & Ek & _).
  { intros g Hg. simpl. intros E. apply map_eq_nil in E.
    exact (group_by_station_nonempty station_of_validated _ g Hg E). }
  assert (Hname : ro_name order' = order_id)
    by exact (find_row_name _ _ _ _ Ho).
  assert (Htotal : ro_grand_total order' = ro_grand_total saved).
  { apply calculate_totals_reads; [exact Hm|reflexivity|reflexivity]. }
  assert (Hcount : List.length (ro_items order')
                   = (List.length (ro_items order) + List.length validated)%nat).
  { unfold order', calculate_totals. simpl. rewrite length_map.
    rewrite <- (length_map (set_roi_name "") rows), Hm, length_map.
    simpl. now rewrite length_app, length_map. }
  eexists. unfold add_items_to_order. apply try_ok.
  erewrite bind_ok; [|unfold get_order; rewrite Ho; reflexivity].
  rewrite Hs.
  erewrite bind_ok; [|reflexivity].
  cbv beta. rewrite He. fold validated.
  erewrite bind_ok; [|exact Es].
  fold order'.
  erewrite bind_ok; [|exact Ek].
  erewrite bind_ok; [|reflexivity].
  rewrite Hname, Htotal, Hcount. reflexivity.
Qed.

(** X18. [add_items_to_order] refuses an order that is 'Completed',
    'Cancelled' or 'Paid', and entries of which one is rejected, without a
    write: the database is as it was.  For rejected entries the answer
    carries the first message only.  An order that does not exist is
    answered with a general message, and the error is logged. *)
Theorem add_items_refusals (order_id : string) (items : list OrderEntry)
  (d : Db) :
  (find_row ro_name order_id (db_orders d) = None ->
   add_items_to_order autoname order_id items d
   = (Ok (Failure "Error adding items" None),
      with_error_log
        (db_error_log d
         ++ ["Add Items Error: Restaurant Order " ++ order_id ++ " not found"])
        d))
  /\ (forall order,
        find_row ro_name order_id (db_orders d) = Some order ->
        (str_in (ro_status order) ["Completed"; "Cancelled"; "Paid"] = true ->
         add_items_to_order autoname order_id items d
         = (Ok (Failure "Cannot modify this order" None), d))
        /\ (forall first rest,
              str_in (ro_status order) ["Completed"; "Cancelled"; "Paid"]
              = false ->
              snd (validate_order_items d items (Some (ro_branch order)))
              = first :: rest ->
              add_items_to_order autoname order_id items d
              = (Ok (Failure first None), d))).
Proof.
  split; [|intros order Ho; split].
  - intros Ho. unfold add_items_to_order.
    erewrite try_raise.
    2:{ erewrite bind_raise; [reflexivity|].
        unfold get_order. rewrite Ho. reflexivity. }
    reflexivity.
  - intros Hs. unfold add_items_to_order. apply try_ok.
    erewrite bind_ok; [|unfold get_order; rewrite Ho; reflexivity].
    rewrite Hs. reflexivity.
  - intros first rest Hs He. unfold add_items_to_order. apply try_ok.
    erewrite bind_ok; [|unfold get_order; rewrite Ho; reflexivity].
    rewrite Hs.
    erewrite bind_ok; [|reflexivity].
    cbv beta. rewrite He. reflexivity.
Qed.

End Appending.

(** ** Priority of a ticket *)

Lemma set_value_missing {A} (name_of : A -> string) (name : string)
  (upd : A -> A) (rows : list A) :
  find_row name_of name rows = None ->
  set_value name_of name upd rows = rows.
Proof.
  unfold find_row, set_value.
  induction rows as [|r rest IH]; simpl; [reflexivity|].
  destruct (name_of r =? name); [discriminate|].
  intros H. now rewrite IH.
Qed.

(** X19. [set_priority] writes the priority of the ticket and nothing else:
    the other fields of the ticket, the other tickets, the orders and the
    error log are as before; no hook runs, so a ticket without lines is
    accepted and the order is not reconciled.  On a ticket that does not
    exist the answer is the failure of the lookup, and the database is as it
    was: nothing is logged. *)
Theorem set_priority_writes_priority_only (d : Db)
  (kot_id priority : string) :
  (forall kot, lookup_kot kot_id d = Some kot ->
     exists d',
       set_priority kot_id priority d
       = (Ok (Success "Priority updated" tt), d')
       /\ lookup_kot kot_id d' = Some (set_kot_priority priority kot)
       /\ (forall n, n <> kot_id -> lookup_kot n d' = lookup_kot n d)
       /\ db_orders d' = db_orders d
       /\ db_error_log d' = db_error_log d)
  /\ (lookup_kot kot_id d = None ->
      set_priority kot_id priority d
      = (Ok (Failure ("Kitchen Order " ++ kot_id ++ " not found") None), d)).
Proof.
  split.
  - intros kot Hk.
    set (d1 := with_kots
                 (set_value kot_name kot_id (set_kot_priority priority)
                    (db_kots d)) d).
    assert (L : forall n,
               lookup_kot n d1
               = option_map
                   (fun r => if kot_name r =? kot_id
                             then set_kot_priority priority r else r)
                   (lookup_kot n d)).
    { intros n. unfold lookup_kot, d1. simpl.
      now rewrite find_row_set_value by reflexivity. }
    assert (Hk1 : lookup_kot kot_id d1 = Some (set_kot_priority priority kot)).
    { rewrite L, Hk. simpl.
      now rewrite (find_row_name _ _ _ _ Hk), String.eqb_refl. }
    eexists. split; [|split; [|split; [|split]]].
    + unfold set_priority. apply try_ok.
      erewrite bind_ok; [|reflexivity]. fold d1.
      erewrite bind_ok; [|exact (get_kot_found _ _ _ Hk1)].
      erewrite bind_ok; [|reflexivity].
      reflexivity.
    + exact Hk1.
    + intros n Hn.
      change (lookup_kot n d1 = lookup_kot n d). rewrite L.
      destruct (lookup_kot n d) as [k|] eqn:Hl; [|reflexivity]. simpl.
      rewrite (find_row_name _ _ _ _ Hl).
      now rewrite (proj2 (String.eqb_neq n kot_id) Hn).
    + reflexivity.
    + reflexivity.
  - intros Hk. unfold set_priority.
    assert (Hd : with_kots
                   (set_value kot_name kot_id (set_kot_priority priority)
                      (db_kots d)) d = d).
    { rewrite (set_value_missing _ _ _ _ Hk). now destruct d. }
    erewrite try_raise.
    2:{ erewrite bind_ok; [|reflexivity]. rewrite Hd.
        erewrite bind_raise; [reflexivity|].
        exact (get_kot_missing _ _ Hk). }
    reflexivity.
Qed.

(** ** The controller's own status methods *)

Lemma readied_lines_refs (now : datetime) (items : list KitchenOrderItem) :
  order_item_refs
    (map (fun item =>
            if negb (koi_status item =? "Ready")
            then set_koi_completed_at (Some now) (set_koi_status "Ready" item)
            else item) items)
  = order_item_refs items.
Proof.
  unfold order_item_refs.
  induction items as [|i r IH]; simpl; [reflexivity|].
  rewrite IH. now destruct (negb (koi_status i =? "Ready")).
Qed.

Lemma served_lines_refs (items : list KitchenOrderItem) :
  order_item_refs (map (set_koi_status "Served") items)
  = order_item_refs items.
Proof.
  unfold order_item_refs.
  induction items as [|i r IH]; simpl; [reflexivity|].
  now rewrite IH.
Qed.

(** X20. The controller methods [start_preparation] and [mark_ready] leave
    the tickets as the endpoint [update_order_status] does for 'Preparing'
    and 'Ready'.  [start_preparation] leaves the orders the same too;
    [mark_ready] writes, on top of what the endpoint does, 'Ready' to the
    order lines the ticket refers to. *)
Theorem controller_methods_and_endpoint (d : Db) (kot_id : string)
  (kot : KitchenOrder) :
  lookup_kot kot_id d = Some kot ->
  kot_items kot <> [] ->
  let started := kot_start_preparation kot d in
  let prepared := after_op (OpUpdate kot_id "Preparing" None) d in
  let readied := kot_mark_ready kot d in
  let ready := after_op (OpUpdate kot_id "Ready" None) d in
  result_of started = Ok tt
  /\ db_kots (state_of started) = db_kots prepared
  /\ db_orders (state_of started) = db_orders prepared
  /\ result_of readied = Ok tt
  /\ db_kots (state_of readied) = db_kots ready
  /\ db_orders (state_of readied)
     = set_lines_status (order_item_refs (kot_items kot)) "Ready"
         (db_orders ready).
Proof.
  intros Hk Hi started prepared readied ready.
  set (order := kot_restaurant_order kot).
  destruct (update_order_status_run d kot_id "Preparing" None kot Hk Hi)
    as (dp & Ep & Hkp & Hop & _).
  destruct (update_order_status_run d kot_id "Ready" None kot Hk Hi)
    as (dr & Er & Hkr & Hor & _).
  cbv zeta in Hkp, Hop, Hkr, Hor.
  set (kp := updated_kot (db_now d) "Preparing" None kot) in *.
  set (kr := updated_kot (db_now d) "Ready" None kot) in *.
  assert (Hip : kot_items kp <> []).
  { unfold kp. simpl. intros E. apply map_eq_nil in E. auto. }
  assert (Hir : kot_items kr <> []).
  { unfold kr. simpl. intros E. apply map_eq_nil in E. auto. }
  assert (Es : started
               = (Ok tt,
                  with_realtime
                    (db_realtime
                       (reconcile order
                          (with_kots (replace_row kot_name kp (db_kots d)) d))
                     ++ [{| rt_event := "restaurant:kot_started";
                            rt_room := "kitchen:" ++ kot_branch kot |}])
                    (reconcile order
                       (with_kots (replace_row kot_name kp (db_kots d)) d)))).
  { unfold started, kot_start_preparation, now_datetime.
    erewrite bind_ok; [|reflexivity].
    erewrite bind_ok; [|exact (kot_save_run kp d Hip)].
    reflexivity. }
  assert (Em : readied
               = publish_realtime "restaurant:order_ready"
                   ("waiters:" ++ kot_branch kot)
                   (with_orders
                      (set_lines_status (order_item_refs (kot_items kr))
                         "Ready"
                         (db_orders
                            (reconcile order
                               (with_kots
                                  (replace_row kot_name kr (db_kots d)) d))))
                      (reconcile order
                         (with_kots (replace_row kot_name kr (db_kots d)) d)))).
  { unfold readied, kot_mark_ready, now_datetime.
    erewrite bind_ok; [|reflexivity].
    erewrite bind_ok; [|exact (kot_save_run kr d Hir)].
    erewrite bind_ok; [|exact (update_order_items_run (kot_items kr) "Ready" _)].
    reflexivity. }
  unfold prepared, ready, after_op. rewrite Ep, Er, Es, Em.
  unfold state_of, result_of, snd, fst, publish_realtime, modify.
  rewrite Hkp, Hop, Hkr, Hor. simpl.
  rewrite !reconcile_twice, !(proj1 (reconcile_frame _ _)).
  repeat split.
  unfold kr. simpl. now rewrite readied_lines_refs.
Qed.

(** X21. The controller method [mark_served] leaves the ticket as
    [bump_order] does, and marks the order lines the same way, but it never
    sets the order 'Served': an order the reconciler may write ends as
    'Preparing', also when this was its last open ticket. *)
Theorem controller_mark_served_leaves_order_open (d : Db) (kot_id : string)
  (kot : KitchenOrder) (o : RestaurantOrder) :
  lookup_kot kot_id d = Some kot ->
  kot_items kot <> [] ->
  let order := kot_restaurant_order kot in
  find_row ro_name order (db_orders d) = Some o ->
  str_in (ro_status o) sticky_statuses = false ->
  let served := kot_mark_served kot d in
  result_of served = Ok tt
  /\ db_kots (state_of served) = db_kots (after_op (OpBump kot_id) d)
  /\ order_line_statuses (state_of served)
     = order_line_statuses (after_op (OpBump kot_id) d)
  /\ order_status order (state_of served) = Some "Preparing".
Proof.
  intros Hk Hi order Ho Hns served.
  destruct (bump_order_runs d kot_id kot Hk Hi) as (db & Eb & Hkb & Hob).
  cbv zeta in Hkb, Hob.
  set (kot' := bumped_kot (db_now d) kot) in *.
  set (d0 := with_kots (replace_row kot_name kot' (db_kots d)) d) in *.
  pose proof (bumped_kot_items_nonempty (db_now d) kot Hi) as Hi'.
  fold kot' in Hi'.
  assert (Es : served
               = (Ok tt,
                  with_orders
                    (set_lines_status (order_item_refs (kot_items kot))
                       "Served" (db_orders (reconcile order d0)))
                    (reconcile order d0))).
  { unfold served, kot_mark_served, now_datetime.
    erewrite bind_ok; [|reflexivity].
    erewrite bind_ok; [|exact (kot_save_run kot' d Hi')].
    rewrite <- (bumped_kot_refs (db_now d) kot).
    exact (update_order_items_run (kot_items kot') "Served" _). }
  assert (Hin' : In kot' (kots_of order d0)).
  { unfold kots_of. apply filter_In. split; [|apply String.eqb_refl].
    assert (L : lookup_kot kot_id d0 = Some kot')
      by (apply (lookup_kot_replaced d d0 kot_id kot kot'); trivial).
    unfold lookup_kot, find_row in L. now apply find_some in L. }
  unfold after_op. rewrite Eb, Es.
  unfold state_of, result_of, snd, fst.
  split; [reflexivity|]. split; [|split].
  - rewrite Hkb. exact (proj1 (reconcile_frame order d0)).
  - unfold order_line_statuses. rewrite Hob. simpl.
    rewrite !set_lines_status_lines. f_equal.
    destruct (all_kots_served _ _); [|reflexivity].
    unfold set_value. rewrite map_map. apply map_ext. intros x.
    now destruct (ro_name x =? _).
  - unfold order_status. simpl.
    rewrite (order_status_heads order _ (db_orders (reconcile order d0)))
      by apply set_lines_status_heads.
    change (order_status order (reconcile order d0) = Some "Preparing").
    rewrite (order_status_reconciled d0 order o); trivial.
    + f_equal. apply new_status_with_served.
      change "Served" with (kot_status kot'). now apply in_map.
    + intros F. rewrite F in Hin'. contradiction.
Qed.

(** ** A request without a countable quantity *)

Lemma validate_all_skipped (d : Db) (branch : option string)
  (items : list OrderEntry) :
  Forall (fun e => (entry_qty e < 1)%Z) items ->
  validate_order_items d items branch = ([], []).
Proof.
  intros H. rewrite validate_order_items_spec.
  unfold validated_lines, rejections.
  induction H as [|e r He _ IH]; [reflexivity|]. simpl.
  rewrite (validate_entry_below_one d branch e He). simpl.
  exact IH.
Qed.

Section Skipping.

Variable autoname : string -> nat -> string.

(** X22. A request whose entries all have a quantity below 1 is not
    refused: every entry is skipped without an error, and [place_order]
    stores an order without lines, in status 'New' and with a grand total
    of 0, creates no ticket, and answers with success and a total of 0. *)
Theorem zero_quantity_request_stores_empty_order (table_code : string)
  (items : list OrderEntry)
  (customer_name customer_phone notes : option string)
  (order_type language : string) (d : Db) (table : RestaurantTable) :
  find (fun t => (rt_qr_code t =? table_code) && rt_enabled t) (db_tables d)
  = Some table ->
  items <> [] ->
  Forall (fun e => (entry_qty e < 1)%Z) items ->
  exists data o d',
    place_order autoname table_code items customer_name customer_phone notes
      order_type language d
    = (Ok (Success "Order placed successfully" data), d')
    /\ pd_order_id data = ro_name o
    /\ pd_grand_total data = 0%Qc
    /\ pd_estimated_time data = 0%Z
    /\ db_orders d' = (db_orders d ++ [o])%list
    /\ ro_items o = []
    /\ ro_status o = "New"
    /\ ro_grand_total o = 0%Qc
    /\ db_kots d' = db_kots d.
Proof.
  intros Ht Hi Hq.
  pose proof (validate_all_skipped d (Some (rt_branch table)) items Hq) as Hv.
  destruct (session_run_frame autoname (rt_name table) customer_name
              customer_phone d) as (session & d1 & Es & Hset & Hord & Hkot & _).
  set (order :=
         {| ro_name := ""; ro_table := rt_name table;
            ro_table_number := rt_table_number table;
            ro_branch := rt_branch table; ro_table_session := session;
            ro_order_type := order_type;
            ro_customer_name := customer_name;
            ro_customer_phone := customer_phone; ro_notes := notes;
            ro_language := language; ro_status := "New";
            ro_subtotal := place_subtotal [];
            ro_service_charge :=
              place_service_charge (db_settings d) (place_subtotal []);
            ro_service_charge_percent :=
              num_or (service_charge_percent (db_settings d)) 0;
            ro_vat :=
              place_vat (db_settings d) (place_subtotal [])
                (place_service_charge (db_settings d) (place_subtotal []));
            ro_vat_percent :=
              num_or (vat_percent (db_settings d)) (Z2Qc 15);
            ro_grand_total :=
              (place_subtotal []
               + place_service_charge (db_settings d) (place_subtotal [])
               + place_vat (db_settings d) (place_subtotal [])
                   (place_service_charge (db_settings d) (place_subtotal [])))%Qc;
            ro_total_qty := 0; ro_tax_amount := 0; ro_tip_amount := None;
            ro_discount_amount := None; ro_restaurant_table := None;
            ro_estimated_preparation_time := max_prep_time [];
            ro_items := map order_line [] |}).
  destruct (ro_insert_runs autoname order d1 eq_refl) as (rows & n & Eo & Hrows).
  cbv zeta in Eo.
  assert (Hr : rows = []) by (apply map_eq_nil in Hrows; exact Hrows).
  subst rows.
  set (o := calculate_totals (db_settings d1)
              (set_ro_items []
                 (set_ro_name (autoname "Restaurant Order" (db_serial d1))
                    order))) in *.
  eexists. exists o. eexists.
  split; [|split; [|split; [|split; [|split; [|split; [|split; [|split]]]]]]].
  - unfold place_order. apply try_ok.
    erewrite bind_ok; [|unfold gets; rewrite Ht; reflexivity].
    destruct items as [|e items']; [contradiction|].
    erewrite bind_ok; [|reflexivity].
    cbv beta. rewrite Hv. cbv beta iota. unfold fst, snd.
    erewrite bind_ok; [|exact Es].
    erewrite bind_ok; [|unfold gets; rewrite Hset; reflexivity].
    fold order.
    erewrite bind_ok; [|exact Eo].
    reflexivity.
  - reflexivity.
  - simpl. unfold place_vat, place_service_charge, place_subtotal, Qcdiv.
    simpl. ring.
  - reflexivity.
  - simpl. now rewrite Hord.
  - reflexivity.
  - reflexivity.
  - destruct (placed_totals (db_settings d1)
                (set_ro_items []
                   (set_ro_name (autoname "Restaurant Order" (db_serial d1))
                      order))
                [] eq_refl (Forall_nil _) eq_refl eq_refl)
      as (_ & _ & Hgt & _).
    fold o in Hgt. rewrite Hgt.
    unfold place_service_charge, place_subtotal, Qcdiv.
    simpl fold_left. ring.
  - simpl. exact Hkot.
Qed.

End Skipping.

(** ** The properties above on the sample restaurant *)

(** A bump of a ticket that does not exist. *)
Lemma ticket_update_fails_cleanly_witness :
  exists msg,
    bump_order "KOT-9" three_line_db
    = (Ok (Failure msg None),
       with_error_log
         (db_error_log three_line_db ++ ["Bump Order Error: " ++ msg])
         three_line_db).
Proof.
  exact (proj1 (proj2 (ticket_update_fails_cleanly three_line_db "KOT-9"
                         (or_introl eq_refl)))).
Defined.

(** The first ticket bumped while the second is still 'Ready': only the
    order line of the first ticket is 'Served'. *)
Lemma bump_serves_referenced_lines_witness :
  order_line_statuses (after_op (OpBump "KOT-1") (linked_db "Ready"))
  = [[("OL-1", "Served"); ("OL-2", "Ready")]].
Proof.
  assert (Hi : kot_items (demo_kot "KOT-1" "ORD-1" "Ready" None
                            [linked_line "L1" "OL-1" "Ready"]) <> [])
    by (simpl; discriminate).
  rewrite (bump_serves_referenced_lines (linked_db "Ready") "KOT-1" _
             eq_refl Hi).
  reflexivity.
Defined.

(** The first ticket bumped after the second was served: the order is
    'Served'. *)
Lemma bump_serves_order_when_last_witness :
  order_status "ORD-1" (after_op (OpBump "KOT-1") (linked_db "Served"))
  = Some "Served".
Proof.
  assert (Hi : kot_items (demo_kot "KOT-1" "ORD-1" "Ready" None
                            [linked_line "L1" "OL-1" "Ready"]) <> [])
    by (simpl; discriminate).
  assert (Hnd : NoDup (map kot_name (db_kots (linked_db "Served")))).
  { simpl. repeat (constructor; [simpl; intuition discriminate|]).
    constructor. }
  apply (proj1 (bump_serves_order_when_last (linked_db "Served") "KOT-1" _ _
                  eq_refl Hi Hnd eq_refl)).
  simpl. intros k [<-|[<-|[]]] _ Hn; [now elim Hn|reflexivity].
Defined.

(** The served ticket recalled: the served order is 'Ready' again. *)
Lemma recall_sets_order_ready_witness :
  order_status "ORD-1" (after_op (OpRecall "KOT-1") served_db) = Some "Ready".
Proof.
  assert (Hi : kot_items (demo_kot "KOT-1" "ORD-1" "Served" (Some 900%Z)
                            [demo_line "L1" "Served"]) <> [])
    by (simpl; discriminate).
  exact (recall_sets_order_ready served_db "KOT-1" _ _ eq_refl Hi eq_refl).
Defined.

(** A line update that names a line the ticket does not have: the sample
    ticket, with lines that are not 'Ready', stays as it is; the 'Ready'
    ticket of the paid order, all of whose lines are 'Ready', is stamped
    with the completion time. *)
Lemma unknown_line_update_succeeds_witness :
  (exists d',
     update_order_status "KOT-1" "Ready" (Some "L9") three_line_db
     = (Ok (Success "Status updated" ("KOT-1", "Preparing")), d')
     /\ lookup_kot "KOT-1" d' = Some three_line_kot)
  /\ (exists kot' d',
        update_order_status "KOT-1" "Preparing" (Some "L9") paid_db
        = (Ok (Success "Status updated" ("KOT-1", "Ready")), d')
        /\ lookup_kot "KOT-1" d' = Some kot'
        /\ kot_status kot' = "Ready"
        /\ kot_completed_at kot' = Some 1000%Z).
Proof.
  assert (Hid : "L9" <> "") by discriminate.
  split.
  - assert (Hi : kot_items three_line_kot <> []) by (simpl; discriminate).
    assert (Hun : forall l, In l (kot_items three_line_kot) ->
                            koi_name l <> "L9").
    { simpl. intros l [<-|[<-|[<-|[]]]]; discriminate. }
    destruct (unknown_line_update_succeeds three_line_db "KOT-1" "Ready" "L9"
                three_line_kot eq_refl Hi Hid Hun)
      as (kot' & d' & E & Hl & _ & Hsame & _).
    assert (Hk : kot' = three_line_kot).
    { apply Hsame. simpl. intros F. inversion F. discriminate. }
    subst kot'. exists d'. split; [exact E|exact Hl].
  - set (kot := demo_kot "KOT-1" "ORD-1" "Ready" None [demo_line "L1" "Ready"]).
    assert (Hi : kot_items kot <> []) by (simpl; discriminate).
    assert (Hun : forall l, In l (kot_items kot) -> koi_name l <> "L9").
    { simpl. intros l [<-|[]]. discriminate. }
    destruct (unknown_line_update_succeeds paid_db "KOT-1" "Preparing" "L9"
                kot eq_refl Hi Hid Hun)
      as (kot' & d' & E & Hl & _ & _ & Hready).
    assert (Hr : Forall (fun l => koi_status l = "Ready") (kot_items kot)).
    { simpl. repeat constructor. }
    destruct (Hready Hr) as (Hs & Hc & _).
    exists kot', d'. rewrite Hs in E.
    split; [exact E|]. split; [exact Hl|]. split; [exact Hs|exact Hc].
Defined.

(** The sample ticket set to 'Served' through the status endpoint. *)
Lemma other_status_update_writes_status_only_witness :
  exists kot',
    lookup_kot "KOT-1"
      (after_op (OpUpdate "KOT-1" "Served" None) three_line_db) = Some kot'
    /\ kot_status kot' = "Served"
    /\ kot_items kot' = three_lines
    /\ kot_served_at kot' = None.
Proof.
  assert (Hi : kot_items three_line_kot <> []) by (simpl; discriminate).
  assert (Hp : "Served" <> "Preparing") by discriminate.
  assert (Hr : "Served" <> "Ready") by discriminate.
  destruct (other_status_update_writes_status_only three_line_db "KOT-1"
              "Served" None three_line_kot eq_refl Hi eq_refl Hp Hr)
    as (kot' & Hl & Hs & Hit & _ & _ & Hsv).
  exists kot'. repeat split; assumption.
Defined.

(** One burger at fees of 10 and 15 percent: the row holds 110, the answer
    126.50, and the row is 'Confirmed'. *)
Lemma placement_stores_order_witness :
  exists o,
    db_orders (state_of (burger_order fees_10_15)) = [o]
    /\ returned_total (result_of (burger_order fees_10_15))
       = Some (Q2Qc (253 # 2))
    /\ ro_grand_total o = Z2Qc 110
    /\ ro_status o = "Confirmed".
Proof.
  assert (Hi : [entry "Burger" 1] <> []) by discriminate.
  assert (Hf : order_names_unused demo_autoname (demo_db fees_10_15)).
  { intros k _. split; reflexivity. }
  destruct (placement_stores_order demo_autoname "qr-1" [entry "Burger" 1]
              None None None "Dine In" "ar" (demo_db fees_10_15) demo_table
              eq_refl Hi eq_refl Hf)
    as (o & d' & E & Ho & _ & _ & _ & Hg & Hs & _).
  exists o. unfold burger_order. rewrite E.
  unfold state_of, result_of, snd, fst, returned_total, pd_grand_total.
  split; [exact Ho|]. split; [|split].
  - f_equal; try (apply Qc_is_canon; vm_compute; reflexivity).
  - rewrite Hg. apply Qc_is_canon. vm_compute. reflexivity.
  - exact Hs.
Defined.

(** The first ticket bumped while the second is still 'Ready': the 'Ready'
    order falls back to 'Preparing'. *)
Lemma bump_with_open_ticket_sets_preparing_witness :
  order_status "ORD-1" (linked_db "Ready") = Some "Ready"
  /\ order_status "ORD-1" (after_op (OpBump "KOT-1") (linked_db "Ready"))
     = Some "Preparing".
Proof.
  split; [reflexivity|].
  assert (Hi : kot_items (demo_kot "KOT-1" "ORD-1" "Ready" None
                            [linked_line "L1" "OL-1" "Ready"]) <> [])
    by (simpl; discriminate).
  apply (bump_with_open_ticket_sets_preparing (linked_db "Ready") "KOT-1" _ _
           eq_refl Hi eq_refl eq_refl).
  exists (demo_kot "KOT-2" "ORD-1" "Ready" None
            [linked_line "L2" "OL-2" "Ready"]).
  split; [simpl; auto|]. split; [reflexivity|].
  split; [discriminate|reflexivity].
Defined.

(** The board, listed in the order of the table, after the first ticket
    was bumped. *)
Lemma bumped_or_recalled_ticket_leaves_board_witness :
  exists entries,
    result_of (get_kitchen_orders (fun l => l) None None None
                 (after_op (OpBump "KOT-1") (linked_db "Preparing")))
    = Ok entries
    /\ ~ In "KOT-1" (map kds_id entries).
Proof.
  assert (Hp : forall l : list KitchenOrder, Permutation l l)
    by (intros l; apply Permutation_refl).
  assert (Hi : kot_items (demo_kot "KOT-1" "ORD-1" "Ready" None
                            [linked_line "L1" "OL-1" "Ready"]) <> [])
    by (simpl; discriminate).
  assert (Hnd : NoDup (map kot_name (db_kots (linked_db "Preparing")))).
  { simpl. repeat (constructor; [simpl; intuition discriminate|]).
    constructor. }
  exact (proj1 (bumped_or_recalled_ticket_leaves_board (fun l => l) Hp
                  (linked_db "Preparing") "KOT-1" _ None None
                  eq_refl Hi Hnd)).
Defined.

(** One burger added to the served order. *)
Lemma add_items_answers_saved_total_witness :
  exists d',
    add_items_to_order demo_autoname "ORD-1" [entry "Burger" 1] served_db
    = (Ok (Success "Items added successfully"
             {| ad_order_id := "ORD-1";
                ad_grand_total :=
                  ro_grand_total
                    (calculate_totals fees_10_15
                       (demo_order "ORD-1" "Served"
                          [demo_order_line "OL-1" "Served";
                           demo_order_line "" "Pending"]));
                ad_items_count := 2 |}), d').
Proof.
  exact (proj1 (add_items_answers_saved_total demo_autoname "ORD-1"
                  [entry "Burger" 1] served_db _ eq_refl eq_refl eq_refl)).
Defined.

(** The sample ticket through the controller methods. *)
Lemma controller_methods_and_endpoint_witness :
  db_kots (state_of (kot_start_preparation three_line_kot three_line_db))
  = db_kots (after_op (OpUpdate "KOT-1" "Preparing" None) three_line_db)
  /\ db_orders (state_of (kot_mark_ready three_line_kot three_line_db))
     = db_orders (after_op (OpUpdate "KOT-1" "Ready" None) three_line_db).
Proof.
  assert (Hi : kot_items three_line_kot <> []) by (simpl; discriminate).
  destruct (controller_methods_and_endpoint three_line_db "KOT-1"
              three_line_kot eq_refl Hi)
    as (_ & Hk & _ & _ & _ & Ho).
  split; [exact Hk|]. rewrite Ho. reflexivity.
Defined.

(** The only ticket of the sample order marked served by the controller
    method: the order is 'Preparing', where a bump makes it 'Served'. *)
Lemma controller_mark_served_leaves_order_open_witness :
  order_status "ORD-1" (state_of (kot_mark_served three_line_kot three_line_db))
  = Some "Preparing"
  /\ order_status "ORD-1" (after_op (OpBump "KOT-1") three_line_db)
     = Some "Served".
Proof.
  assert (Hi : kot_items three_line_kot <> []) by (simpl; discriminate).
  split; [|reflexivity].
  exact (proj2 (proj2 (proj2
           (controller_mark_served_leaves_order_open three_line_db "KOT-1"
              three_line_kot _ eq_refl Hi eq_refl eq_refl)))).
Defined.

(** A salad of quantity 0 and nothing else. *)
Lemma zero_quantity_request_stores_empty_order_witness :
  exists data o d',
    place_order demo_autoname "qr-1" [entry "Salad" 0] None None None
      "Dine In" "ar" (demo_db fees_10_15)
    = (Ok (Success "Order placed successfully" data), d')
    /\ pd_grand_total data = 0%Qc
    /\ db_orders d' = [o]
    /\ ro_items o = []
    /\ db_kots d' = [].
Proof.
  assert (Hi : [entry "Salad" 0] <> []) by discriminate.
  assert (Hq : Forall (fun e => (entry_qty e < 1)%Z) [entry "Salad" 0]).
  { constructor; [reflexivity|constructor]. }
  destruct (zero_quantity_request_stores_empty_order demo_autoname "qr-1"
              [entry "Salad" 0] None None None "Dine In" "ar"
              (demo_db fees_10_15) demo_table eq_refl Hi Hq)
    as (data & o & d' & E & _ & Hg & _ & Ho & Hit & _ & _ & Hk).
  exists data, o, d'. repeat split; assumption.
Defined.

(** The reconciler run for a ticket whose order does not exist. *)
Lemma reconciler_skips_witness :
  update_restaurant_order_status "ORD-1" (kitchen_db [] [three_line_kot])
  = (Ok tt,
     with_error_log
       ["Order Status Update Error: Restaurant Order ORD-1 not found"]
       (kitchen_db [] [three_line_kot])).
Proof.
  assert (Hk : kots_of "ORD-1" (kitchen_db [] [three_line_kot]) <> [])
    by (simpl; discriminate).
  exact (proj2 (reconciler_skips (kitchen_db [] [three_line_kot]) "ORD-1")
           Hk eq_refl).
Defined.

(** The second ticket is as it was after the first was bumped. *)
Lemma ticket_ops_touch_only_their_rows_witness :
  lookup_kot "KOT-2" (after_op (OpBump "KOT-1") (linked_db "Ready"))
  = lookup_kot "KOT-2" (linked_db "Ready").
Proof.
  assert (Hn : "KOT-2" <> op_target (OpBump "KOT-1"))
    by (simpl; discriminate).
  exact (proj1 (ticket_ops_touch_only_their_rows (OpBump "KOT-1")
                  (linked_db "Ready")) "KOT-2" Hn).
Defined.

(** A burger for the paid order. *)
Lemma add_items_refusals_witness :
  add_items_to_order demo_autoname "ORD-1" [entry "Burger" 1] paid_db
  = (Ok (Failure "Cannot modify this order" None), paid_db).
Proof.
  exact (proj1 (proj2 (add_items_refusals demo_autoname "ORD-1"
                         [entry "Burger" 1] paid_db) _ eq_refl) eq_refl).
Defined.

(** The sample ticket rushed. *)
Lemma set_priority_writes_priority_only_witness :
  exists d',
    set_priority "KOT-1" "Rush" three_line_db
    = (Ok (Success "Priority updated" tt), d')
    /\ lookup_kot "KOT-1" d' = Some (set_kot_priority "Rush" three_line_kot)
    /\ db_orders d' = db_orders three_line_db.
Proof.
  destruct (proj1 (set_priority_writes_priority_only three_line_db "KOT-1"
                     "Rush") three_line_kot eq_refl)
    as (d' & E & Hl & _ & Ho & _).
  exists d'. repeat split; assumption.
Defined.

(** Three burgers, 2^53 + 1 burgers and 2^1024 burgers: the quantities
    read are 3, 2^53 (the tie goes to the even significand) and 0. *)
Lemma validated_lines_are_priced_witness :
  entry_qty (entry "Burger" 3) = 3%Z
  /\ entry_qty (entry "Burger" (2 ^ 53 + 1)) = (2 ^ 53)%Z
  /\ entry_qty (entry "Burger" (2 ^ 1024)) = 0%Z.
Proof.
  destruct (validated_lines_are_priced (demo_db fees_10_15)
              [entry "Burger" 3; entry "Burger" (2 ^ 53 + 1);
               entry "Burger" (2 ^ 1024)] (Some "Main"))
    as (_ & _ & Hread).
  inversion Hread as [|e1 r1 H1 Hread1]; subst.
  inversion Hread1 as [|e2 r2 H2 Hread2]; subst.
  inversion Hread2 as [|e3 r3 H3 _]; subst.
  split; [|split].
  - apply (proj1 H1). vm_compute. discriminate.
  - destruct (proj2 (proj2 H2)) as (m & Hm & Hb & Ht).
    { split; vm_compute; reflexivity. }
    change (2 ^ 53 + 1)%Z with 9007199254740993%Z in *.
    change (2 ^ (Z.log2 (Z.abs 9007199254740993) - 52))%Z with 2%Z in *.
    change (2 ^ 53)%Z with 9007199254740992%Z.
    assert (Hc : m = 4503599627370496%Z \/ m = 4503599627370497%Z) by lia.
    destruct Hc as [->| ->]; [exact Hm|].
    assert (E : (2 * Z.abs (entry_qty (entry "Burger" 9007199254740993)
                            - 9007199254740993))%Z = 2%Z) by lia.
    discriminate (Ht E).
  - apply (proj1 (proj2 H3)). vm_compute. discriminate.
Defined.
